(** * Clinical-trial retrieval chatbot: the lexical retrieval core

    A shallow embedding of [indexer.py] (class [TrialIndexer]), [chatbot.py]
    (class [RAGChatbot]) and the [/chat] endpoint of [api.py], together with
    the parts of the Python run time and of the imported package [rank_bm25]
    that these files call.

    Conventions.
    - A Python [str] is a [string]; a character is the code point it
      denotes, so the development covers the code points U+0000..U+00FF
      (Latin-1), on which [str.lower] is a character-wise map.
    - A [float] is represented by the rational it denotes ([Q]); sums,
      products and quotients are exact, and [math.log] is a parameter.  The
      statements below use the order of scores, which entries are zero, the
      shape of results and the closed form of a score in this exact
      arithmetic, never a rounded value.
    - A raised exception is a value of [exn]; a computation that may raise
      returns a [result].
    - [time.time()], [print] and the pickle files are not represented: the
      three pickled objects are the fields of [RAGChatbot.t]. *)

From Stdlib Require Import QArith Strings.Ascii Strings.String DecimalString.
From stdpp Require Import gmap strings list fin_maps.
From Stdlib Require Import Sorting.Sorted.

Open Scope string_scope.
Open Scope list_scope.

(** ** Exceptions *)

Inductive exn : Type :=
| ZeroDivisionError
| IndexError.

Inductive result (A : Type) : Type :=
| Ok (a : A)
| Raise (e : exn).
Arguments Ok {A} a.
Arguments Raise {A} e.

Definition bind {A B : Type} (r : result A) (k : A -> result B) : result B :=
  match r with
  | Ok a => k a
  | Raise e => Raise e
  end.

Notation "'try!' x ':=' r 'in' k" := (bind r (fun x => k))
  (at level 10, x name, r at level 100, k at level 200).

(** ** Python built-ins *)

Module Py.

Definition code (c : ascii) : N := N_of_ascii c.

Definition between (lo hi n : N) : bool := (lo <=? n)%N && (n <=? hi)%N.

(** [str.isspace] on one character: the code points for which
    [_PyUnicode_IsWhitespace] holds, below U+0100. *)
Definition isspace (c : ascii) : bool :=
  let n := code c in
  between 9 13 n || between 28 32 n || (n =? 133)%N || (n =? 160)%N.

(** [str.isalnum] on one character: alphabetic, decimal, digit or numeric.
    Below U+0100 these are the ASCII letters and digits, the letters of
    the Latin-1 supplement, the ordinal indicators, the micro sign, the
    superscript digits and the vulgar fractions. *)
Definition isalnum (c : ascii) : bool :=
  let n := code c in
  between 48 57 n || between 65 90 n || between 97 122 n
  || (n =? 170)%N || between 178 179 n || (n =? 181)%N
  || between 185 186 n || between 188 190 n
  || between 192 214 n || between 216 246 n || between 248 255 n.

(** An ASCII letter or an ASCII digit. *)
Definition is_ascii_alnum (c : ascii) : bool :=
  let n := code c in
  between 48 57 n || between 65 90 n || between 97 122 n.

Definition is_ascii (c : ascii) : bool := (code c <? 128)%N.

(** [str.lower] on one character: the upper-case letters are A..Z and
    U+00C0..U+00DE without the multiplication sign U+00D7. *)
Definition lower_char (c : ascii) : ascii :=
  let n := code c in
  if between 65 90 n || between 192 214 n || between 216 222 n
  then ascii_of_N (n + 32)
  else c.

Fixpoint str_map (f : ascii -> ascii) (s : string) : string :=
  match s with
  | EmptyString => EmptyString
  | String c s' => String (f c) (str_map f s')
  end.

Fixpoint str_filter (p : ascii -> bool) (s : string) : string :=
  match s with
  | EmptyString => EmptyString
  | String c s' => if p c then String c (str_filter p s') else str_filter p s'
  end.

Fixpoint str_forallb (p : ascii -> bool) (s : string) : bool :=
  match s with
  | EmptyString => true
  | String c s' => p c && str_forallb p s'
  end.

(** [bool(s)] for a string: the empty string is false. *)
Definition truthy (s : string) : bool :=
  match s with
  | EmptyString => false
  | String _ _ => true
  end.

(** [s.lower()] *)
Definition lower (s : string) : string := str_map lower_char s.

(** [''.join(c for c in s if p(c))] *)
Definition join_if (p : ascii -> bool) (s : string) : string := str_filter p s.

(** The word being scanned is closed: it joins the output when it has at
    least one character. *)
Definition emit (cur : string) : list string :=
  if truthy cur then [cur] else [].

(** [s.split()] with no separator: one left-to-right scan; white space
    closes the current word, any other character extends it. *)
Fixpoint split_from (cur : string) (s : string) : list string :=
  match s with
  | EmptyString => emit cur
  | String c s' =>
      if isspace c then emit cur ++ split_from EmptyString s'
      else split_from (cur +:+ String c EmptyString) s'
  end.

Definition split (s : string) : list string := split_from EmptyString s.

(** [sep.join(parts)] *)
Fixpoint join (sep : string) (parts : list string) : string :=
  match parts with
  | [] => EmptyString
  | [p] => p
  | p :: rest => p +:+ sep +:+ join sep rest
  end.

(** [s.replace(old, new)] for one-character [old] and [new]. *)
Definition replace_char (old new : ascii) (s : string) : string :=
  str_map (fun c => if Ascii.eqb c old then new else c) s.

(** [xs[:n]]: a negative bound counts from the end, and the bound is
    clipped to the list. *)
Definition slice_to {A : Type} (xs : list A) (n : Z) : list A :=
  if (n <? 0)%Z
  then firstn (Z.to_nat (Z.of_nat (length xs) + n)) xs
  else firstn (Z.to_nat n) xs.

(** [s[:n]] for a string and [n >= 0]. *)
Fixpoint str_take (n : nat) (s : string) : string :=
  match n, s with
  | S n', String c s' => String c (str_take n' s')
  | _, _ => EmptyString
  end.

Section Sorted.
Context {A K : Type}.
Variable key : A -> K.
Variable lt : K -> K -> bool.

(** Insertion in front of the first element that is not smaller: the
    inserted element stood before all of [l] in the input, so equal
    keys keep their input order. Only [<] compares keys. *)
Fixpoint insert_stable (x : A) (l : list A) : list A :=
  match l with
  | [] => [x]
  | y :: l' =>
      if lt (key y) (key x) then y :: insert_stable x l'
      else x :: y :: l'
  end.

(** [list.sort(key=key)]: ascending and stable. *)
Fixpoint sort_stable (l : list A) : list A :=
  match l with
  | [] => []
  | x :: l' => insert_stable x (sort_stable l')
  end.

(** [sorted(l, key=key, reverse=reverse)]: with [reverse] the list is
    reversed, sorted ascending and reversed again, which keeps equal
    keys in their input order. *)
Definition sorted (reverse : bool) (l : list A) : list A :=
  if reverse then rev (sort_stable (rev l)) else sort_stable l.
End Sorted.

(** [range(n)] *)
Definition range (n : nat) : list nat := seq 0 n.

End Py.

(** Comparison of two floats with [<]. *)
Definition Qltb (x y : Q) : bool := negb (Qle_bool y x).

(** An [int] used in float arithmetic. *)
Definition Qnat (n : nat) : Q := inject_Z (Z.of_nat n).

(** One trial record as [json.load] returns it: a dict from field names to
    string values. *)
Abbreviation Trial := (gmap string string).

(** ** [rank_bm25]: the imported ranking package

    [BM25Okapi] as the two files use it: the constructor (the base class
    [BM25.__init__] with [_initialize], and [BM25Okapi._calc_idf]) and
    [get_scores]. *)

Module rank_bm25.
Section WithLog.

(** [math.log] *)
Variable log : Q -> Q.

Record BM25Okapi : Type := {
  k1 : Q;
  b : Q;
  epsilon : Q;
  corpus_size : nat;
  avgdl : Q;
  doc_freqs : list (gmap string nat);
  idf : gmap string Q;
  doc_len : list nat;
  average_idf : Q
}.

(** The state of the loop of [_initialize]. *)
Record counts : Type := {
  c_corpus_size : nat;
  c_doc_len : list nat;
  c_doc_freqs : list (gmap string nat);
  c_nd : gmap string nat;
  c_num_doc : nat
}.

(** [frequencies[word] += 1], starting at 0 for a new word. *)
Definition count_word (frequencies : gmap string nat) (word : string)
  : gmap string nat :=
  <[word := S (default 0 (frequencies !! word))]> frequencies.

Definition frequencies_of (document : list string) : gmap string nat :=
  fold_left count_word document ∅.

(** [nd[word] += 1], or [nd[word] = 1] on a [KeyError]. *)
Definition count_document (word : string) (freq : nat) (nd : gmap string nat)
  : gmap string nat :=
  <[word := S (default 0 (nd !! word))]> nd.

Definition initialize_step (st : counts) (document : list string) : counts :=
  let frequencies := frequencies_of document in
  {| c_doc_len := c_doc_len st ++ [length document];
     c_num_doc := c_num_doc st + length document;
     c_doc_freqs := c_doc_freqs st ++ [frequencies];
     c_nd := map_fold count_document (c_nd st) frequencies;
     c_corpus_size := c_corpus_size st + 1 |}.

Definition counts0 : counts :=
  {| c_corpus_size := 0; c_doc_len := []; c_doc_freqs := [];
     c_nd := ∅; c_num_doc := 0 |}.

(** [_initialize]: the loop over the corpus, then
    [self.avgdl = num_doc / self.corpus_size]. *)
Definition _initialize (corpus : list (list string)) : result (counts * Q) :=
  let st := fold_left initialize_step corpus counts0 in
  if (c_corpus_size st =? 0)%nat then Raise ZeroDivisionError
  else Ok (st, (Qnat (c_num_doc st) / Qnat (c_corpus_size st))%Q).

(** The state of the loop of [_calc_idf]: [self.idf], [idf_sum] and
    [negative_idfs]. *)
Definition idf_state : Type := gmap string Q * Q * list string.

Definition calc_idf_step (corpus_size : nat) (word : string) (freq : nat)
  (st : idf_state) : idf_state :=
  let '(idf, idf_sum, negative_idfs) := st in
  let v := (log (inject_Z (Z.of_nat corpus_size - Z.of_nat freq) + (1 # 2))
            - log (Qnat freq + (1 # 2)))%Q in
  (<[word := v]> idf, (idf_sum + v)%Q,
   if Qltb v 0 then negative_idfs ++ [word] else negative_idfs).

(** [_calc_idf]: the loop over [nd], then
    [self.average_idf = idf_sum / len(self.idf)] and the floor [eps] for
    the words whose idf is negative. *)
Definition _calc_idf (epsilon : Q) (corpus_size : nat) (nd : gmap string nat)
  : result (gmap string Q * Q) :=
  let '(idf, idf_sum, negative_idfs) :=
    map_fold (calc_idf_step corpus_size) (∅, 0%Q, []) nd in
  if (size idf =? 0)%nat then Raise ZeroDivisionError
  else
    let average_idf := (idf_sum / Qnat (size idf))%Q in
    let eps := (epsilon * average_idf)%Q in
    Ok (fold_left (fun idf word => <[word := eps]> idf) negative_idfs idf,
        average_idf).

(** [BM25Okapi(corpus)] with the default [k1], [b] and [epsilon]. *)
Definition new (corpus : list (list string)) : result BM25Okapi :=
  let k1 := (3 # 2)%Q in
  let b := (3 # 4)%Q in
  let epsilon := (1 # 4)%Q in
  try! init := _initialize corpus in
  let '(st, avgdl) := init in
  try! idfs := _calc_idf epsilon (c_corpus_size st) (c_nd st) in
  let '(idf, average_idf) := idfs in
  Ok {| k1 := k1; b := b; epsilon := epsilon;
        corpus_size := c_corpus_size st; avgdl := avgdl;
        doc_freqs := c_doc_freqs st; idf := idf;
        doc_len := c_doc_len st; average_idf := average_idf |}.

(** The array added to [score] for one query token.  On an index that the
    constructor built, [doc_freqs] and [doc_len] have [corpus_size] entries
    and [avgdl] is positive, so that [zip_with] drops nothing and no
    quotient has a zero denominator; the statements about scores are made
    for such an index. *)
Definition term_scores (self : BM25Okapi) (q : string) : list Q :=
  let q_freq := map (fun doc => Qnat (default 0%nat (doc !! q))) (doc_freqs self) in
  let w := default 0%Q (idf self !! q) in
  zip_with
    (fun tf dl =>
       (w * (tf * (k1 self + 1)
             / (tf + k1 self * (1 - b self + b self * Qnat dl / avgdl self))))%Q)
    q_freq (doc_len self).

(** [get_scores]: [np.zeros(self.corpus_size)], then one addition per
    query token. *)
Definition get_scores (self : BM25Okapi) (query : list string) : list Q :=
  fold_left (fun score q => zip_with Qplus score (term_scores self q))
    query (repeat 0%Q (corpus_size self)).

End WithLog.
End rank_bm25.

(** ** [indexer.py] *)

Module TrialIndexer.

Definition newline : ascii := "010"%char.
Definition space : ascii := " "%char.

(** [if trial.get(key): parts.append(f"{label}: {trial[key]}")] *)
Definition add_field (trial : Trial) (key label : string)
  (shown : string -> string) (parts : list string) : list string :=
  match trial !! key with
  | Some v =>
      if Py.truthy v then parts ++ [label +:+ ": " +:+ shown v] else parts
  | None => parts
  end.

Definition create_trial_text (trial : Trial) : string :=
  let same := fun v : string => v in
  let parts := [] in
  let parts := add_field trial "NCTId" "Trial ID" same parts in
  let parts := add_field trial "BriefTitle" "Title" same parts in
  let parts := add_field trial "OfficialTitle" "Official Title" same parts in
  let parts := add_field trial "OverallStatus" "Status" same parts in
  let parts := add_field trial "Phase" "Phase" same parts in
  let parts := add_field trial "StudyType" "Study Type" same parts in
  let parts := add_field trial "Conditions" "Conditions" same parts in
  let parts := add_field trial "Interventions" "Interventions" same parts in
  let parts := add_field trial "EligibilityCriteria" "Eligibility"
                 (Py.replace_char newline space) parts in
  let parts := add_field trial "HealthyVolunteers" "Healthy Volunteers" same parts in
  let parts := add_field trial "Sex" "Sex" same parts in
  let parts := add_field trial "MinimumAge" "Minimum Age" same parts in
  let parts := add_field trial "MaximumAge" "Maximum Age" same parts in
  let parts := add_field trial "StandardAges" "Ages" same parts in
  let parts := add_field trial "PrimaryContactName" "Contact" same parts in
  let parts := add_field trial "PrimaryContactEmail" "Email" same parts in
  let parts := add_field trial "PrincipalInvestigatorName" "PI" same parts in
  let parts := add_field trial "PrincipalInvestigatorAffiliation" "Affiliation" same parts in
  let parts := add_field trial "USLocations" "Locations" same parts in
  let parts := add_field trial "Country" "Country" same parts in
  let parts := add_field trial "StartDate" "Start Date" same parts in
  let parts := add_field trial "CompletionDate" "Completion Date" same parts in
  let parts := add_field trial "PrimaryOutcomes" "Primary Outcomes" same parts in
  let parts := add_field trial "SecondaryOutcomes" "Secondary Outcomes" same parts in
  Py.join " " parts.

Definition tokenize (text : string) : list string :=
  let tokens := Py.split (Py.lower text) in
  let tokens := map (Py.join_if Py.isalnum) tokens in
  let tokens := List.filter Py.truthy tokens in
  tokens.

(** What [save_index] writes: [bm25_index.pkl], [tokenized_corpus.pkl]
    and [trials_data.pkl]. *)
Record saved : Type := {
  bm25 : rank_bm25.BM25Okapi;
  tokenized_corpus : list (list string);
  trials : list Trial
}.

(** [build_index], with the records that [load_trials] read as input. *)
Definition build_index (log : Q -> Q) (loaded : list Trial) : result saved :=
  let trials := loaded in
  let corpus :=
    fold_left (fun corpus trial => corpus ++ [create_trial_text trial])
      trials [] in
  let tokenized_corpus := map tokenize corpus in
  try! bm25 := rank_bm25.new log tokenized_corpus in
  Ok {| bm25 := bm25; tokenized_corpus := tokenized_corpus; trials := trials |}.

End TrialIndexer.

(** ** [chatbot.py] *)

Module RAGChatbot.

(** The attributes of a chatbot: the three unpickled objects and the
    query counter of [self.stats] (the accumulated times are not
    represented). *)
Record t : Type := {
  bm25 : rank_bm25.BM25Okapi;
  tokenized_corpus : list (list string);
  trials : list Trial;
  total_queries : nat
}.

(** [__init__] on the files that [save_index] wrote. *)
Definition init (files : TrialIndexer.saved) : t :=
  {| bm25 := TrialIndexer.bm25 files;
     tokenized_corpus := TrialIndexer.tokenized_corpus files;
     trials := TrialIndexer.trials files;
     total_queries := 0 |}.

Definition tokenize (text : string) : list string :=
  let tokens := Py.split (Py.lower text) in
  let tokens := map (Py.join_if Py.isalnum) tokens in
  let tokens := List.filter Py.truthy tokens in
  tokens.

(** One entry of [relevant_trials]. *)
Record trial_info : Type := {
  trial : Trial;
  score : Q;
  index : nat
}.

(** The loop that builds [relevant_trials]; [self.trials[idx]] raises
    [IndexError] past the end of the list. *)
Fixpoint build_results (trials : list Trial) (scores : list Q)
  (top_n_indices : list nat) (relevant_trials : list trial_info)
  : result (list trial_info) :=
  match top_n_indices with
  | [] => Ok relevant_trials
  | idx :: rest =>
      match trials !! idx with
      | None => Raise IndexError
      | Some trial =>
          let trial_info :=
            {| trial := trial; score := nth idx scores 0%Q; index := idx |} in
          build_results trials scores rest (relevant_trials ++ [trial_info])
      end
  end.

(** [retrieve_relevant_trials]; the second component of the returned
    pair, the elapsed time, is not represented. In the sort key
    [scores[i]] the index is always in range. *)
Definition retrieve_relevant_trials (self : t) (query : string) (n_results : Z)
  : result (list trial_info) :=
  let tokenized_query := tokenize query in
  let scores := rank_bm25.get_scores (bm25 self) tokenized_query in
  let top_n_indices :=
    Py.slice_to
      (Py.sorted (fun i => nth i scores 0%Q) Qltb true
         (Py.range (length scores)))
      n_results in
  build_results (trials self) scores top_n_indices [].

(** The default of the parameter [n_results]. *)
Definition default_n_results : Z := 10.

Definition nl : string := String "010"%char EmptyString.
Definition quote : string := String "034"%char EmptyString.

(** [trial.get(key, fallback)] *)
Definition get_or (trial : Trial) (key fallback : string) : string :=
  default fallback (trial !! key).

(** [if trial.get(key): context += f"{label}: {...}\n"] *)
Definition add_line (trial : Trial) (key label : string)
  (shown : string -> string) (context : string) : string :=
  match trial !! key with
  | Some v =>
      if Py.truthy v then context +:+ label +:+ ": " +:+ shown v +:+ nl
      else context
  | None => context
  end.

Definition decimal (n : nat) : string :=
  DecimalString.NilEmpty.string_of_uint (Nat.to_uint n).

(** The text of one trial in [format_context]; [i] counts from 1. *)
Definition format_trial (i : nat) (item : trial_info) : string :=
  let trial := trial item in
  let same := fun v : string => v in
  let context :=
    nl +:+ "[Trial " +:+ decimal i +:+ " - " +:+ get_or trial "NCTId" "Unknown"
    +:+ "]" +:+ nl in
  let context := context +:+ "Title: " +:+ get_or trial "BriefTitle" "N/A" +:+ nl in
  let context := add_line trial "OfficialTitle" "Official Title" same context in
  let context := context +:+ "Status: " +:+ get_or trial "OverallStatus" "N/A" +:+ nl in
  let context := context +:+ "Phase: " +:+ get_or trial "Phase" "N/A" +:+ nl in
  let context := context +:+ "Study Type: " +:+ get_or trial "StudyType" "N/A" +:+ nl in
  let context := context +:+ "Conditions: " +:+ get_or trial "Conditions" "N/A" +:+ nl in
  let context := add_line trial "Interventions" "Interventions" same context in
  let context :=
    add_line trial "EligibilityCriteria" "Eligibility (excerpt)"
      (fun v => Py.str_take 500 v +:+ "...") context in
  let context := add_line trial "HealthyVolunteers" "Healthy Volunteers" same context in
  let context := add_line trial "Sex" "Sex" same context in
  let context :=
    add_line trial "MinimumAge" "Age Range"
      (fun _ => get_or trial "MinimumAge" "N/A" +:+ " - "
                +:+ get_or trial "MaximumAge" "N/A") context in
  let context := add_line trial "USLocations" "Locations" same context in
  let context := add_line trial "PrimaryContactEmail" "Contact Email" same context in
  let context := add_line trial "PrimaryContactPhone" "Contact Phone" same context in
  let context := add_line trial "StartDate" "Start Date" same context in
  context.

(** [enumerate(items, start)] *)
Fixpoint enumerate {A : Type} (start : nat) (items : list A) : list (nat * A) :=
  match items with
  | [] => []
  | x :: rest => (start, x) :: enumerate (S start) rest
  end.

Definition format_context (relevant_trials : list trial_info) : string :=
  match relevant_trials with
  | [] => "No relevant clinical trials found."
  | _ =>
      let context_parts :=
        fold_left
          (fun context_parts '(i, item) => context_parts ++ [format_trial i item])
          (enumerate 1 relevant_trials) [] in
      Py.join nl context_parts
  end.

Definition system_prompt : string :=
  "You are a professional clinical trial information assistant. Your tasks:" +:+ nl
  +:+ "1. Answer questions based ONLY on the provided clinical trial data" +:+ nl
  +:+ "2. Always cite specific Trial IDs (NCTId) as sources" +:+ nl
  +:+ "3. If the provided data doesn't contain relevant information, clearly state "
  +:+ quote +:+ "Based on the provided data, I cannot find relevant information"
  +:+ quote +:+ nl
  +:+ "4. Do not fabricate or speculate any information" +:+ nl
  +:+ "5. Use concise, professional language to answer" +:+ nl
  +:+ "6. If the question involves multiple trials, list all relevant trials with their IDs".

Definition user_prompt (query context : string) : string :=
  "Answer the question based on the following clinical trial data." +:+ nl
  +:+ nl
  +:+ "Clinical Trial Data:" +:+ nl
  +:+ context +:+ nl
  +:+ nl
  +:+ "User Question: " +:+ query +:+ nl
  +:+ nl
  +:+ "Please provide an answer based on the above data and cite specific Trial IDs. If the data doesn't contain relevant information, please state it clearly.".

(** One entry of [sources]. [Score] and [Relevance] hold the numbers
    that the source formats with two and one decimals. *)
Record source : Type := {
  NCTId : string;
  Title : string;
  Score : Q;
  Relevance : Q
}.

(** [min(x, y)] on two numbers: the first one unless the second is
    smaller. *)
Definition py_min (x y : Q) : Q := if Qltb y x then y else x.

Definition source_of (item : trial_info) : source :=
  {| NCTId := get_or (trial item) "NCTId" "Unknown";
     Title := get_or (trial item) "BriefTitle" "N/A";
     Score := score item;
     Relevance := py_min (score item * 10) 100 |}.

(** The dict that [chat] returns, without its [timing] entry. *)
Record chat_result : Type := {
  answer : string;
  sources : list source;
  context : string
}.

Section WithService.

(** The completion request to the language model, on the system and
    the user message: the content of the first choice, or the text of
    the exception. *)
Variable create_completion : string -> string -> string + string.

(** [generate_answer], without the elapsed time. *)
Definition generate_answer (query context : string) : string :=
  match create_completion system_prompt (user_prompt query context) with
  | inl content => content
  | inr e => "Sorry, error generating answer: " +:+ e
  end.

(** [chat]: the returned dict and the chatbot after the update of its
    statistics. *)
Definition chat (self : t) (query : string) : result (chat_result * t) :=
  try! relevant_trials := retrieve_relevant_trials self query default_n_results in
  let context := format_context relevant_trials in
  let answer := generate_answer query context in
  let self' :=
    {| bm25 := bm25 self; tokenized_corpus := tokenized_corpus self;
       trials := trials self; total_queries := total_queries self + 1 |} in
  let sources :=
    fold_left (fun sources item => sources ++ [source_of item])
      relevant_trials [] in
  Ok ({| answer := answer; sources := sources; context := context |}, self').

End WithService.

End RAGChatbot.

(** ** [api.py]: the [/chat] endpoint *)

Module Api.

(** A request that passed validation. *)
Record ChatRequest : Type := {
  query : string;
  n_results : option Z
}.

(** The constraints of the two fields: [min_length=1], [max_length=1000],
    [ge=1], [le=20]. *)
Definition valid (request : ChatRequest) : bool :=
  (1 <=? String.length (query request))%nat
  && (String.length (query request) <=? 1000)%nat
  && match n_results request with
     | None => true
     | Some n => (1 <=? n)%Z && (n <=? 20)%Z
     end.

(** The default of [n_results]. *)
Definition default_n_results : option Z := Some 5%Z.

(** [ChatResponse], without [timing] and [timestamp]. *)
Record ChatResponse : Type := {
  success : bool;
  r_query : string;
  r_answer : string;
  r_sources : list RAGChatbot.source
}.

Inductive http (A : Type) : Type :=
| Respond (a : A)
| HTTPException (status_code : nat) (cause : option exn).
Arguments Respond {A} a.
Arguments HTTPException {A} status_code cause.

Section WithService.
Variable create_completion : string -> string -> string + string.

(** The handler of [POST /chat] on the global [chatbot]; it returns the
    reply and the global afterwards. *)
Definition chat (chatbot : option RAGChatbot.t) (request : ChatRequest)
  : http ChatResponse * option RAGChatbot.t :=
  match chatbot with
  | None => (HTTPException 503 None, chatbot)
  | Some self =>
      match RAGChatbot.chat create_completion self (query request) with
      | Ok (result, self') =>
          (Respond {| success := true;
                      r_query := query request;
                      r_answer := RAGChatbot.answer result;
                      r_sources := RAGChatbot.sources result |},
           Some self')
      | Raise e => (HTTPException 500 (Some e), chatbot)
      end
  end.
End WithService.

End Api.

(** ** Vocabulary of the statements *)

(** [tokenize] in the words of the specification: lower-case, split on
    white space, keep the ASCII letters and ASCII digits of each token,
    drop the tokens that became empty. *)
Definition tokenize_as_specified (text : string) : list string :=
  List.filter Py.truthy
    (map (Py.join_if Py.is_ascii_alnum) (Py.split (Py.lower text))).

(** A character that [str.lower] leaves as it is. *)
Definition fixed_by_lower (c : ascii) : bool := Ascii.eqb (Py.lower_char c) c.

Definition not_space (c : ascii) : bool := negb (Py.isspace c).

(** What follows a word: the end of the string or a white-space character. *)
Definition at_boundary (post : string) : bool :=
  match post with
  | EmptyString => true
  | String c _ => Py.isspace c
  end.

(** Latin small letter e with acute, U+00E9. *)
Definition e_acute : string := String "233"%char EmptyString.

(** The chatbot holds the three objects of [files], whatever its query
    counter. *)
Definition loaded_from (files : TrialIndexer.saved) (self : RAGChatbot.t) : Prop :=
  RAGChatbot.bm25 self = TrialIndexer.bm25 files
  /\ RAGChatbot.tokenized_corpus self = TrialIndexer.tokenized_corpus files
  /\ RAGChatbot.trials self = TrialIndexer.trials files.

(** The entry of [relevant_trials] for the corpus position [idx]. *)
Definition entry (trials : list Trial) (scores : list Q) (idx : nat)
  : RAGChatbot.trial_info :=
  {| RAGChatbot.trial := default ∅ (trials !! idx);
     RAGChatbot.score := nth idx scores 0%Q;
     RAGChatbot.index := idx |}.

(** The order of a result list: higher score first, equal scores by
    ascending corpus position. *)
Definition precedes (a b : RAGChatbot.trial_info) : Prop :=
  (RAGChatbot.score b < RAGChatbot.score a)%Q
  \/ ((RAGChatbot.score a == RAGChatbot.score b)%Q
      /\ (RAGChatbot.index a < RAGChatbot.index b)%nat).

(** [x] stands before [y] in an ascending stable sort of a list laid out
    by [T]: smaller key, or same key and before [y] in the input. *)
Definition ascending {A : Type} (key : A -> Q) (T : A -> A -> Prop) (x y : A)
  : Prop :=
  (key x < key y)%Q \/ ((key x == key y)%Q /\ T x y).

(** The order of [sorted(range(n), key=..., reverse=True)]: by key
    descending, equal keys by position ascending. *)
Definition ranked_before (key : nat -> Q) (i j : nat) : Prop :=
  (key j < key i)%Q \/ ((key i == key j)%Q /\ (i < j)%nat).

(** A chatbot whose index has one entry per trial. *)
Definition aligned (self : RAGChatbot.t) : Prop :=
  length (rank_bm25.doc_len (RAGChatbot.bm25 self))
  = rank_bm25.corpus_size (RAGChatbot.bm25 self)
  /\ length (rank_bm25.doc_freqs (RAGChatbot.bm25 self))
     = rank_bm25.corpus_size (RAGChatbot.bm25 self)
  /\ rank_bm25.corpus_size (RAGChatbot.bm25 self) = length (RAGChatbot.trials self).

(** [sorted(range(len(scores)), key=lambda i: scores[i], reverse=True)] *)
Definition ranking (scores : list Q) : list nat :=
  Py.sorted (fun i => nth i scores 0%Q) Qltb true (Py.range (length scores)).

(** The field names that [create_trial_text] reads. *)
Definition indexed_fields : list string :=
  ["NCTId"; "BriefTitle"; "OfficialTitle"; "OverallStatus"; "Phase";
   "StudyType"; "Conditions"; "Interventions"; "EligibilityCriteria";
   "HealthyVolunteers"; "Sex"; "MinimumAge"; "MaximumAge"; "StandardAges";
   "PrimaryContactName"; "PrimaryContactEmail"; "PrincipalInvestigatorName";
   "PrincipalInvestigatorAffiliation"; "USLocations"; "Country"; "StartDate";
   "CompletionDate"; "PrimaryOutcomes"; "SecondaryOutcomes"].

(** The (position, score) pairs of a result. *)
Definition pairs (r : result (list RAGChatbot.trial_info)) : result (list (nat * Q)) :=
  try! items := r in
  Ok (map (fun item => (RAGChatbot.index item, RAGChatbot.score item)) items).

(** ** A small corpus for closed examples *)

(** A rational stand-in for [math.log] in closed examples: the first two
    terms of [2 artanh ((x - 1) / (x + 1))].  The theorems hold for every
    [log]; only the closed examples evaluate this one. *)
Definition log_q (x : Q) : Q :=
  let z := ((x - 1) / (x + 1))%Q in
  (2 * z * (1 + z * z / 3))%Q.

Definition sample_trials : list Trial :=
  [ {[ "BriefTitle" := "PTSD trial (adult)" ]};
    {[ "Conditions" := "Cancer; trial" ]};
    ∅ ].

Definition sample_chatbot : result RAGChatbot.t :=
  try! files := TrialIndexer.build_index log_q sample_trials in
  Ok (RAGChatbot.init files).

Definition sample_retrieve (query : string) (n_results : Z)
  : result (list RAGChatbot.trial_info) :=
  try! self := sample_chatbot in
  RAGChatbot.retrieve_relevant_trials self query n_results.

(** A completion service that answers with a fixed text. *)
Definition sample_service (system user : string) : string + string :=
  inl "ok".

(** The corpus positions of a result. *)
Definition positions (r : result (list RAGChatbot.trial_info)) : result (list nat) :=
  try! items := r in
  Ok (map RAGChatbot.index items).

(** ** More of [chatbot.py]: a run of queries and [get_stats] *)

Module Session.
Section WithService.
Variable create_completion : string -> string -> string + string.

(** [for query in queries: result = chatbot.chat(query)], as [main] and the
    user interface call it: the results in order and the chatbot after the
    last call. *)
Fixpoint chat_each (self : RAGChatbot.t) (queries : list string)
  : result (list RAGChatbot.chat_result * RAGChatbot.t) :=
  match queries with
  | [] => Ok ([], self)
  | query :: rest =>
      try! step := RAGChatbot.chat create_completion self query in
      let '(result, self') := step in
      try! tail := chat_each self' rest in
      let '(results, self'') := tail in
      Ok (result :: results, self'')
  end.

End WithService.

(** A value of the statistics dict: the query counter, a time total kept
    as a number, or a time written by an f-string. The times themselves
    are not represented. *)
Inductive stat : Type :=
| Count (n : nat)
| Seconds
| Formatted.

(** [get_stats]: before the first query the dict [self.stats] itself,
    afterwards the dict of formatted averages and totals. *)
Definition get_stats (self : RAGChatbot.t) : gmap string stat :=
  if (RAGChatbot.total_queries self =? 0)%nat then
    {[ "total_queries" := Count (RAGChatbot.total_queries self);
       "total_retrieval_time" := Seconds;
       "total_api_time" := Seconds;
       "total_time" := Seconds ]}
  else
    {[ "total_queries" := Count (RAGChatbot.total_queries self);
       "avg_retrieval_time" := Formatted;
       "avg_api_time" := Formatted;
       "avg_total_time" := Formatted;
       "total_retrieval_time" := Formatted;
       "total_api_time" := Formatted;
       "total_time" := Formatted ]}.

End Session.

(** ** More of [api.py]: [/stats] and [/reset-stats] *)

Module ApiStats.

(** [StatsResponse]; its six string fields are not represented. *)
Record StatsResponse : Type := {
  total_queries : nat
}.

(** A field declared [str] takes a string only. *)
Definition is_str (v : option Session.stat) : bool :=
  match v with
  | Some Session.Formatted => true
  | _ => false
  end.

(** [StatsResponse] built from the keys of the dict: every field is
    required; [None] stands for the [ValidationError]. *)
Definition validate (stats : gmap string Session.stat) : option StatsResponse :=
  match stats !! "total_queries" with
  | Some (Session.Count n) =>
      if is_str (stats !! "avg_retrieval_time")
         && is_str (stats !! "avg_api_time")
         && is_str (stats !! "avg_total_time")
         && is_str (stats !! "total_retrieval_time")
         && is_str (stats !! "total_api_time")
         && is_str (stats !! "total_time")
      then Some {| total_queries := n |}
      else None
  | _ => None
  end.

Inductive reply (A : Type) : Type :=
| Replied (a : A)
| Failed (status_code : nat).
Arguments Replied {A} a.
Arguments Failed {A} status_code.

(** The handler of [GET /stats] on the global [chatbot]. *)
Definition get_statistics (chatbot : option RAGChatbot.t) : reply StatsResponse :=
  match chatbot with
  | None => Failed 503
  | Some self =>
      match validate (Session.get_stats self) with
      | Some response => Replied response
      | None => Failed 500
      end
  end.

(** The handler of [POST /reset-stats]: the reply and the global
    afterwards. *)
Definition reset_statistics (chatbot : option RAGChatbot.t)
  : reply bool * option RAGChatbot.t :=
  match chatbot with
  | None => (Failed 503, chatbot)
  | Some self =>
      (Replied true,
       Some {| RAGChatbot.bm25 := RAGChatbot.bm25 self;
               RAGChatbot.tokenized_corpus := RAGChatbot.tokenized_corpus self;
               RAGChatbot.trials := RAGChatbot.trials self;
               RAGChatbot.total_queries := 0 |})
  end.

End ApiStats.

(** ** [evaluation.py] *)

Module ChatbotEvaluator.

(** [needle in hay] for two strings. *)
Fixpoint contains (needle hay : string) : bool :=
  String.prefix needle hay
  || match hay with
     | EmptyString => false
     | String _ hay' => contains needle hay'
     end.

Definition is_digit (c : ascii) : bool := Py.between 48 57 (Py.code c).

(** A match of [NCT\d+] with [re.IGNORECASE] starts the string. *)
Definition starts_nct (s : string) : bool :=
  match s with
  | String n (String c (String t (String d _))) =>
      (Ascii.eqb n "N" || Ascii.eqb n "n")
      && (Ascii.eqb c "C" || Ascii.eqb c "c")
      && (Ascii.eqb t "T" || Ascii.eqb t "t")
      && is_digit d
  | _ => false
  end.

(** [len(re.findall(nct_pattern, answer, re.IGNORECASE)) > 0]: a match
    starts at some position. *)
Fixpoint has_nct (answer : string) : bool :=
  starts_nct answer
  || match answer with
     | EmptyString => false
     | String _ rest => has_nct rest
     end.

Definition has_source_reference (answer : string) (sources : list RAGChatbot.source)
  : bool :=
  let has_nct := has_nct answer in
  let has_sources := (0 <? length sources)%nat in
  has_nct || has_sources.

Definition check_trial_match (trial_id : string) (sources : list RAGChatbot.source)
  : bool :=
  let source_ids := map RAGChatbot.NCTId sources in
  existsb (String.eqb trial_id) source_ids.

(** The dict that [check_grounding] returns. *)
Record grounding : Type := {
  g_has_source_reference : bool;
  correct_trial_retrieved : bool;
  explicitly_states_no_info : bool;
  is_meaningful : bool;
  num_sources : nat;
  grounded : bool
}.

Definition no_info_phrases : list string :=
  ["cannot find"; "not found"; "no relevant"; "uncertain"; "unable to answer"].

Definition check_grounding (answer : string) (sources : list RAGChatbot.source)
  (trial_id : option string) : grounding :=
  let has_ref := has_source_reference answer sources in
  let correct_trial_retrieved :=
    match trial_id with
    | Some id => if Py.truthy id then check_trial_match id sources else false
    | None => false
    end in
  let explicitly_states_no_info :=
    existsb (fun phrase => contains phrase (Py.lower answer)) no_info_phrases in
  let is_meaningful := (50 <? String.length answer)%nat in
  {| g_has_source_reference := has_ref;
     correct_trial_retrieved := correct_trial_retrieved;
     explicitly_states_no_info := explicitly_states_no_info;
     is_meaningful := is_meaningful;
     num_sources := length sources;
     grounded := has_ref && is_meaningful && correct_trial_retrieved |}.

(** One test case; [trial_id] is read with [get]. *)
Record test_case : Type := {
  tc_query : string;
  expected_keywords : list string;
  tc_category : string;
  tc_trial_id : option string
}.

(** The dict that [evaluate_query] returns, without its [timing] entry. *)
Record evaluation : Type := {
  e_query : string;
  category : string;
  e_trial_id : option string;
  e_answer : string;
  e_sources : list RAGChatbot.source;
  e_grounding : grounding;
  keyword_coverage : Q;
  keywords_found : list string;
  meets_latency : bool;
  retrieval_time : Q;
  success : bool
}.

Section WithService.
Variable create_completion : string -> string -> string + string.

(** [evaluate_query]; [measured] is the retrieval time that [chat] reported
    for this call. The chatbot after the call is returned too. *)
Definition evaluate_query (measured : Q) (chatbot : RAGChatbot.t) (tc : test_case)
  : result (evaluation * RAGChatbot.t) :=
  let query := tc_query tc in
  let expected_keywords := expected_keywords tc in
  let category := tc_category tc in
  let trial_id := tc_trial_id tc in
  try! step := RAGChatbot.chat create_completion chatbot query in
  let '(result, chatbot') := step in
  let grounding :=
    check_grounding (RAGChatbot.answer result) (RAGChatbot.sources result) trial_id in
  let answer_lower := Py.lower (RAGChatbot.answer result) in
  let keywords_found :=
    List.filter (fun kw => contains (Py.lower kw) answer_lower) expected_keywords in
  let keyword_coverage :=
    match expected_keywords with
    | [] => 0%Q
    | _ => (Qnat (length keywords_found) / Qnat (length expected_keywords))%Q
    end in
  let retrieval_time := measured in
  let meets_latency_requirement := Qltb retrieval_time 2 in
  Ok ({| e_query := query;
         category := category;
         e_trial_id := trial_id;
         e_answer := RAGChatbot.answer result;
         e_sources := RAGChatbot.sources result;
         e_grounding := grounding;
         keyword_coverage := keyword_coverage;
         keywords_found := keywords_found;
         meets_latency := meets_latency_requirement;
         retrieval_time := retrieval_time;
         success := grounded grounding && meets_latency_requirement |},
      chatbot').

End WithService.

(** One entry of [categories]. *)
Record category_stats : Type := {
  cs_total : nat;
  cs_success : nat
}.

(** The body of the loop over [self.results] that fills [categories]. *)
Definition count_category (categories : gmap string category_stats)
  (result : evaluation) : gmap string category_stats :=
  let cat := category result in
  let categories :=
    match categories !! cat with
    | None => <[cat := {| cs_total := 0; cs_success := 0 |}]> categories
    | Some _ => categories
    end in
  let entry := default {| cs_total := 0; cs_success := 0 |} (categories !! cat) in
  let entry := {| cs_total := cs_total entry + 1; cs_success := cs_success entry |} in
  let entry :=
    if success result
    then {| cs_total := cs_total entry; cs_success := cs_success entry + 1 |}
    else entry in
  <[cat := entry]> categories.

(** [sum(1 for r in results if p(r))] *)
Definition count (p : evaluation -> bool) (results : list evaluation) : nat :=
  length (List.filter p results).

(** [sum(f(r) for r in results)] *)
Definition total (f : evaluation -> Q) (results : list evaluation) : Q :=
  fold_left (fun acc r => (acc + f r)%Q) results 0%Q.

(** The report: the counts and averages of [summary] as numbers (the
    source formats them), [by_category], and the three [passed] flags of
    [acceptance_criteria]. *)
Record report : Type := {
  total_queries : nat;
  successful_queries : nat;
  grounded_answers : nat;
  r_correct_trial_retrieved : nat;
  r_meets_latency : nat;
  avg_keyword_coverage : Q;
  avg_retrieval_time : Q;
  avg_sources : Q;
  by_category : gmap string category_stats;
  detailed_results : list evaluation;
  grounding_rate_passed : bool;
  trial_retrieval_rate_passed : bool;
  latency_passed : bool
}.

(** [generate_report] on [self.results]; [None] is the empty dict. *)
Definition generate_report (results : list evaluation) : option report :=
  match results with
  | [] => None
  | _ =>
      let total_queries := length results in
      let successful_queries := count success results in
      let grounded_answers := count (fun r => grounded (e_grounding r)) results in
      let meets_latency := count meets_latency results in
      let correct_trial_retrieved :=
        count (fun r => correct_trial_retrieved (e_grounding r)) results in
      let avg_keyword_coverage :=
        (total keyword_coverage results / Qnat total_queries)%Q in
      let avg_retrieval_time :=
        (total retrieval_time results / Qnat total_queries)%Q in
      let avg_sources :=
        (total (fun r => Qnat (num_sources (e_grounding r))) results
         / Qnat total_queries)%Q in
      let categories := fold_left count_category results ∅ in
      Some {| total_queries := total_queries;
              successful_queries := successful_queries;
              grounded_answers := grounded_answers;
              r_correct_trial_retrieved := correct_trial_retrieved;
              r_meets_latency := meets_latency;
              avg_keyword_coverage := avg_keyword_coverage;
              avg_retrieval_time := avg_retrieval_time;
              avg_sources := avg_sources;
              by_category := categories;
              detailed_results := results;
              grounding_rate_passed :=
                Qle_bool (9 # 10) (Qnat grounded_answers / Qnat total_queries);
              trial_retrieval_rate_passed :=
                Qle_bool (9 # 10) (Qnat correct_trial_retrieved / Qnat total_queries);
              latency_passed := Qltb avg_retrieval_time 2 |}
  end.

End ChatbotEvaluator.

(** ** Vocabulary of the further statements *)

(** The entries of [results] come from [evaluate_query]. *)
Definition evaluated (r : ChatbotEvaluator.evaluation) : Prop :=
  exists create_completion measured chatbot tc chatbot',
    ChatbotEvaluator.evaluate_query create_completion measured chatbot tc
    = Ok (r, chatbot').

(** A chatbot whose list of trials is the first [n] records of [files]. *)
Definition truncated (n : nat) (files : TrialIndexer.saved) : RAGChatbot.t :=
  {| RAGChatbot.bm25 := TrialIndexer.bm25 files;
     RAGChatbot.tokenized_corpus := TrialIndexer.tokenized_corpus files;
     RAGChatbot.trials := firstn n (TrialIndexer.trials files);
     RAGChatbot.total_queries := 0 |}.

(** A completion service that fails with a fixed text. *)
Definition failing_service (system user : string) : string + string :=
  inr "timeout".

(** The value of a field as [create_trial_text] sees it: present and not
    the empty string. *)
Definition shown_value (trial : Trial) (key : string) : option string :=
  match trial !! key with
  | Some v => if Py.truthy v then Some v else None
  | None => None
  end.

(** The indices that [retrieve_relevant_trials] selects. *)
Definition top_n_indices (self : RAGChatbot.t) (query : string) (n_results : Z)
  : list nat :=
  Py.slice_to
    (ranking (rank_bm25.get_scores (RAGChatbot.bm25 self) (RAGChatbot.tokenize query)))
    n_results.

(** The files that [build_index] saves for the sample corpus; the build
    succeeds, so the second branch is never taken. *)
Definition sample_files : TrialIndexer.saved :=
  match TrialIndexer.build_index log_q sample_trials with
  | Ok files => files
  | Raise _ =>
      {| TrialIndexer.bm25 :=
           {| rank_bm25.k1 := 0; rank_bm25.b := 0; rank_bm25.epsilon := 0;
              rank_bm25.corpus_size := 0; rank_bm25.avgdl := 0;
              rank_bm25.doc_freqs := []; rank_bm25.idf := ∅;
              rank_bm25.doc_len := []; rank_bm25.average_idf := 0 |};
         TrialIndexer.tokenized_corpus := [];
         TrialIndexer.trials := [] |}
  end.

(** The chatbot after one more query: the same objects, the counter
    raised by one. *)
Definition counted (self : RAGChatbot.t) : RAGChatbot.t :=
  {| RAGChatbot.bm25 := RAGChatbot.bm25 self;
     RAGChatbot.tokenized_corpus := RAGChatbot.tokenized_corpus self;
     RAGChatbot.trials := RAGChatbot.trials self;
     RAGChatbot.total_queries := RAGChatbot.total_queries self + 1 |}.

(** The results of one category, and its successful ones. *)
Definition in_category (c : string) (r : ChatbotEvaluator.evaluation) : bool :=
  String.eqb (ChatbotEvaluator.category r) c.

Definition succeeded_in (c : string) (r : ChatbotEvaluator.evaluation) : bool :=
  in_category c r && ChatbotEvaluator.success r.

(** A test case for the sample corpus, whose records have no trial id, so
    that its sources carry the id [Unknown]. *)
Definition sample_test_case : ChatbotEvaluator.test_case :=
  {| ChatbotEvaluator.tc_query := "ptsd trial";
     ChatbotEvaluator.expected_keywords := ["ok"; "PTSD"];
     ChatbotEvaluator.tc_category := "condition_query";
     ChatbotEvaluator.tc_trial_id := Some "Unknown" |}.

(** A result as [self.results] may hold it. *)
Definition sample_evaluation : ChatbotEvaluator.evaluation :=
  {| ChatbotEvaluator.e_query := "ptsd trial";
     ChatbotEvaluator.category := "condition_query";
     ChatbotEvaluator.e_trial_id := Some "Unknown";
     ChatbotEvaluator.e_answer := "ok";
     ChatbotEvaluator.e_sources := [];
     ChatbotEvaluator.e_grounding :=
       ChatbotEvaluator.check_grounding "ok" [] (Some "Unknown");
     ChatbotEvaluator.keyword_coverage := 1 # 2;
     ChatbotEvaluator.keywords_found := ["ok"];
     ChatbotEvaluator.meets_latency := true;
     ChatbotEvaluator.retrieval_time := 1 # 10;
     ChatbotEvaluator.success := false |}.

(** ** The score of a document in closed form *)

(** [tf(term, doc)]: the occurrences of a term in a document. *)
Definition tf (term : string) (doc : list string) : nat :=
  length (List.filter (String.eqb term) doc).

(** [df(term)]: the documents of the corpus that contain a term. *)
Definition df (term : string) (corpus : list (list string)) : nat :=
  length (List.filter (existsb (String.eqb term)) corpus).

(** The average document length. *)
Definition avgdoclen (corpus : list (list string)) : Q :=
  (Qnat (list_sum (map (@length string) corpus)) / Qnat (length corpus))%Q.

(** [(tf * (k1 + 1)) / (tf + k1 * (1 - b + b * doclen / avgdoclen))] *)
Definition term_weight (k1 b avgdl : Q) (tf dl : nat) : Q :=
  (Qnat tf * (k1 + 1) / (Qnat tf + k1 * (1 - b + b * Qnat dl / avgdl)))%Q.

(** The score of a document for a query under a given per-term weight
    [idf], with k1 = 1.5 and b = 0.75: the sum of the contributions of the
    query tokens, one per occurrence in the query. *)
Definition score_of (idf : string -> Q) (corpus : list (list string))
  (query : list string) (doc : list string) : Q :=
  fold_left
    (fun total term =>
       (total
        + idf term
          * term_weight (3 # 2) (3 # 4) (avgdoclen corpus) (tf term doc) (length doc))%Q)
    query 0%Q.

Definition Qsum (l : list Q) : Q := fold_right Qplus 0%Q l.

(** The distinct tokens of the corpus. *)
Definition vocabulary (corpus : list (list string)) : list string :=
  nodup String.string_dec (concat corpus).

Section Idf.
Variable log : Q -> Q.

(** The per-term weight in the words of the specification:
    [ln((N - df + 0.5) / (df + 0.5) + 1)]. *)
Definition idf_as_specified (corpus : list (list string)) (term : string) : Q :=
  log ((Qnat (length corpus) - Qnat (df term corpus) + (1 # 2))
       / (Qnat (df term corpus) + (1 # 2)) + 1)%Q.

Definition score_as_specified (corpus : list (list string))
  : list string -> list string -> Q :=
  score_of (idf_as_specified corpus) corpus.

(** The per-term weight as [_calc_idf] computes it before the floor, for a
    term that [n] of the [N] documents contain. *)
Definition idf_unfloored (N n : nat) : Q :=
  (log (inject_Z (Z.of_nat N - Z.of_nat n) + (1 # 2)) - log (Qnat n + (1 # 2)))%Q.

(** The mean of the unfloored weights over the vocabulary. *)
Definition mean_idf (corpus : list (list string)) : Q :=
  (Qsum (map (fun term => idf_unfloored (length corpus) (df term corpus))
           (vocabulary corpus))
   / Qnat (length (vocabulary corpus)))%Q.

(** The per-term weight that [get_scores] uses: nothing for a term outside
    the vocabulary, the unfloored weight when it is not negative, and
    [epsilon * average_idf], with epsilon = 0.25, in its place when it is
    negative. *)
Definition idf_floored (corpus : list (list string)) (average_idf : Q)
  (term : string) : Q :=
  match df term corpus with
  | O => 0%Q
  | S _ =>
      let v := idf_unfloored (length corpus) (df term corpus) in
      if Qltb v 0 then ((1 # 4) * average_idf)%Q else v
  end.

Definition score_as_computed (corpus : list (list string))
  : list string -> list string -> Q :=
  score_of (idf_floored corpus (mean_idf corpus)) corpus.

End Idf.

(** Three records that share the token [cancer]. *)
Definition common_trials : list Trial :=
  [ {[ "Conditions" := "cancer" ]};
    {[ "Conditions" := "cancer" ]};
    {[ "Conditions" := "cancer pain" ]} ].

(** The scores of the index built from [common_trials]. *)
Definition common_scores (query : list string) : result (list Q) :=
  try! files := TrialIndexer.build_index log_q common_trials in
  Ok (rank_bm25.get_scores (TrialIndexer.bm25 files) query).

(** The documents of [common_trials]. *)
Definition common_corpus : list (list string) :=
  map (fun trial => TrialIndexer.tokenize (TrialIndexer.create_trial_text trial))
    common_trials.
(** * Facts *)

(** ** Characters *)

Ltac each_char c :=
  destruct c as [[] [] [] [] [] [] [] []]; vm_compute; try reflexivity; try congruence.

Lemma lower_char_idem (c : ascii) :
  Py.lower_char (Py.lower_char c) = Py.lower_char c.
Proof. each_char c. Qed.

Lemma isalnum_not_space (c : ascii) :
  Py.isalnum c = true -> Py.isspace c = false.
Proof. each_char c. Qed.

Lemma isalnum_ascii (c : ascii) :
  Py.is_ascii c = true -> Py.isalnum c = Py.is_ascii_alnum c.
Proof. each_char c. Qed.

Lemma lower_char_ascii (c : ascii) :
  Py.is_ascii c = true -> Py.is_ascii (Py.lower_char c) = true.
Proof. each_char c. Qed.

Lemma lower_char_space (c : ascii) :
  Py.isspace c = true -> Py.lower_char c = c.
Proof. each_char c. Qed.

(** ** Strings *)

Lemma str_app_cons (c : ascii) (s1 s2 : string) :
  String c s1 +:+ s2 = String c (s1 +:+ s2).
Proof. reflexivity. Qed.

Lemma str_app_nil_l (s : string) : "" +:+ s = s.
Proof. reflexivity. Qed.

Ltac str_simpl := simpl; rewrite ?str_app_cons, ?str_app_nil_l; simpl.

Lemma str_app_nil_r (s : string) : s +:+ "" = s.
Proof. induction s as [|c s IH]; str_simpl; [reflexivity | now rewrite IH]. Qed.

Lemma str_app_assoc (s1 s2 s3 : string) : (s1 +:+ s2) +:+ s3 = s1 +:+ (s2 +:+ s3).
Proof. induction s1 as [|c s IH]; str_simpl; [reflexivity | now rewrite IH]. Qed.

Lemma str_forallb_app (p : ascii -> bool) (s1 s2 : string) :
  Py.str_forallb p (s1 +:+ s2) = Py.str_forallb p s1 && Py.str_forallb p s2.
Proof.
  induction s1 as [|c s IH]; str_simpl; [reflexivity|].
  rewrite IH. now rewrite andb_assoc.
Qed.

Lemma str_filter_app (p : ascii -> bool) (s1 s2 : string) :
  Py.str_filter p (s1 +:+ s2) = Py.str_filter p s1 +:+ Py.str_filter p s2.
Proof.
  induction s1 as [|c s IH]; str_simpl; [reflexivity|].
  destruct (p c); str_simpl; now rewrite IH.
Qed.

Lemma str_map_app (f : ascii -> ascii) (s1 s2 : string) :
  Py.str_map f (s1 +:+ s2) = Py.str_map f s1 +:+ Py.str_map f s2.
Proof. induction s1 as [|c s IH]; str_simpl; [reflexivity | now rewrite IH]. Qed.

Lemma str_filter_all (p : ascii -> bool) (s : string) :
  Py.str_forallb p s = true -> Py.str_filter p s = s.
Proof.
  induction s as [|c s IH]; simpl; [reflexivity|].
  intros [Hc Hs]%andb_prop. rewrite Hc. now rewrite IH.
Qed.

Lemma str_forallb_filter (p : ascii -> bool) (s : string) :
  Py.str_forallb p (Py.str_filter p s) = true.
Proof.
  induction s as [|c s IH]; simpl; [reflexivity|].
  destruct (p c) eqn:Hc; simpl; [now rewrite Hc|assumption].
Qed.

Lemma str_forallb_impl (p q : ascii -> bool) (s : string) :
  (forall c, p c = true -> q c = true) ->
  Py.str_forallb p s = true -> Py.str_forallb q s = true.
Proof.
  intros Hpq. induction s as [|c s IH]; simpl; [reflexivity|].
  intros [Hc Hs]%andb_prop. rewrite (Hpq _ Hc). now apply IH.
Qed.

Lemma str_forallb_filter_keep (p q : ascii -> bool) (s : string) :
  Py.str_forallb q s = true -> Py.str_forallb q (Py.str_filter p s) = true.
Proof.
  induction s as [|c s IH]; simpl; [reflexivity|].
  intros [Hc Hs]%andb_prop. destruct (p c); simpl; [rewrite Hc|]; now apply IH.
Qed.

Lemma str_filter_filter (p q : ascii -> bool) (s : string) :
  (forall c, q c = true -> p c = true) ->
  Py.str_filter q (Py.str_filter p s) = Py.str_filter q s.
Proof.
  intros Hqp. induction s as [|c s IH]; simpl; [reflexivity|].
  destruct (p c) eqn:Hp; simpl.
  - destruct (q c); now rewrite IH.
  - destruct (q c) eqn:Hq; [|assumption].
    apply Hqp in Hq. congruence.
Qed.

Lemma lower_fixed (s : string) : Py.str_forallb fixed_by_lower (Py.lower s) = true.
Proof.
  unfold Py.lower. induction s as [|c s IH]; simpl; [reflexivity|].
  rewrite IH, andb_true_r. unfold fixed_by_lower.
  rewrite lower_char_idem. apply Ascii.eqb_refl.
Qed.

Lemma lower_of_fixed (s : string) :
  Py.str_forallb fixed_by_lower s = true -> Py.lower s = s.
Proof.
  unfold Py.lower. induction s as [|c s IH]; simpl; [reflexivity|].
  intros [Hc Hs]%andb_prop. apply Ascii.eqb_eq in Hc.
  now rewrite Hc, IH.
Qed.

Lemma isspace_lower_char (c : ascii) : Py.isspace (Py.lower_char c) = Py.isspace c.
Proof. each_char c. Qed.

(** ** [split] *)

Lemma truthy_app (s1 s2 : string) :
  Py.truthy (s1 +:+ s2) = Py.truthy s1 || Py.truthy s2.
Proof. destruct s1; str_simpl; reflexivity. Qed.

Lemma emit_truthy (w : string) : Py.truthy w = true -> Py.emit w = [w].
Proof. unfold Py.emit. now intros ->. Qed.

Lemma split_from_word (w cur s : string) :
  Py.str_forallb not_space w = true ->
  Py.split_from cur (w +:+ s) = Py.split_from (cur +:+ w) s.
Proof.
  revert cur. induction w as [|c w IH]; intros cur; str_simpl.
  - now rewrite str_app_nil_r.
  - intros [Hc Hw]%andb_prop. unfold not_space in Hc.
    apply negb_true_iff in Hc. rewrite Hc, (IH _ Hw).
    rewrite str_app_assoc. now str_simpl.
Qed.

(** Leading white space yields no word. *)
Lemma split_spaces (pre s : string) :
  Py.str_forallb Py.isspace pre = true -> Py.split (pre +:+ s) = Py.split s.
Proof.
  unfold Py.split. induction pre as [|c pre IH]; str_simpl; [reflexivity|].
  intros [Hc Hpre]%andb_prop. rewrite Hc. simpl. now apply IH.
Qed.

(** A maximal run of other characters is one word of the output. *)
Lemma split_word (w post : string) :
  Py.truthy w = true -> Py.str_forallb not_space w = true ->
  at_boundary post = true ->
  Py.split (w +:+ post) = w :: Py.split post.
Proof.
  intros Hw Hns Hpost. unfold Py.split.
  rewrite split_from_word by assumption. rewrite str_app_nil_l.
  destruct post as [|c post]; simpl in *.
  - now rewrite emit_truthy.
  - rewrite Hpost. now rewrite emit_truthy.
Qed.

Lemma split_all_spaces (pre : string) :
  Py.str_forallb Py.isspace pre = true -> Py.split pre = [].
Proof.
  intros H. rewrite <- (str_app_nil_r pre). now rewrite split_spaces.
Qed.

(** Every word of the output is non-empty, and made of characters of the
    input that are not white space. *)
Lemma split_from_words (P : ascii -> bool) (cur s : string) :
  Py.str_forallb P cur = true ->
  Py.str_forallb (fun c => Py.isspace c || P c) s = true ->
  Forall (fun w => Py.truthy w = true /\ Py.str_forallb P w = true)
    (Py.split_from cur s).
Proof.
  revert cur. induction s as [|c s IH]; intros cur Hcur; simpl.
  - intros _. unfold Py.emit. destruct (Py.truthy cur) eqn:Ht; auto.
  - intros [Hc Hs]%andb_prop. destruct (Py.isspace c) eqn:Hsp.
    + apply Forall_app. split; [|now apply IH].
      unfold Py.emit. destruct (Py.truthy cur) eqn:Ht; auto.
    + apply IH; [|assumption]. simpl in Hc.
      rewrite str_forallb_app, Hcur. simpl. now rewrite Hc.
Qed.

Lemma split_words_no_space (s : string) :
  Forall (fun w => Py.truthy w = true /\ Py.str_forallb not_space w = true)
    (Py.split s).
Proof.
  apply split_from_words; [reflexivity|].
  induction s as [|c s IH]; simpl; [reflexivity|].
  rewrite IH, andb_true_r. unfold not_space. now destruct (Py.isspace c).
Qed.

Lemma split_words_keep (P : ascii -> bool) (s : string) :
  Py.str_forallb P s = true ->
  Forall (fun w => Py.truthy w = true /\ Py.str_forallb P w = true) (Py.split s).
Proof.
  intros H. apply split_from_words; [reflexivity|].
  eapply str_forallb_impl; [|exact H]. intros c ->. apply orb_true_r.
Qed.

(** The words, put together again, are the input without its white space. *)
Lemma join_split_from (cur s : string) :
  Py.join "" (Py.split_from cur s) = cur +:+ Py.str_filter not_space s.
Proof.
  revert cur. induction s as [|c s IH]; intros cur; simpl.
  - rewrite str_app_nil_r. unfold Py.emit. now destruct cur.
  - unfold not_space at 1. destruct (Py.isspace c) eqn:Hsp; simpl.
    + specialize (IH ""). rewrite str_app_nil_l in IH. rewrite <- IH.
      unfold Py.emit. destruct cur as [|a cur]; simpl; [reflexivity|].
      destruct (Py.split_from "" s); [simpl; now rewrite str_app_nil_r|reflexivity].
    + rewrite IH. rewrite str_app_assoc. now str_simpl.
Qed.

Lemma split_join (ws : list string) :
  Forall (fun w => Py.truthy w = true /\ Py.str_forallb not_space w = true) ws ->
  Py.split (Py.join " " ws) = ws.
Proof.
  induction 1 as [|w ws [Hw Hns] Hws IH]; [reflexivity|].
  destruct ws as [|w' ws].
  - simpl. rewrite <- (str_app_nil_r w) at 1.
    now rewrite split_word by (assumption || reflexivity).
  - change (Py.join " " (w :: w' :: ws)) with (w +:+ " " +:+ Py.join " " (w' :: ws)).
    rewrite split_word by (assumption || reflexivity).
    f_equal. rewrite (split_spaces " ") by reflexivity. exact IH.
Qed.

(** ** [tokenize] *)

Lemma join_empty_cons (w : string) (ws : list string) :
  Py.join "" (w :: ws) = w +:+ Py.join "" ws.
Proof. destruct ws; simpl; [now rewrite str_app_nil_r | reflexivity]. Qed.

Lemma join_empty_truthy (ws : list string) :
  Py.join "" (List.filter Py.truthy ws) = Py.join "" ws.
Proof.
  induction ws as [|w ws IH]; [reflexivity|].
  rewrite join_empty_cons. destruct w as [|c w]; simpl List.filter.
  - now rewrite str_app_nil_l.
  - now rewrite join_empty_cons, IH.
Qed.

Lemma join_empty_filter (p : ascii -> bool) (ws : list string) :
  Py.join "" (map (Py.str_filter p) ws) = Py.str_filter p (Py.join "" ws).
Proof.
  induction ws as [|w ws IH]; [reflexivity|].
  rewrite map_cons, !join_empty_cons, str_filter_app. now rewrite IH.
Qed.

Lemma str_forallb_join (P : ascii -> bool) (sep : string) (ws : list string) :
  Py.str_forallb P sep = true ->
  Forall (fun w => Py.str_forallb P w = true) ws ->
  Py.str_forallb P (Py.join sep ws) = true.
Proof.
  intros Hsep. induction 1 as [|w ws Hw Hws IH]; [reflexivity|].
  destruct ws as [|w' ws]; [exact Hw|].
  change (Py.join sep (w :: w' :: ws)) with (w +:+ sep +:+ Py.join sep (w' :: ws)).
  now rewrite !str_forallb_app, Hw, Hsep, IH.
Qed.

Lemma str_forallb_lower (P : ascii -> bool) (s : string) :
  (forall c, P (Py.lower_char c) = P c) ->
  Py.str_forallb P (Py.lower s) = Py.str_forallb P s.
Proof.
  intros HP. unfold Py.lower. induction s as [|c s IH]; simpl; [reflexivity|].
  now rewrite HP, IH.
Qed.

Lemma str_filter_agree (P p q : ascii -> bool) (s : string) :
  (forall c, P c = true -> p c = q c) ->
  Py.str_forallb P s = true -> Py.str_filter p s = Py.str_filter q s.
Proof.
  intros Hpq. induction s as [|c s IH]; simpl; [reflexivity|].
  intros [Hc Hs]%andb_prop. rewrite (Hpq _ Hc), (IH Hs). reflexivity.
Qed.

Lemma filter_truthy_cons (w : string) (ws : list string) :
  List.filter Py.truthy (w :: ws) = Py.emit w ++ List.filter Py.truthy ws.
Proof. simpl. unfold Py.emit. now destruct (Py.truthy w). Qed.

(** The tokens are non-empty and made of alphanumeric characters that
    [str.lower] leaves as they are. *)
Lemma tokenize_tokens (text : string) :
  Forall (fun t => Py.truthy t = true
                   /\ Py.str_forallb Py.isalnum t = true
                   /\ Py.str_forallb fixed_by_lower t = true)
    (TrialIndexer.tokenize text).
Proof.
  unfold TrialIndexer.tokenize, Py.join_if.
  pose proof (split_words_keep fixed_by_lower _ (lower_fixed text)) as Hw.
  induction Hw as [|w ws [_ Hfix] _ IH]; simpl; [constructor|].
  destruct (Py.truthy (Py.str_filter Py.isalnum w)) eqn:Ht; [|exact IH].
  constructor; [|exact IH].
  split; [exact Ht|]. split; [apply str_forallb_filter|].
  now apply str_forallb_filter_keep.
Qed.

Lemma tokenize_segment (pre w post : string) :
  Py.str_forallb Py.isspace pre = true ->
  Py.truthy w = true ->
  Py.str_forallb not_space w = true ->
  at_boundary post = true ->
  TrialIndexer.tokenize (pre +:+ w +:+ post)
  = Py.emit (Py.join_if Py.isalnum (Py.lower w)) ++ TrialIndexer.tokenize post.
Proof.
  intros Hpre Hw Hns Hpost. unfold TrialIndexer.tokenize.
  unfold Py.lower at 1. rewrite !str_map_app. fold (Py.lower pre) (Py.lower w) (Py.lower post).
  rewrite split_spaces
    by (rewrite str_forallb_lower; [assumption | apply isspace_lower_char]).
  rewrite split_word.
  - rewrite map_cons. apply filter_truthy_cons.
  - destruct w; [discriminate | reflexivity].
  - rewrite str_forallb_lower; [assumption|].
    intros c. unfold not_space. now rewrite isspace_lower_char.
  - destruct post as [|c post]; [reflexivity|]. simpl in *.
    now rewrite isspace_lower_char.
Qed.

Lemma tokenize_ascii (text : string) :
  Py.str_forallb Py.is_ascii text = true ->
  TrialIndexer.tokenize text = tokenize_as_specified text.
Proof.
  intros Hascii. unfold TrialIndexer.tokenize, tokenize_as_specified, Py.join_if.
  f_equal. apply map_ext_Forall.
  assert (Py.str_forallb Py.is_ascii (Py.lower text) = true) as Hlow.
  { unfold Py.lower. induction text as [|c s IH]; simpl in *; [reflexivity|].
    apply andb_prop in Hascii as [Hc Hs]. now rewrite lower_char_ascii, IH. }
  eapply List.Forall_impl; [|apply (split_words_keep _ _ Hlow)].
  intros w [_ Hw]. simpl. eapply str_filter_agree; [|exact Hw].
  apply isalnum_ascii.
Qed.

Lemma tokenize_join (ts : list string) :
  Forall (fun t => Py.truthy t = true
                   /\ Py.str_forallb Py.isalnum t = true
                   /\ Py.str_forallb fixed_by_lower t = true) ts ->
  TrialIndexer.tokenize (Py.join " " ts) = ts.
Proof.
  intros Hts. unfold TrialIndexer.tokenize, Py.join_if.
  rewrite lower_of_fixed.
  2:{ apply str_forallb_join; [reflexivity|].
      eapply List.Forall_impl; [|exact Hts]. now intros t (_ & _ & H). }
  rewrite split_join.
  2:{ eapply List.Forall_impl; [|exact Hts]. intros t (Ht & Hal & _). split; [exact Ht|].
      eapply str_forallb_impl; [|exact Hal].
      intros c Hc. unfold not_space. now rewrite isalnum_not_space. }
  induction Hts as [|t ts (Ht & Hal & _) _ IH]; [reflexivity|].
  simpl. rewrite (str_filter_all _ _ Hal), Ht. now f_equal.
Qed.

(** ** [sorted] *)

Lemma Qltb_lt (x y : Q) : Qltb x y = true <-> (x < y)%Q.
Proof.
  unfold Qltb. rewrite negb_true_iff, <- not_true_iff_false, Qle_bool_iff.
  split; [apply Qnot_le_lt | apply Qlt_not_le].
Qed.

Lemma Qltb_ge (x y : Q) : Qltb x y = false <-> (y <= x)%Q.
Proof.
  unfold Qltb. now rewrite negb_false_iff, Qle_bool_iff.
Qed.

Section SortFacts.
Context {A : Type}.
Variable key : A -> Q.

Lemma ascending_le (T : A -> A -> Prop) (x y : A) :
  ascending key T x y -> (key x <= key y)%Q.
Proof.
  intros [H | [H _]]; [now apply Qlt_le_weak | rewrite H; apply Qle_refl].
Qed.

Lemma insert_stable_perm (x : A) (l : list A) :
  Permutation (Py.insert_stable key Qltb x l) (x :: l).
Proof.
  induction l as [|y l IH]; simpl; [reflexivity|].
  destruct (Qltb (key y) (key x)); [|reflexivity].
  rewrite IH. apply perm_swap.
Qed.

Lemma sort_stable_perm (l : list A) :
  Permutation (Py.sort_stable key Qltb l) l.
Proof.
  induction l as [|x l IH]; simpl; [reflexivity|].
  rewrite insert_stable_perm. now constructor.
Qed.

Lemma sorted_perm (reverse : bool) (l : list A) :
  Permutation (Py.sorted key Qltb reverse l) l.
Proof.
  unfold Py.sorted. destruct reverse; [|apply sort_stable_perm].
  rewrite <- Permutation_rev, sort_stable_perm. symmetry. apply Permutation_rev.
Qed.

Lemma insert_stable_sorted (T : A -> A -> Prop) (x : A) (l : list A) :
  StronglySorted (ascending key T) l -> List.Forall (T x) l ->
  StronglySorted (ascending key T) (Py.insert_stable key Qltb x l).
Proof.
  induction l as [|y l IH]; intros Hs HT; simpl.
  - repeat constructor.
  - apply StronglySorted_inv in Hs as [Hs Hy].
    apply Forall_cons_1 in HT as [HTy HT].
    destruct (Qltb (key y) (key x)) eqn:Hlt.
    + constructor; [now apply IH|].
      rewrite (insert_stable_perm x l). constructor; [|exact Hy].
      left. now apply Qltb_lt.
    + apply Qltb_ge in Hlt. constructor; [now constructor|].
      assert (ascending key T x y) as Hxy.
      { apply Qle_lt_or_eq in Hlt as [Hlt | Heq]; [now left | now right]. }
      constructor; [exact Hxy|].
      rewrite Forall_forall in *. intros z Hz.
      specialize (Hy z Hz). specialize (HT z Hz).
      apply ascending_le in Hy.
      assert (key x <= key z)%Q as Hle by (eapply Qle_trans; eassumption).
      apply Qle_lt_or_eq in Hle as [Hl | He]; [now left | now right].
Qed.

(** The ascending sort is stable: equal keys keep the order [T] of the
    input. *)
Lemma sort_stable_sorted (T : A -> A -> Prop) (l : list A) :
  StronglySorted T l ->
  StronglySorted (ascending key T) (Py.sort_stable key Qltb l).
Proof.
  induction 1 as [|x l Hs IH Hx]; simpl; [constructor|].
  apply insert_stable_sorted; [exact IH|].
  now rewrite sort_stable_perm.
Qed.

Lemma sort_stable_same_keys (l : list A) :
  (forall x y, Qltb (key x) (key y) = false) ->
  Py.sort_stable key Qltb l = l.
Proof.
  intros Hk. induction l as [|x l IH]; simpl; [reflexivity|].
  rewrite IH. destruct l as [|y l]; simpl; [reflexivity|].
  now rewrite Hk.
Qed.
End SortFacts.

Lemma StronglySorted_snoc {A : Type} (R : A -> A -> Prop) (l : list A) (x : A) :
  StronglySorted R l -> List.Forall (fun y => R y x) l ->
  StronglySorted R (l ++ [x]).
Proof.
  induction 1 as [|y l Hs IH Hy]; intros Hx; simpl.
  - repeat constructor.
  - apply Forall_cons_1 in Hx as [Hyx Hx].
    constructor; [now apply IH|].
    apply Forall_app. split; [exact Hy | now constructor].
Qed.

Lemma StronglySorted_rev {A : Type} (R : A -> A -> Prop) (l : list A) :
  StronglySorted R l -> StronglySorted (fun x y => R y x) (rev l).
Proof.
  induction 1 as [|x l Hs IH Hx]; simpl; [constructor|].
  apply StronglySorted_snoc; [exact IH|].
  rewrite <- Permutation_rev. exact Hx.
Qed.

Lemma StronglySorted_firstn {A : Type} (R : A -> A -> Prop) (n : nat) (l : list A) :
  StronglySorted R l -> StronglySorted R (firstn n l).
Proof.
  intros Hs. revert n. induction Hs as [|x l Hs IH Hx]; intros [|n]; simpl;
    try constructor; [apply IH|].
  rewrite List.Forall_forall in *. intros y Hy. apply Hx.
  rewrite <- (firstn_skipn n l). apply in_or_app. now left.
Qed.

Lemma StronglySorted_map {A B : Type} (R : B -> B -> Prop) (f : A -> B) (l : list A) :
  StronglySorted (fun x y => R (f x) (f y)) l -> StronglySorted R (map f l).
Proof.
  induction 1 as [|x l Hs IH Hx]; simpl; constructor; [exact IH|].
  rewrite List.Forall_forall in *. intros y [z [<- Hz]]%in_map_iff. now apply Hx.
Qed.

Lemma StronglySorted_weaken {A : Type} (R S : A -> A -> Prop) (l : list A) :
  (forall x y, R x y -> S x y) -> StronglySorted R l -> StronglySorted S l.
Proof.
  intros HRS. induction 1 as [|x l Hs IH Hx]; constructor; [exact IH|].
  eapply List.Forall_impl; [|exact Hx]. apply HRS.
Qed.

Lemma range_sorted (n : nat) : StronglySorted lt (Py.range n).
Proof.
  unfold Py.range. generalize 0%nat as a.
  induction n as [|n IH]; intros a; simpl; constructor; [apply IH|].
  rewrite List.Forall_forall. intros x Hx%in_seq. lia.
Qed.

Lemma Py_slice_to_firstn {A : Type} (xs : list A) (n : Z) :
  exists m, Py.slice_to xs n = firstn m xs.
Proof. unfold Py.slice_to. destruct (n <? 0)%Z; eauto. Qed.

Lemma ranking_sorted (key : nat -> Q) (n : nat) :
  StronglySorted (ranked_before key) (Py.sorted key Qltb true (Py.range n)).
Proof.
  unfold Py.sorted.
  pose proof (StronglySorted_rev _ _ (range_sorted n)) as Hrev.
  apply (sort_stable_sorted key) in Hrev.
  apply StronglySorted_rev in Hrev.
  eapply StronglySorted_weaken; [|exact Hrev].
  intros i j [H | [H1 H2]]; [now left | right]. split; [now symmetry | exact H2].
Qed.

Lemma ranking_same_keys (key : nat -> Q) (n : nat) :
  (forall i j, Qltb (key i) (key j) = false) ->
  Py.sorted key Qltb true (Py.range n) = Py.range n.
Proof.
  intros Hk. unfold Py.sorted. rewrite sort_stable_same_keys by exact Hk.
  apply rev_involutive.
Qed.

(** ** [rank_bm25] *)

Section Bm25Facts.
Variable log : Q -> Q.

Lemma initialize_fold (corpus : list (list string)) (st : rank_bm25.counts) :
  let st' := fold_left rank_bm25.initialize_step corpus st in
  rank_bm25.c_corpus_size st' = rank_bm25.c_corpus_size st + length corpus
  /\ length (rank_bm25.c_doc_len st')
     = length (rank_bm25.c_doc_len st) + length corpus
  /\ length (rank_bm25.c_doc_freqs st')
     = length (rank_bm25.c_doc_freqs st) + length corpus.
Proof.
  revert st. induction corpus as [|d corpus IH]; intros st; simpl.
  - repeat split; lia.
  - destruct (IH (rank_bm25.initialize_step st d)) as (H1 & H2 & H3).
    rewrite H1, H2, H3. simpl. rewrite !length_app. simpl. repeat split; lia.
Qed.

Lemma count_words_empty (document : list string) (m : gmap string nat) :
  fold_left rank_bm25.count_word document m = ∅ <-> m = ∅ /\ document = [].
Proof.
  revert m. induction document as [|w d IH]; intros m; simpl.
  - tauto.
  - rewrite IH. unfold rank_bm25.count_word. split.
    + intros [H _]. now apply insert_non_empty in H.
    + intros [_ H]. discriminate.
Qed.

Lemma frequencies_of_empty (document : list string) :
  rank_bm25.frequencies_of document = ∅ <-> document = [].
Proof. unfold rank_bm25.frequencies_of. rewrite count_words_empty. tauto. Qed.

Lemma count_documents_empty (nd frequencies : gmap string nat) :
  map_fold rank_bm25.count_document nd frequencies = ∅
  <-> nd = ∅ /\ frequencies = ∅.
Proof.
  apply (map_fold_weak_ind
           (fun r m => r = ∅ <-> nd = ∅ /\ m = ∅)).
  - tauto.
  - intros w x m r _ _. unfold rank_bm25.count_document. split.
    + intros H. now apply insert_non_empty in H.
    + intros [_ H]. now apply insert_non_empty in H.
Qed.

Lemma initialize_nd_empty (corpus : list (list string)) (st : rank_bm25.counts) :
  rank_bm25.c_nd (fold_left rank_bm25.initialize_step corpus st) = ∅
  <-> rank_bm25.c_nd st = ∅ /\ List.Forall (fun d => d = []) corpus.
Proof.
  revert st. induction corpus as [|d corpus IH]; intros st; simpl.
  - split; [intros H; split; [exact H | constructor] | tauto].
  - rewrite IH. simpl. rewrite count_documents_empty, frequencies_of_empty.
    rewrite Forall_cons. tauto.
Qed.

Lemma calc_idf_size (corpus_size : nat) (nd : gmap string nat) :
  (map_fold (rank_bm25.calc_idf_step log corpus_size) (∅, 0%Q, []) nd).1.1 = ∅
  <-> nd = ∅.
Proof.
  apply (map_fold_weak_ind (fun (r : rank_bm25.idf_state) m => r.1.1 = ∅ <-> m = ∅)).
  - tauto.
  - intros w x m [[idf idf_sum] negative_idfs] _ _. simpl. split.
    + intros H. now apply insert_non_empty in H.
    + intros H. now apply insert_non_empty in H.
Qed.

Lemma calc_idf_raises (epsilon : Q) (corpus_size : nat) :
  rank_bm25._calc_idf log epsilon corpus_size ∅ = Raise ZeroDivisionError.
Proof. reflexivity. Qed.

Lemma calc_idf_ok (epsilon : Q) (corpus_size : nat) (nd : gmap string nat) :
  nd <> ∅ -> exists r, rank_bm25._calc_idf log epsilon corpus_size nd = Ok r.
Proof.
  intros Hnd. unfold rank_bm25._calc_idf.
  pose proof (calc_idf_size corpus_size nd) as Hsize.
  destruct (map_fold _ _ nd) as [[idf idf_sum] negative_idfs]. simpl in Hsize.
  destruct (Nat.eqb_spec (size idf) 0) as [H0 | _]; [|eauto].
  apply map_size_empty_iff in H0. tauto.
Qed.

(** The constructor raises on a corpus without any token, and only then. *)
Lemma new_raises (corpus : list (list string)) :
  List.Forall (fun d => d = []) corpus ->
  rank_bm25.new log corpus = Raise ZeroDivisionError.
Proof.
  intros Hall. unfold rank_bm25.new, rank_bm25._initialize.
  destruct (Nat.eqb_spec
              (rank_bm25.c_corpus_size
                 (fold_left rank_bm25.initialize_step corpus rank_bm25.counts0)) 0)
    as [_ | _]; [reflexivity|].
  simpl.
  assert (rank_bm25.c_nd
            (fold_left rank_bm25.initialize_step corpus rank_bm25.counts0) = ∅)
    as -> by (apply initialize_nd_empty; now split).
  reflexivity.
Qed.

Lemma new_ok (corpus : list (list string)) :
  List.Exists (fun d => d <> []) corpus ->
  exists self, rank_bm25.new log corpus = Ok self.
Proof.
  intros Hsome. unfold rank_bm25.new, rank_bm25._initialize.
  destruct (initialize_fold corpus rank_bm25.counts0) as (Hsize & _).
  destruct (Nat.eqb_spec
              (rank_bm25.c_corpus_size
                 (fold_left rank_bm25.initialize_step corpus rank_bm25.counts0)) 0)
    as [H0 | _].
  { rewrite Hsize in H0. simpl in H0.
    destruct corpus; [now apply Exists_nil in Hsome | discriminate]. }
  simpl.
  destruct (calc_idf_ok (1 # 4)
              (rank_bm25.c_corpus_size
                 (fold_left rank_bm25.initialize_step corpus rank_bm25.counts0))
              (rank_bm25.c_nd
                 (fold_left rank_bm25.initialize_step corpus rank_bm25.counts0)))
    as [[idf average_idf] ->]; [|simpl; eauto].
  intros Hnd. apply initialize_nd_empty in Hnd as [_ Hall].
  apply List.Exists_exists in Hsome as (d & Hd & Hne).
  rewrite List.Forall_forall in Hall. now apply Hne, Hall.
Qed.

Lemma new_exn (corpus : list (list string)) (e : exn) :
  rank_bm25.new log corpus = Raise e -> e = ZeroDivisionError.
Proof.
  unfold rank_bm25.new, rank_bm25._initialize, rank_bm25._calc_idf.
  destruct (_ =? 0)%nat; simpl; [congruence|].
  destruct (map_fold _ _ _) as [[idf idf_sum] negative_idfs].
  destruct (_ =? 0)%nat; simpl; congruence.
Qed.

(** A built index has one length and one frequency table per document. *)
Lemma new_shape (corpus : list (list string)) (self : rank_bm25.BM25Okapi) :
  rank_bm25.new log corpus = Ok self ->
  rank_bm25.corpus_size self = length corpus
  /\ length (rank_bm25.doc_len self) = length corpus
  /\ length (rank_bm25.doc_freqs self) = length corpus.
Proof.
  unfold rank_bm25.new, rank_bm25._initialize, rank_bm25._calc_idf.
  destruct (initialize_fold corpus rank_bm25.counts0) as (H1 & H2 & H3).
  destruct (_ =? 0)%nat; simpl; [congruence|].
  destruct (map_fold _ _ _) as [[idf idf_sum] negative_idfs].
  destruct (_ =? 0)%nat; simpl; [congruence|].
  intros [= <-]. simpl. now rewrite H1, H2, H3.
Qed.
End Bm25Facts.

Lemma get_scores_nil (self : rank_bm25.BM25Okapi) :
  rank_bm25.get_scores self [] = repeat 0%Q (rank_bm25.corpus_size self).
Proof. reflexivity. Qed.

Lemma term_scores_length (self : rank_bm25.BM25Okapi) (q : string) :
  length (rank_bm25.doc_len self) = rank_bm25.corpus_size self ->
  length (rank_bm25.doc_freqs self) = rank_bm25.corpus_size self ->
  length (rank_bm25.term_scores self q) = rank_bm25.corpus_size self.
Proof.
  intros H1 H2. unfold rank_bm25.term_scores.
  rewrite length_zip_with, length_map. lia.
Qed.

Lemma get_scores_length (self : rank_bm25.BM25Okapi) (query : list string) :
  length (rank_bm25.doc_len self) = rank_bm25.corpus_size self ->
  length (rank_bm25.doc_freqs self) = rank_bm25.corpus_size self ->
  length (rank_bm25.get_scores self query) = rank_bm25.corpus_size self.
Proof.
  intros H1 H2. unfold rank_bm25.get_scores.
  assert (length (repeat 0%Q (rank_bm25.corpus_size self))
          = rank_bm25.corpus_size self) as Hacc by apply repeat_length.
  revert Hacc. generalize (repeat 0%Q (rank_bm25.corpus_size self)) as score.
  induction query as [|q query IH]; intros score Hacc; simpl; [exact Hacc|].
  apply IH. rewrite length_zip_with, Hacc, term_scores_length by assumption. lia.
Qed.

(** ** [build_index] *)

Lemma corpus_loop {A B : Type} (f : A -> B) (l : list A) (acc : list B) :
  fold_left (fun corpus x => corpus ++ [f x]) l acc = acc ++ map f l.
Proof.
  revert acc. induction l as [|x l IH]; intros acc; simpl.
  - now rewrite app_nil_r.
  - rewrite IH. now rewrite <- app_assoc.
Qed.

Lemma build_index_unfold (log : Q -> Q) (loaded : list Trial) :
  TrialIndexer.build_index log loaded
  = (try! bm25 := rank_bm25.new log
                   (map (fun trial =>
                           TrialIndexer.tokenize (TrialIndexer.create_trial_text trial))
                      loaded) in
     Ok {| TrialIndexer.bm25 := bm25;
           TrialIndexer.tokenized_corpus :=
             map (fun trial =>
                    TrialIndexer.tokenize (TrialIndexer.create_trial_text trial))
               loaded;
           TrialIndexer.trials := loaded |}).
Proof.
  unfold TrialIndexer.build_index. rewrite corpus_loop, app_nil_l.
  now rewrite map_map.
Qed.

Lemma build_index_inv (log : Q -> Q) (loaded : list Trial) (files : TrialIndexer.saved) :
  TrialIndexer.build_index log loaded = Ok files ->
  TrialIndexer.trials files = loaded
  /\ TrialIndexer.tokenized_corpus files
     = map (fun trial => TrialIndexer.tokenize (TrialIndexer.create_trial_text trial))
         loaded
  /\ rank_bm25.new log (TrialIndexer.tokenized_corpus files)
     = Ok (TrialIndexer.bm25 files).
Proof.
  rewrite build_index_unfold.
  destruct (rank_bm25.new log _) as [bm|e] eqn:Hnew; simpl; [|discriminate].
  intros [= <-]. simpl. auto.
Qed.

Lemma build_index_aligned (log : Q -> Q) (loaded : list Trial)
  (files : TrialIndexer.saved) (self : RAGChatbot.t) :
  TrialIndexer.build_index log loaded = Ok files ->
  loaded_from files self ->
  aligned self /\ RAGChatbot.trials self = loaded.
Proof.
  intros (Ht & Hc & Hnew)%build_index_inv (Hb & _ & Htr).
  apply new_shape in Hnew as (H1 & H2 & H3).
  rewrite Hc, length_map in H1, H2, H3.
  unfold aligned. rewrite Hb, Htr, Ht, H1, H2, H3. auto.
Qed.

(** ** [retrieve_relevant_trials] *)

Lemma build_results_ok (trials : list Trial) (scores : list Q)
  (top_n_indices : list nat) (acc : list RAGChatbot.trial_info) :
  List.Forall (fun idx => idx < length trials) top_n_indices ->
  RAGChatbot.build_results trials scores top_n_indices acc
  = Ok (acc ++ map (entry trials scores) top_n_indices).
Proof.
  intros Hall. revert acc.
  induction Hall as [|idx rest Hidx _ IH]; intros acc; simpl.
  - now rewrite app_nil_r.
  - destruct (lookup_lt_is_Some_2 trials idx Hidx) as [trial Htrial].
    rewrite Htrial, IH, <- app_assoc. simpl.
    unfold entry at 2. now rewrite Htrial.
Qed.

Lemma ranking_perm (scores : list Q) :
  Permutation (ranking scores) (Py.range (length scores)).
Proof. apply sorted_perm. Qed.

Lemma ranking_in_range (scores : list Q) :
  List.Forall (fun idx => idx < length scores) (ranking scores).
Proof.
  rewrite ranking_perm. unfold Py.range.
  rewrite List.Forall_forall. intros idx Hidx%in_seq. lia.
Qed.

Lemma slice_to_Forall {A : Type} (P : A -> Prop) (xs : list A) (n : Z) :
  List.Forall P xs -> List.Forall P (Py.slice_to xs n).
Proof.
  intros H. destruct (Py_slice_to_firstn xs n) as [m ->].
  rewrite <- (firstn_skipn m xs) in H. now apply Forall_app in H as [H _].
Qed.

(** On an aligned chatbot the loop over the top indices never leaves the
    list of trials. *)
Lemma retrieve_aligned (self : RAGChatbot.t) (query : string) (n_results : Z) :
  aligned self ->
  let scores := rank_bm25.get_scores (RAGChatbot.bm25 self) (RAGChatbot.tokenize query) in
  length scores = length (RAGChatbot.trials self)
  /\ RAGChatbot.retrieve_relevant_trials self query n_results
     = Ok (map (entry (RAGChatbot.trials self) scores)
             (Py.slice_to (ranking scores) n_results)).
Proof.
  intros (H1 & H2 & H3) scores.
  assert (length scores = length (RAGChatbot.trials self)) as Hlen.
  { unfold scores. now rewrite get_scores_length. }
  split; [exact Hlen|].
  unfold RAGChatbot.retrieve_relevant_trials. fold scores. fold (ranking scores).
  rewrite build_results_ok; [reflexivity|].
  apply slice_to_Forall. rewrite <- Hlen. apply ranking_in_range.
Qed.

Lemma ranking_precedes (trials : list Trial) (scores : list Q) :
  StronglySorted precedes (map (entry trials scores) (ranking scores)).
Proof.
  apply StronglySorted_map. unfold precedes. simpl.
  apply (ranking_sorted (fun i => nth i scores 0%Q)).
Qed.

Lemma StronglySorted_lookup {A : Type} (R : A -> A -> Prop) (l : list A)
  (i j : nat) (a b : A) :
  StronglySorted R l -> l !! i = Some a -> l !! j = Some b -> i < j -> R a b.
Proof.
  intros Hs. revert i j. induction Hs as [|x l Hs IH Hx]; intros i j Hi Hj Hij.
  - discriminate.
  - destruct j as [|j]; [lia|]. destruct i as [|i]; simpl in *.
    + injection Hi as <-. rewrite List.Forall_forall in Hx. apply Hx.
      apply list_elem_of_In. eapply list_elem_of_lookup_2. exact Hj.
    + eapply IH; eauto. lia.
Qed.

Lemma precedes_order (res : list RAGChatbot.trial_info) (i j : nat)
  (a b : RAGChatbot.trial_info) :
  StronglySorted precedes res ->
  res !! i = Some a -> res !! j = Some b ->
  (RAGChatbot.score b < RAGChatbot.score a)%Q -> i < j.
Proof.
  intros Hs Hi Hj Hlt.
  destruct (Nat.lt_trichotomy i j) as [H | [H | H]]; [exact H | exfalso..].
  - subst j. rewrite Hi in Hj. injection Hj as <-. now apply Qlt_irrefl in Hlt.
  - destruct (StronglySorted_lookup _ _ _ _ _ _ Hs Hj Hi H) as [H' | [H' _]].
    + apply (Qlt_irrefl (RAGChatbot.score a)). eapply Qlt_trans; eassumption.
    + rewrite H' in Hlt. now apply Qlt_irrefl in Hlt.
Qed.

(** * The claims *)

Lemma loaded_from_init (files : TrialIndexer.saved) :
  loaded_from files (RAGChatbot.init files).
Proof. repeat split. Qed.

Lemma slice_to_positive {A : Type} (xs : list A) (n : Z) :
  (0 <= n)%Z -> Py.slice_to xs n = firstn (Z.to_nat n) xs.
Proof.
  intros Hn. unfold Py.slice_to.
  destruct (Z.ltb_spec n 0) as [H | _]; [lia | reflexivity].
Qed.

Lemma slice_to_negative {A : Type} (xs : list A) (n : Z) :
  (n < 0)%Z -> Py.slice_to xs n = firstn (length xs - Z.to_nat (- n)) xs.
Proof.
  intros Hn. unfold Py.slice_to.
  destruct (Z.ltb_spec n 0) as [_ | H]; [|lia]. f_equal. lia.
Qed.

Lemma firstn_seq (n start len : nat) :
  firstn n (seq start len) = seq start (Nat.min n len).
Proof.
  revert start len. induction n as [|n IH]; intros start [|len]; simpl;
    try reflexivity.
  now rewrite IH.
Qed.

Lemma ranking_length (scores : list Q) : length (ranking scores) = length scores.
Proof.
  rewrite (Permutation_length (ranking_perm scores)). apply length_seq.
Qed.

(** ** C1 *)

(** C1. For a built index, a query text and K > 0, the list returned by
    [retrieve_relevant_trials] is ordered by score descending, equal scores
    by ascending corpus position; so an entry with a strictly higher score
    stands before every entry with a lower one. *)
Theorem retrieve_ranked (log : Q -> Q) (loaded : list Trial)
  (files : TrialIndexer.saved) (self : RAGChatbot.t) (query : string) (K : Z) :
  TrialIndexer.build_index log loaded = Ok files ->
  loaded_from files self ->
  (0 < K)%Z ->
  exists res,
    RAGChatbot.retrieve_relevant_trials self query K = Ok res
    /\ StronglySorted precedes res
    /\ (forall i j d1 d2,
          res !! i = Some d1 -> res !! j = Some d2 ->
          (RAGChatbot.score d2 < RAGChatbot.score d1)%Q -> i < j).
Proof.
  intros Hb Hl _.
  destruct (build_index_aligned _ _ _ _ Hb Hl) as [Hal _].
  destruct (retrieve_aligned self query K Hal) as [_ Hres].
  eexists. split; [exact Hres|].
  assert (StronglySorted precedes
            (map (entry (RAGChatbot.trials self)
                    (rank_bm25.get_scores (RAGChatbot.bm25 self)
                       (RAGChatbot.tokenize query)))
               (Py.slice_to
                  (ranking (rank_bm25.get_scores (RAGChatbot.bm25 self)
                              (RAGChatbot.tokenize query))) K))) as Hs.
  { destruct (Py_slice_to_firstn
                (ranking (rank_bm25.get_scores (RAGChatbot.bm25 self)
                            (RAGChatbot.tokenize query))) K) as [m ->].
    rewrite <- firstn_map. apply StronglySorted_firstn, ranking_precedes. }
  split; [exact Hs|].
  intros i j d1 d2. now apply precedes_order.
Qed.

(** C1 on the sample corpus: the query [ptsd trial] with K = 2. *)
Lemma retrieve_ranked_witness :
  exists res,
    sample_retrieve "ptsd trial" 2 = Ok res /\ StronglySorted precedes res.
Proof.
  destruct (TrialIndexer.build_index log_q sample_trials) as [files|e] eqn:Hb;
    [|vm_compute in Hb; discriminate].
  destruct (retrieve_ranked log_q sample_trials files (RAGChatbot.init files)
              "ptsd trial" 2 Hb (loaded_from_init files) eq_refl)
    as (res & Hres & Hs & _).
  exists res. split; [|exact Hs].
  unfold sample_retrieve, sample_chatbot. rewrite Hb. exact Hres.
Defined.

(** ** C2 *)

(** C2 as stated fails: with K = 0 the query returns the empty list, and
    with K = -1 the ranking without its last entry; no exception is
    raised. *)
Lemma retrieve_zero_or_negative_returns :
  sample_retrieve "ptsd trial" 0 = Ok []
  /\ positions (sample_retrieve "ptsd trial" (-1)) = Ok [0; 1]
  /\ positions (sample_retrieve "ptsd trial" 3) = Ok [0; 1; 2].
Proof. vm_compute. auto. Qed.

(** C2 (amended). For a built index and a query text, a K that is zero or
    negative raises nothing: K = 0 yields the empty list, and K < 0 yields
    the full ranking without its last |K| entries. *)
Theorem retrieve_nonpositive (log : Q -> Q) (loaded : list Trial)
  (files : TrialIndexer.saved) (self : RAGChatbot.t) (query : string) (K : Z) :
  TrialIndexer.build_index log loaded = Ok files ->
  loaded_from files self ->
  (K <= 0)%Z ->
  exists full,
    RAGChatbot.retrieve_relevant_trials self query (Z.of_nat (length loaded)) = Ok full
    /\ length full = length loaded
    /\ RAGChatbot.retrieve_relevant_trials self query K
       = Ok (if (K =? 0)%Z then []
             else firstn (length loaded - Z.to_nat (- K)) full).
Proof.
  intros Hb Hl HK.
  destruct (build_index_aligned _ _ _ _ Hb Hl) as [Hal Htr].
  destruct (retrieve_aligned self query (Z.of_nat (length loaded)) Hal) as [Hlen Hfull].
  destruct (retrieve_aligned self query K Hal) as [_ HresK].
  cbv zeta in *. rewrite Htr in Hlen.
  set (scores := rank_bm25.get_scores (RAGChatbot.bm25 self)
                   (RAGChatbot.tokenize query)) in *.
  pose proof (ranking_length scores) as Hrl. rewrite Hlen in Hrl.
  rewrite slice_to_positive in Hfull by lia.
  assert (firstn (length loaded) (ranking scores) = ranking scores) as Hall
    by (rewrite <- Hrl; apply firstn_all).
  rewrite Nat2Z.id, Hall in Hfull.
  eexists. split; [exact Hfull|]. split; [now rewrite length_map|].
  rewrite HresK. f_equal.
  destruct (Z.eqb_spec K 0) as [-> | HK0]; [reflexivity|].
  rewrite slice_to_negative by lia. now rewrite firstn_map, Hrl.
Qed.

(** C2 (amended) on the sample corpus, with K = -1. *)
Lemma retrieve_nonpositive_witness :
  exists full,
    sample_retrieve "ptsd trial" 3 = Ok full
    /\ length full = 3
    /\ sample_retrieve "ptsd trial" (-1) = Ok (firstn 2 full).
Proof.
  destruct (TrialIndexer.build_index log_q sample_trials) as [files|e] eqn:Hb;
    [|vm_compute in Hb; discriminate].
  destruct (retrieve_nonpositive log_q sample_trials files (RAGChatbot.init files)
              "ptsd trial" (-1) Hb (loaded_from_init files))
    as (full & Hfull & Hlen & Hres); [discriminate|].
  exists full. unfold sample_retrieve, sample_chatbot. rewrite Hb. simpl.
  repeat split; assumption.
Defined.

(** ** C3 *)

(** C3 as stated fails: the empty query text returns the first K trials,
    each with score 0, not the empty list. *)
Lemma retrieve_empty_query_returns :
  pairs (sample_retrieve "" 2) = Ok [(0, 0%Q); (1, 0%Q)].
Proof. vm_compute. reflexivity. Qed.

(** C3 (amended). For a built index and K > 0, a query text without any
    token raises nothing and returns the first min(K, N) corpus positions
    in ascending order, each with score 0. *)
Theorem retrieve_empty_query (log : Q -> Q) (loaded : list Trial)
  (files : TrialIndexer.saved) (self : RAGChatbot.t) (query : string) (K : Z) :
  TrialIndexer.build_index log loaded = Ok files ->
  loaded_from files self ->
  RAGChatbot.tokenize query = [] ->
  (0 < K)%Z ->
  RAGChatbot.retrieve_relevant_trials self query K
  = Ok (map (fun i => {| RAGChatbot.trial := default ∅ (loaded !! i);
                         RAGChatbot.score := 0%Q;
                         RAGChatbot.index := i |})
          (seq 0 (Nat.min (Z.to_nat K) (length loaded)))).
Proof.
  intros Hb Hl Hq HK.
  destruct (build_index_aligned _ _ _ _ Hb Hl) as [Hal Htr].
  destruct (retrieve_aligned self query K Hal) as [Hlen Hres].
  cbv zeta in *. rewrite Hq, get_scores_nil in *. rewrite repeat_length in Hlen.
  rewrite Hres, Htr. f_equal.
  unfold ranking. rewrite ranking_same_keys.
  2:{ intros i j. rewrite !nth_repeat. reflexivity. }
  rewrite repeat_length, slice_to_positive by lia.
  unfold Py.range. rewrite firstn_seq, Hlen, Htr.
  apply map_ext. intros i. unfold entry. now rewrite nth_repeat.
Qed.

(** C3 (amended) on the sample corpus: a query of white space and
    punctuation has no token. *)
Lemma retrieve_empty_query_witness :
  sample_retrieve "  ?! " 2
  = Ok [ {| RAGChatbot.trial := {[ "BriefTitle" := "PTSD trial (adult)" ]};
            RAGChatbot.score := 0%Q; RAGChatbot.index := 0 |};
         {| RAGChatbot.trial := {[ "Conditions" := "Cancer; trial" ]};
            RAGChatbot.score := 0%Q; RAGChatbot.index := 1 |} ].
Proof.
  destruct (TrialIndexer.build_index log_q sample_trials) as [files|e] eqn:Hb;
    [|vm_compute in Hb; discriminate].
  unfold sample_retrieve, sample_chatbot. rewrite Hb. simpl.
  exact (retrieve_empty_query log_q sample_trials files (RAGChatbot.init files)
           "  ?! " 2 Hb (loaded_from_init files) eq_refl eq_refl).
Defined.

(** ** C4 *)

Lemma empty_or_token (corpus : list (list string)) :
  List.Forall (fun d => d = []) corpus \/ List.Exists (fun d => d <> []) corpus.
Proof.
  induction corpus as [|d corpus [IH | IH]].
  - left. constructor.
  - destruct d as [|w d]; [left; now constructor | right].
    apply Exists_cons_hd. discriminate.
  - right. now apply Exists_cons_tl.
Qed.

(** C4 as stated fails: the build of zero documents raises the
    [ZeroDivisionError] of the [BM25Okapi] constructor, and so does the
    build of two records without any field. *)
Lemma build_index_without_tokens :
  TrialIndexer.build_index log_q [] = Raise ZeroDivisionError
  /\ TrialIndexer.build_index log_q [∅; ∅] = Raise ZeroDivisionError.
Proof. split; reflexivity. Qed.

(** C4 (amended). The index build raises [ZeroDivisionError], and nothing
    else, exactly when no document has a token: on zero documents and on a
    corpus whose documents are all empty alike. With a token in some
    document it succeeds. *)
Theorem build_index_failure (log : Q -> Q) (loaded : list Trial) :
  (TrialIndexer.build_index log loaded = Raise ZeroDivisionError
   <-> List.Forall
         (fun trial =>
            TrialIndexer.tokenize (TrialIndexer.create_trial_text trial) = [])
         loaded)
  /\ (forall e, TrialIndexer.build_index log loaded = Raise e -> e = ZeroDivisionError)
  /\ (List.Exists
        (fun trial =>
           TrialIndexer.tokenize (TrialIndexer.create_trial_text trial) <> [])
        loaded
      -> exists files, TrialIndexer.build_index log loaded = Ok files).
Proof.
  rewrite build_index_unfold.
  set (doc := fun trial : Trial =>
                TrialIndexer.tokenize (TrialIndexer.create_trial_text trial)).
  assert (List.Forall (fun trial => doc trial = []) loaded
          <-> List.Forall (fun d => d = []) (map doc loaded)) as Hall.
  { rewrite !List.Forall_forall. split.
    - intros H d (trial & <- & Hin)%in_map_iff. now apply H.
    - intros H trial Hin. apply H. now apply in_map. }
  assert (List.Exists (fun trial => doc trial <> []) loaded ->
          exists files,
            (try! bm25 := rank_bm25.new log (map doc loaded) in
             Ok {| TrialIndexer.bm25 := bm25;
                   TrialIndexer.tokenized_corpus := map doc loaded;
                   TrialIndexer.trials := loaded |}) = Ok files) as Hok.
  { intros (trial & Hin & Hne)%List.Exists_exists.
    destruct (new_ok log (map doc loaded)) as [bm ->]; [|simpl; eauto].
    apply List.Exists_exists. exists (doc trial). split; [now apply in_map | exact Hne]. }
  split; [split|split].
  - intros Hraise. apply Hall.
    destruct (empty_or_token (map doc loaded)) as [H | H]; [exact H | exfalso].
    destruct (new_ok log (map doc loaded) H) as [bm Hbm].
    rewrite Hbm in Hraise. discriminate.
  - intros H%Hall. now rewrite (new_raises log _ H).
  - intros e. destruct (rank_bm25.new log (map doc loaded)) as [bm|e'] eqn:Hnew;
      simpl; [discriminate|].
    intros [= <-]. eapply new_exn. exact Hnew.
  - exact Hok.
Qed.

(** C4 (amended) on the sample corpus, whose first document has a token. *)
Lemma build_index_failure_witness :
  exists files, TrialIndexer.build_index log_q sample_trials = Ok files.
Proof.
  apply (build_index_failure log_q sample_trials).
  apply Exists_cons_hd. vm_compute. discriminate.
Defined.

(** ** C5 *)

(** C5 as stated fails: a letter outside ASCII is kept, where the stated
    rule removes it and then discards the emptied token. *)
Lemma tokenize_keeps_e_acute :
  TrialIndexer.tokenize e_acute = [e_acute]
  /\ RAGChatbot.tokenize e_acute = [e_acute]
  /\ tokenize_as_specified e_acute = [].
Proof. repeat split; reflexivity. Qed.

(** C5 (amended). For every input string, [tokenize] lower-cases it, splits
    it on white-space runs, removes from each token every character that
    is not alphanumeric for [str.isalnum] (on ASCII input: every character
    that is not an ASCII letter or digit), and discards the emptied tokens;
    the result is the order-preserving sequence of non-empty, lower-case,
    alphanumeric tokens, duplicates kept. Both copies of [tokenize] do so. *)
Theorem tokenize_contract (text : string) :
  let tokens := TrialIndexer.tokenize text in
  RAGChatbot.tokenize text = tokens
  /\ List.Forall
       (fun t => Py.truthy t = true
                 /\ Py.str_forallb Py.isalnum t = true
                 /\ Py.lower t = t)
       tokens
  /\ Py.join "" tokens = Py.join_if Py.isalnum (Py.lower text)
  /\ (forall pre w post,
        Py.str_forallb Py.isspace pre = true ->
        Py.truthy w = true ->
        Py.str_forallb not_space w = true ->
        at_boundary post = true ->
        TrialIndexer.tokenize (pre +:+ w +:+ post)
        = Py.emit (Py.join_if Py.isalnum (Py.lower w))
          ++ TrialIndexer.tokenize post)
  /\ (forall spaces,
        Py.str_forallb Py.isspace spaces = true ->
        TrialIndexer.tokenize spaces = [])
  /\ (Py.str_forallb Py.is_ascii text = true ->
      tokens = tokenize_as_specified text).
Proof.
  cbv zeta. split; [reflexivity|]. split; [|split; [|split; [|split]]].
  - eapply List.Forall_impl; [|apply tokenize_tokens].
    intros t (Ht & Hal & Hfix). repeat split; try assumption.
    now apply lower_of_fixed.
  - unfold TrialIndexer.tokenize, Py.join_if.
    rewrite join_empty_truthy, join_empty_filter.
    unfold Py.split. rewrite join_split_from, str_app_nil_l.
    apply str_filter_filter. intros c Hc. unfold not_space.
    now rewrite isalnum_not_space.
  - apply tokenize_segment.
  - intros spaces Hsp. unfold TrialIndexer.tokenize.
    rewrite split_all_spaces; [reflexivity|].
    rewrite str_forallb_lower; [assumption | apply isspace_lower_char].
  - apply tokenize_ascii.
Qed.

(** ** C6 *)

(** C6. [TrialIndexer.tokenize] and [RAGChatbot.tokenize] return the same
    token sequence on every input string. *)
Theorem tokenize_same_function (text : string) :
  TrialIndexer.tokenize text = RAGChatbot.tokenize text.
Proof. reflexivity. Qed.

(** ** C8 *)

(** C8. Joining the tokens of [tokenize x] with single spaces and
    tokenizing again yields [tokenize x], for either copy of [tokenize]. *)
Theorem tokenize_fixed_point (x : string) :
  RAGChatbot.tokenize (Py.join " " (RAGChatbot.tokenize x)) = RAGChatbot.tokenize x
  /\ TrialIndexer.tokenize (Py.join " " (TrialIndexer.tokenize x))
     = TrialIndexer.tokenize x.
Proof.
  assert (TrialIndexer.tokenize (Py.join " " (TrialIndexer.tokenize x))
          = TrialIndexer.tokenize x) as H
    by apply tokenize_join, tokenize_tokens.
  split; exact H.
Qed.

(** ** C9 *)

Lemma lookup_map {A B : Type} (f : A -> B) (l : list A) (i : nat) (x : A) :
  l !! i = Some x -> map f l !! i = Some (f x).
Proof.
  revert i. induction l as [|y l IH]; intros [|i]; simpl; try discriminate.
  - now intros [= ->].
  - apply IH.
Qed.

Lemma add_field_none (trial : Trial) (key label : string)
  (shown : string -> string) (parts : list string) :
  trial !! key = None -> TrialIndexer.add_field trial key label shown parts = parts.
Proof. unfold TrialIndexer.add_field. now intros ->. Qed.

Lemma create_trial_text_no_field (trial : Trial) :
  List.Forall (fun key => trial !! key = None) indexed_fields ->
  TrialIndexer.create_trial_text trial = "".
Proof.
  unfold indexed_fields. intros H.
  repeat match goal with
         | H : List.Forall _ (_ :: _) |- _ =>
             apply Forall_cons_1 in H; destruct H as [? H]
         end.
  unfold TrialIndexer.create_trial_text. cbv zeta.
  rewrite !add_field_none by assumption.
  reflexivity.
Qed.

(** C9. Corpus building maps every record, in input order, to exactly one
    tokenized document, so the tokenized corpus and the per-document
    statistics of the index are as long as the record sequence; a record
    none of whose fields is present yields the empty document; and every
    position in a query result is a position of the corpus. *)
Theorem corpus_alignment (log : Q -> Q) (loaded : list Trial)
  (files : TrialIndexer.saved) :
  TrialIndexer.build_index log loaded = Ok files ->
  TrialIndexer.trials files = loaded
  /\ length (TrialIndexer.tokenized_corpus files) = length loaded
  /\ (forall i trial,
        loaded !! i = Some trial ->
        TrialIndexer.tokenized_corpus files !! i
        = Some (TrialIndexer.tokenize (TrialIndexer.create_trial_text trial)))
  /\ rank_bm25.corpus_size (TrialIndexer.bm25 files) = length loaded
  /\ length (rank_bm25.doc_len (TrialIndexer.bm25 files)) = length loaded
  /\ length (rank_bm25.doc_freqs (TrialIndexer.bm25 files)) = length loaded
  /\ (forall trial,
        List.Forall (fun key => trial !! key = None) indexed_fields ->
        TrialIndexer.tokenize (TrialIndexer.create_trial_text trial) = [])
  /\ (forall self query K,
        loaded_from files self ->
        exists res,
          RAGChatbot.retrieve_relevant_trials self query K = Ok res
          /\ List.Forall
               (fun item => 0 <= RAGChatbot.index item < length loaded) res).
Proof.
  intros Hb. pose proof (build_index_inv _ _ _ Hb) as (Ht & Hc & Hnew).
  pose proof (new_shape _ _ _ Hnew) as (H1 & H2 & H3).
  rewrite Hc, length_map in H1, H2, H3.
  repeat split; try assumption.
  - rewrite Hc. apply length_map.
  - intros i trial Hi. rewrite Hc.
    exact (lookup_map
             (fun trial => TrialIndexer.tokenize (TrialIndexer.create_trial_text trial))
             loaded i trial Hi).
  - intros trial Hnone. now rewrite create_trial_text_no_field.
  - intros self query K Hl.
    destruct (build_index_aligned _ _ _ _ Hb Hl) as [Hal Htr].
    destruct (retrieve_aligned self query K Hal) as [Hlen Hres].
    eexists. split; [exact Hres|].
    apply Forall_map. apply slice_to_Forall.
    eapply List.Forall_impl; [|apply ranking_in_range].
    intros idx Hidx. cbv beta zeta in Hidx, Hlen.
    rewrite Hlen, Htr in Hidx. simpl. lia.
Qed.

(** C9 on the sample corpus: three records, the third without fields. *)
Lemma corpus_alignment_witness :
  exists files,
    TrialIndexer.build_index log_q sample_trials = Ok files
    /\ length (TrialIndexer.tokenized_corpus files) = 3
    /\ TrialIndexer.tokenized_corpus files !! 2 = Some [].
Proof.
  destruct (TrialIndexer.build_index log_q sample_trials) as [files|e] eqn:Hb;
    [|vm_compute in Hb; discriminate].
  destruct (corpus_alignment log_q sample_trials files Hb)
    as (_ & Hlen & Hdoc & _).
  exists files. split; [reflexivity|]. split; [exact Hlen|].
  exact (Hdoc 2 ∅ eq_refl).
Defined.

(** ** C10 *)

Lemma slice_to_length {A : Type} (xs : list A) (n : Z) :
  (0 <= n)%Z -> length (Py.slice_to xs n) = Nat.min (Z.to_nat n) (length xs).
Proof. intros Hn. rewrite slice_to_positive by exact Hn. apply length_firstn. Qed.

(** C10. A chat request retrieves with the default of 10 results, so it
    returns min(10, corpus size) sources: [RAGChatbot.chat] passes no result
    count, and the endpoint does not forward the field [n_results], whose
    value has no effect on the reply. *)
Theorem chat_ignores_n_results (log : Q -> Q) (loaded : list Trial)
  (files : TrialIndexer.saved) (self : RAGChatbot.t)
  (create_completion : string -> string -> string + string)
  (query : string) (n1 n2 : option Z) :
  TrialIndexer.build_index log loaded = Ok files ->
  loaded_from files self ->
  (forall chatbot,
     Api.chat create_completion chatbot {| Api.query := query; Api.n_results := n1 |}
     = Api.chat create_completion chatbot {| Api.query := query; Api.n_results := n2 |})
  /\ exists relevant_trials result self',
       RAGChatbot.retrieve_relevant_trials self query 10 = Ok relevant_trials
       /\ RAGChatbot.chat create_completion self query = Ok (result, self')
       /\ RAGChatbot.sources result = map RAGChatbot.source_of relevant_trials
       /\ length (RAGChatbot.sources result) = Nat.min 10 (length loaded)
       /\ Api.chat create_completion (Some self)
            {| Api.query := query; Api.n_results := n1 |}
          = (Api.Respond {| Api.success := true;
                            Api.r_query := query;
                            Api.r_answer := RAGChatbot.answer result;
                            Api.r_sources := RAGChatbot.sources result |},
             Some self')
       /\ loaded_from files self'.
Proof.
  intros Hb Hl. split; [reflexivity|].
  destruct (build_index_aligned _ _ _ _ Hb Hl) as [Hal Htr].
  destruct (retrieve_aligned self query 10 Hal) as [Hlen Hres].
  cbv zeta in *.
  set (scores := rank_bm25.get_scores (RAGChatbot.bm25 self)
                   (RAGChatbot.tokenize query)) in *.
  set (relevant := map (entry (RAGChatbot.trials self) scores)
                     (Py.slice_to (ranking scores) 10)) in *.
  assert (RAGChatbot.chat create_completion self query
          = Ok ({| RAGChatbot.answer :=
                     RAGChatbot.generate_answer create_completion query
                       (RAGChatbot.format_context relevant);
                   RAGChatbot.sources := map RAGChatbot.source_of relevant;
                   RAGChatbot.context := RAGChatbot.format_context relevant |},
                {| RAGChatbot.bm25 := RAGChatbot.bm25 self;
                   RAGChatbot.tokenized_corpus := RAGChatbot.tokenized_corpus self;
                   RAGChatbot.trials := RAGChatbot.trials self;
                   RAGChatbot.total_queries := RAGChatbot.total_queries self + 1 |}))
    as Hchat.
  { unfold RAGChatbot.chat, RAGChatbot.default_n_results. rewrite Hres. simpl.
    now rewrite corpus_loop. }
  do 3 eexists. split; [exact Hres|]. split; [exact Hchat|].
  split; [reflexivity|]. split; [|split].
  - simpl. unfold relevant. rewrite !length_map, slice_to_length by lia.
    rewrite ranking_length, Hlen, Htr. reflexivity.
  - unfold Api.chat. simpl Api.query. now rewrite Hchat.
  - destruct Hl as (H1 & H2 & H3). repeat split; assumption.
Qed.

(** C10 on the sample corpus: the requests with [n_results] 1 and 20 get
    the same reply, with all three trials as sources. *)
Lemma chat_ignores_n_results_witness :
  exists self reply self',
    sample_chatbot = Ok self
    /\ Api.chat sample_service (Some self)
         {| Api.query := "ptsd trial"; Api.n_results := Some 1%Z |}
       = (Api.Respond reply, Some self')
    /\ Api.chat sample_service (Some self)
         {| Api.query := "ptsd trial"; Api.n_results := Some 20%Z |}
       = (Api.Respond reply, Some self')
    /\ length (Api.r_sources reply) = 3.
Proof.
  unfold sample_chatbot.
  destruct (TrialIndexer.build_index log_q sample_trials) as [files|e] eqn:Hb;
    [|vm_compute in Hb; discriminate].
  destruct (chat_ignores_n_results log_q sample_trials files (RAGChatbot.init files)
              sample_service "ptsd trial" (Some 1%Z) (Some 20%Z) Hb
              (loaded_from_init files))
    as (Hsame & relevant & result & self' & _ & _ & _ & Hlen & Hreply & _).
  exists (RAGChatbot.init files). eexists. exists self'.
  split; [reflexivity|]. split; [exact Hreply|].
  split; [rewrite <- Hsame; exact Hreply | exact Hlen].
Defined.

(** * Further properties *)

Lemma sample_built :
  TrialIndexer.build_index log_q sample_trials = Ok sample_files.
Proof. vm_compute. reflexivity. Qed.

(** ** [tokenize] and [create_trial_text] *)

Lemma split_from_space_app (a b cur : string) (c : ascii) :
  Py.isspace c = true ->
  Py.split_from cur (a +:+ String c b) = Py.split_from cur a ++ Py.split b.
Proof.
  intros Hc. revert cur. induction a as [|x a IH]; intros cur; str_simpl.
  - now rewrite Hc.
  - destruct (Py.isspace x); [|apply IH].
    rewrite IH. now rewrite app_assoc.
Qed.

Lemma tokenize_space_app (a b : string) (c : ascii) :
  Py.isspace c = true ->
  TrialIndexer.tokenize (a +:+ String c b)
  = TrialIndexer.tokenize a ++ TrialIndexer.tokenize b.
Proof.
  intros Hc. unfold TrialIndexer.tokenize, Py.lower.
  rewrite str_map_app. simpl Py.str_map. unfold Py.split at 1.
  rewrite split_from_space_app by now rewrite isspace_lower_char.
  now rewrite List.map_app, List.filter_app.
Qed.

Lemma tokenize_join_parts (parts : list string) :
  TrialIndexer.tokenize (Py.join " " parts)
  = concat (map TrialIndexer.tokenize parts).
Proof.
  induction parts as [|p parts IH]; [reflexivity|].
  destruct parts as [|p' parts].
  - simpl. now rewrite app_nil_r.
  - change (Py.join " " (p :: p' :: parts))
      with (p +:+ String " " (Py.join " " (p' :: parts))).
    rewrite tokenize_space_app by reflexivity. now rewrite IH.
Qed.

(** X1. Tokenizing two texts with a white-space character between them
    gives the tokens of the first followed by the tokens of the second,
    for either copy of [tokenize]; so the tokens of a joined document are
    those of its parts, in order. *)
Theorem tokenize_concatenates (a b : string) (c : ascii) (parts : list string) :
  (Py.isspace c = true ->
   TrialIndexer.tokenize (a +:+ String c b)
   = TrialIndexer.tokenize a ++ TrialIndexer.tokenize b)
  /\ (Py.isspace c = true ->
      RAGChatbot.tokenize (a +:+ String c b)
      = RAGChatbot.tokenize a ++ RAGChatbot.tokenize b)
  /\ TrialIndexer.tokenize (Py.join " " parts)
     = concat (map TrialIndexer.tokenize parts).
Proof.
  split; [|split].
  - apply tokenize_space_app.
  - apply tokenize_space_app.
  - apply tokenize_join_parts.
Qed.

(** X1 at a tab between two words and at three parts. *)
Lemma tokenize_concatenates_witness :
  TrialIndexer.tokenize ("PTSD," +:+ String "009"%char "Trial")
  = TrialIndexer.tokenize "PTSD," ++ TrialIndexer.tokenize "Trial".
Proof.
  apply (tokenize_concatenates "PTSD," "Trial" "009"%char []). reflexivity.
Defined.

Lemma add_field_keep (trial : Trial) (key label : string)
  (shown : string -> string) (parts : list string) (x : string) :
  In x parts -> In x (TrialIndexer.add_field trial key label shown parts).
Proof.
  intros Hx. unfold TrialIndexer.add_field.
  destruct (trial !! key) as [v|]; [|exact Hx].
  destruct (Py.truthy v); [|exact Hx]. apply in_or_app. now left.
Qed.

Lemma add_field_here (trial : Trial) (key label : string)
  (shown : string -> string) (parts : list string) (v : string) :
  trial !! key = Some v -> Py.truthy v = true ->
  In (label +:+ ": " +:+ shown v)
    (TrialIndexer.add_field trial key label shown parts).
Proof.
  intros Hv Ht. unfold TrialIndexer.add_field. rewrite Hv, Ht.
  apply in_or_app. right. now left.
Qed.

Lemma tokens_of_part (parts : list string) (part t : string) :
  In part parts -> In t (TrialIndexer.tokenize part) ->
  In t (TrialIndexer.tokenize (Py.join " " parts)).
Proof.
  intros Hp Ht. rewrite tokenize_join_parts. apply in_concat.
  exists (TrialIndexer.tokenize part). split; [now apply in_map | exact Ht].
Qed.

Lemma tokenize_labelled (label v : string) :
  TrialIndexer.tokenize (label +:+ ": " +:+ v)
  = TrialIndexer.tokenize (label +:+ ":") ++ TrialIndexer.tokenize v.
Proof.
  change (label +:+ ": " +:+ v) with (label +:+ (":" +:+ String " " v)).
  rewrite <- str_app_assoc. now rewrite tokenize_space_app by reflexivity.
Qed.

Lemma newline_to_space_lower (c : ascii) :
  Py.lower_char (if Ascii.eqb c TrialIndexer.newline then TrialIndexer.space else c)
  = (if Ascii.eqb (Py.lower_char c) TrialIndexer.newline
     then TrialIndexer.space else Py.lower_char c).
Proof. each_char c. Qed.

Lemma newline_to_space_isspace (c : ascii) :
  Py.isspace (if Ascii.eqb c TrialIndexer.newline then TrialIndexer.space else c)
  = Py.isspace c.
Proof. each_char c. Qed.

Lemma newline_to_space_other (c : ascii) :
  Py.isspace c = false ->
  (if Ascii.eqb c TrialIndexer.newline then TrialIndexer.space else c) = c.
Proof. each_char c. Qed.

Lemma split_from_newline_to_space (cur s : string) :
  Py.split_from cur (Py.replace_char TrialIndexer.newline TrialIndexer.space s)
  = Py.split_from cur s.
Proof.
  unfold Py.replace_char. revert cur.
  induction s as [|c s IH]; intros cur; simpl; [reflexivity|].
  rewrite newline_to_space_isspace.
  destruct (Py.isspace c) eqn:Hc; [now rewrite IH|].
  now rewrite (newline_to_space_other c Hc), IH.
Qed.

(** Replacing the newlines of the eligibility text by spaces changes no
    token. *)
Lemma tokenize_newline_to_space (v : string) :
  TrialIndexer.tokenize (Py.replace_char TrialIndexer.newline TrialIndexer.space v)
  = TrialIndexer.tokenize v.
Proof.
  unfold TrialIndexer.tokenize. f_equal. f_equal.
  assert (Py.lower (Py.replace_char TrialIndexer.newline TrialIndexer.space v)
          = Py.replace_char TrialIndexer.newline TrialIndexer.space (Py.lower v))
    as ->.
  { unfold Py.lower, Py.replace_char.
    induction v as [|c v IH]; simpl; [reflexivity|].
    now rewrite newline_to_space_lower, IH. }
  apply split_from_newline_to_space.
Qed.

(** X2. Indexing loses no word of a listed field: every token of the value
    of one of the fields that [create_trial_text] reads is a token of the
    document built from the record. *)
Theorem indexed_words_kept (trial : Trial) (key v t : string) :
  In key indexed_fields ->
  trial !! key = Some v ->
  In t (TrialIndexer.tokenize v) ->
  In t (TrialIndexer.tokenize (TrialIndexer.create_trial_text trial)).
Proof.
  intros Hkey Hv Ht.
  assert (Py.truthy v = true) as Htruthy by (destruct v; [destruct Ht | reflexivity]).
  unfold TrialIndexer.create_trial_text. cbv zeta.
  unfold indexed_fields in Hkey. simpl in Hkey.
  repeat destruct Hkey as [<- | Hkey]; try contradiction;
    (eapply tokens_of_part;
     [ repeat first [ (eapply add_field_here; [eassumption | assumption])
                    | apply add_field_keep ]
     | cbv beta; rewrite tokenize_labelled; apply in_or_app; right;
       rewrite ?tokenize_newline_to_space; exact Ht ]).
Qed.

(** X2 on a record with a title: the word [ptsd] of the title is indexed. *)
Lemma indexed_words_kept_witness :
  In "ptsd"
    (TrialIndexer.tokenize
       (TrialIndexer.create_trial_text {[ "BriefTitle" := "PTSD trial (adult)" ]})).
Proof.
  apply (indexed_words_kept {[ "BriefTitle" := "PTSD trial (adult)" ]}
           "BriefTitle" "PTSD trial (adult)" "ptsd").
  - unfold indexed_fields. simpl. tauto.
  - reflexivity.
  - simpl. tauto.
Defined.

Lemma add_field_shown_value (trial1 trial2 : Trial) (key label : string)
  (shown : string -> string) (parts : list string) :
  shown_value trial1 key = shown_value trial2 key ->
  TrialIndexer.add_field trial1 key label shown parts
  = TrialIndexer.add_field trial2 key label shown parts.
Proof.
  unfold shown_value, TrialIndexer.add_field.
  destruct (trial1 !! key) as [v1|], (trial2 !! key) as [v2|];
    try destruct (Py.truthy v1) eqn:H1; try destruct (Py.truthy v2) eqn:H2;
    intros [=]; subst; try reflexivity.
Qed.

(** X3. The text of a record depends only on the non-empty values of the
    listed fields: a field outside the list is ignored, and a field that
    holds the empty string counts as absent. *)
Theorem create_trial_text_frame (trial1 trial2 : Trial) :
  List.Forall (fun key => shown_value trial1 key = shown_value trial2 key)
    indexed_fields ->
  TrialIndexer.create_trial_text trial1 = TrialIndexer.create_trial_text trial2.
Proof.
  unfold indexed_fields. intros H.
  repeat match goal with
         | H : List.Forall _ (_ :: _) |- _ =>
             apply Forall_cons_1 in H; destruct H as [? H]
         end.
  unfold TrialIndexer.create_trial_text. cbv zeta.
  repeat match goal with
         | E : shown_value trial1 ?k = shown_value trial2 ?k |- _ =>
             rewrite (add_field_shown_value trial1 trial2 k _ _ _ E); clear E
         end.
  reflexivity.
Qed.

(** X3 on a record with an unlisted field and an empty title. *)
Lemma create_trial_text_frame_witness :
  TrialIndexer.create_trial_text
    {[ "Sponsor" := "NIH"; "BriefTitle" := ""; "Phase" := "PHASE2" ]}
  = TrialIndexer.create_trial_text {[ "Phase" := "PHASE2" ]}.
Proof.
  apply create_trial_text_frame.
  unfold indexed_fields. repeat constructor.
Defined.

(** ** [retrieve_relevant_trials] *)

Lemma build_results_raises (trials : list Trial) (scores : list Q)
  (top : list nat) (acc : list RAGChatbot.trial_info) :
  List.Exists (fun idx => length trials <= idx) top ->
  RAGChatbot.build_results trials scores top acc = Raise IndexError.
Proof.
  intros Hex. revert acc. induction top as [|idx rest IH]; intros acc.
  - now apply Exists_nil in Hex.
  - simpl. destruct (trials !! idx) as [trial|] eqn:Hidx; [|reflexivity].
    apply IH. apply Exists_cons in Hex as [Hbad | Hrest]; [|exact Hrest].
    apply lookup_lt_Some in Hidx. lia.
Qed.

Lemma in_or_out (n : nat) (top : list nat) :
  List.Forall (fun idx => idx < n) top \/ List.Exists (fun idx => n <= idx) top.
Proof.
  induction top as [|idx top [IH | IH]].
  - left. constructor.
  - destruct (Nat.lt_ge_cases idx n); [left; now constructor | right].
    now apply Exists_cons_hd.
  - right. now apply Exists_cons_tl.
Qed.

(** X4. For a chatbot whose index the constructor [BM25Okapi] built from
    some corpus, whatever list of trials it holds,
    [retrieve_relevant_trials] raises [IndexError] exactly when one of the
    selected indices is past the end of the list of trials, raises nothing
    else, and otherwise returns one entry per selected index, in order.
    On such an index the arrays of [get_scores] have one entry per document
    and the average document length is positive, so that the scoring
    itself raises nothing. *)
Theorem retrieve_index_error (log : Q -> Q) (corpus : list (list string))
  (self : RAGChatbot.t) (query : string) (K : Z) :
  rank_bm25.new log corpus = Ok (RAGChatbot.bm25 self) ->
  let top := top_n_indices self query K in
  (RAGChatbot.retrieve_relevant_trials self query K = Raise IndexError
   <-> List.Exists (fun idx => length (RAGChatbot.trials self) <= idx) top)
  /\ (forall e,
        RAGChatbot.retrieve_relevant_trials self query K = Raise e ->
        e = IndexError)
  /\ (forall res,
        RAGChatbot.retrieve_relevant_trials self query K = Ok res ->
        map RAGChatbot.index res = top
        /\ length top <= length corpus).
Proof.
  intros Hnew. cbv zeta.
  destruct (new_shape _ _ _ Hnew) as (Hn & Hdl & Hdf).
  assert (length (top_n_indices self query K) <= length corpus) as Hlen.
  { unfold top_n_indices.
    destruct (Py_slice_to_firstn
                (ranking (rank_bm25.get_scores (RAGChatbot.bm25 self)
                            (RAGChatbot.tokenize query))) K) as [m ->].
    rewrite length_firstn, (Permutation_length (ranking_perm _)).
    unfold Py.range. rewrite length_seq, get_scores_length by congruence. lia. }
  revert Hlen.
  unfold top_n_indices, RAGChatbot.retrieve_relevant_trials.
  fold (ranking (rank_bm25.get_scores (RAGChatbot.bm25 self)
                   (RAGChatbot.tokenize query))).
  set (scores := rank_bm25.get_scores (RAGChatbot.bm25 self)
                   (RAGChatbot.tokenize query)).
  set (top := Py.slice_to (ranking scores) K).
  intros Hlen.
  destruct (in_or_out (length (RAGChatbot.trials self)) top) as [Hin | Hout].
  - rewrite build_results_ok by exact Hin. simpl.
    split; [split; [discriminate|]|split].
    + intros Hex. exfalso. apply List.Exists_exists in Hex as (idx & Hidx & Hbad).
      rewrite List.Forall_forall in Hin. specialize (Hin idx Hidx). lia.
    + discriminate.
    + intros res [= <-]. split; [|exact Hlen]. rewrite map_map. simpl. apply map_id.
  - rewrite build_results_raises by exact Hout.
    split; [tauto|]. split; [now intros e [= <-] | discriminate].
Qed.

(** X4 on the sample index with only its first record as the list of
    trials: asking for three results raises [IndexError]. *)
Lemma retrieve_index_error_witness :
  RAGChatbot.retrieve_relevant_trials (truncated 1 sample_files) "ptsd trial" 3
  = Raise IndexError.
Proof.
  apply (retrieve_index_error log_q (TrialIndexer.tokenized_corpus sample_files)
           (truncated 1 sample_files) "ptsd trial" 3).
  - exact (proj2 (proj2 (build_index_inv _ _ _ sample_built))).
  - vm_compute. apply Exists_cons_tl, Exists_cons_hd. constructor.
Defined.

Lemma ranking_NoDup (scores : list Q) : List.NoDup (ranking scores).
Proof.
  apply (Permutation_NoDup (Permutation_sym (ranking_perm scores))).
  apply seq_NoDup.
Qed.

Lemma NoDup_firstn {A : Type} (n : nat) (l : list A) :
  List.NoDup l -> List.NoDup (firstn n l).
Proof.
  intros H. rewrite <- (firstn_skipn n l) in H.
  now apply NoDup_app_remove_r in H.
Qed.

Lemma slice_to_NoDup {A : Type} (xs : list A) (n : Z) :
  List.NoDup xs -> List.NoDup (Py.slice_to xs n).
Proof.
  intros H. destruct (Py_slice_to_firstn xs n) as [m ->]. now apply NoDup_firstn.
Qed.

Lemma map_entry_index (trials : list Trial) (scores : list Q) (top : list nat) :
  map RAGChatbot.index (map (entry trials scores) top) = top.
Proof. rewrite map_map. simpl. apply map_id. Qed.

(** X5. For a built index and K >= 0 the result has min(K, N) entries, no
    corpus position occurs twice in it, and every entry carries the record
    and the score of its own position. *)
Theorem retrieve_shape (log : Q -> Q) (loaded : list Trial)
  (files : TrialIndexer.saved) (self : RAGChatbot.t) (query : string) (K : Z) :
  TrialIndexer.build_index log loaded = Ok files ->
  loaded_from files self ->
  (0 <= K)%Z ->
  exists res,
    RAGChatbot.retrieve_relevant_trials self query K = Ok res
    /\ length res = Nat.min (Z.to_nat K) (length loaded)
    /\ List.NoDup (map RAGChatbot.index res)
    /\ List.Forall
         (fun item =>
            loaded !! RAGChatbot.index item = Some (RAGChatbot.trial item)
            /\ RAGChatbot.score item
               = nth (RAGChatbot.index item)
                   (rank_bm25.get_scores (RAGChatbot.bm25 self)
                      (RAGChatbot.tokenize query)) 0%Q)
         res.
Proof.
  intros Hb Hl HK.
  destruct (build_index_aligned _ _ _ _ Hb Hl) as [Hal Htr].
  destruct (retrieve_aligned self query K Hal) as [Hlen Hres].
  cbv zeta in *.
  set (scores := rank_bm25.get_scores (RAGChatbot.bm25 self)
                   (RAGChatbot.tokenize query)) in *.
  eexists. split; [exact Hres|]. split; [|split].
  - rewrite length_map, slice_to_length by exact HK.
    now rewrite ranking_length, Hlen, Htr.
  - rewrite map_entry_index. apply slice_to_NoDup, ranking_NoDup.
  - apply Forall_map. eapply List.Forall_impl;
      [|apply slice_to_Forall, ranking_in_range].
    intros idx Hidx. cbv beta in Hidx. simpl. split; [|reflexivity].
    rewrite Hlen, Htr in Hidx.
    destruct (lookup_lt_is_Some_2 loaded idx Hidx) as [trial Htrial].
    rewrite Htr, Htrial. reflexivity.
Qed.

(** X5 on the sample corpus, with K = 2. *)
Lemma retrieve_shape_witness :
  exists res,
    sample_retrieve "trial" 2 = Ok res
    /\ length res = 2
    /\ List.NoDup (map RAGChatbot.index res).
Proof.
  destruct (TrialIndexer.build_index log_q sample_trials) as [files|e] eqn:Hb;
    [|vm_compute in Hb; discriminate].
  destruct (retrieve_shape log_q sample_trials files (RAGChatbot.init files)
              "trial" 2 Hb (loaded_from_init files))
    as (res & Hres & Hlen & Hnd & _); [discriminate|].
  exists res. unfold sample_retrieve, sample_chatbot. rewrite Hb.
  repeat split; assumption.
Defined.

Lemma firstn_slice {A : Type} (xs : list A) (K K' : Z) :
  (0 <= K <= K')%Z ->
  Py.slice_to xs K = firstn (Z.to_nat K) (Py.slice_to xs K').
Proof.
  intros HK. rewrite !slice_to_positive by lia.
  rewrite firstn_firstn. f_equal. lia.
Qed.

(** X6. For a built index, asking for more results only extends the list:
    with 0 <= K <= K' the result for K is the first K entries of the result
    for K'. *)
Theorem retrieve_prefix (log : Q -> Q) (loaded : list Trial)
  (files : TrialIndexer.saved) (self : RAGChatbot.t) (query : string) (K K' : Z) :
  TrialIndexer.build_index log loaded = Ok files ->
  loaded_from files self ->
  (0 <= K <= K')%Z ->
  exists more,
    RAGChatbot.retrieve_relevant_trials self query K' = Ok more
    /\ RAGChatbot.retrieve_relevant_trials self query K
       = Ok (firstn (Z.to_nat K) more).
Proof.
  intros Hb Hl HK.
  destruct (build_index_aligned _ _ _ _ Hb Hl) as [Hal _].
  destruct (retrieve_aligned self query K Hal) as [_ HresK].
  destruct (retrieve_aligned self query K' Hal) as [_ HresK'].
  eexists. split; [exact HresK'|]. rewrite HresK. f_equal.
  rewrite (firstn_slice _ K K' HK). symmetry. apply firstn_map.
Qed.

(** X6 on the sample corpus, with K = 1 and K' = 3. *)
Lemma retrieve_prefix_witness :
  exists more,
    sample_retrieve "trial" 3 = Ok more
    /\ sample_retrieve "trial" 1 = Ok (firstn 1 more).
Proof.
  destruct (TrialIndexer.build_index log_q sample_trials) as [files|e] eqn:Hb;
    [|vm_compute in Hb; discriminate].
  destruct (retrieve_prefix log_q sample_trials files (RAGChatbot.init files)
              "trial" 1 3 Hb (loaded_from_init files))
    as (more & Hmore & Hone); [lia|].
  exists more. unfold sample_retrieve, sample_chatbot. rewrite Hb.
  split; assumption.
Defined.

Lemma StronglySorted_split {A : Type} (R : A -> A -> Prop) (n : nat) (l : list A)
  (x y : A) :
  StronglySorted R l -> In x (firstn n l) -> In y (skipn n l) -> R x y.
Proof.
  intros Hs. revert n. induction Hs as [|a l Hs IH Ha]; intros n Hx Hy.
  - rewrite firstn_nil in Hx. destruct Hx.
  - destruct n as [|n]; [destruct Hx|]. simpl in Hx, Hy.
    destruct Hx as [<- | Hx]; [|now apply (IH n)].
    rewrite List.Forall_forall in Ha. apply Ha.
    rewrite <- (firstn_skipn n l). apply in_or_app. now right.
Qed.

(** X7. For a built index and K >= 0 the result holds the highest scores:
    no corpus position left out of the result scores strictly higher than
    an entry of the result. *)
Theorem retrieve_top (log : Q -> Q) (loaded : list Trial)
  (files : TrialIndexer.saved) (self : RAGChatbot.t) (query : string) (K : Z)
  (res : list RAGChatbot.trial_info) :
  TrialIndexer.build_index log loaded = Ok files ->
  loaded_from files self ->
  (0 <= K)%Z ->
  RAGChatbot.retrieve_relevant_trials self query K = Ok res ->
  forall item j,
    In item res ->
    j < length loaded ->
    ~ In j (map RAGChatbot.index res) ->
    (nth j (rank_bm25.get_scores (RAGChatbot.bm25 self) (RAGChatbot.tokenize query))
       0 <= RAGChatbot.score item)%Q.
Proof.
  intros Hb Hl HK Hres item j Hitem Hj Hout.
  destruct (build_index_aligned _ _ _ _ Hb Hl) as [Hal Htr].
  destruct (retrieve_aligned self query K Hal) as [Hlen Hres'].
  cbv zeta in *. rewrite Hres' in Hres. injection Hres as <-.
  set (scores := rank_bm25.get_scores (RAGChatbot.bm25 self)
                   (RAGChatbot.tokenize query)) in *.
  rewrite map_entry_index, slice_to_positive in Hout by exact HK.
  rewrite slice_to_positive in Hitem by exact HK.
  apply in_map_iff in Hitem as (i & <- & Hi). simpl.
  assert (In j (skipn (Z.to_nat K) (ranking scores))) as Hskip.
  { assert (In j (ranking scores)) as Hin.
    { apply (Permutation_in _ (Permutation_sym (ranking_perm scores))).
      apply in_seq. rewrite Hlen, Htr. lia. }
    rewrite <- (firstn_skipn (Z.to_nat K) (ranking scores)) in Hin.
    apply in_app_or in Hin as [Hin | Hin]; [contradiction | exact Hin]. }
  destruct (StronglySorted_split _ _ _ _ _
              (ranking_sorted (fun i => nth i scores 0%Q) (length scores)) Hi Hskip)
    as [Hlt | [Heq _]].
  - now apply Qlt_le_weak.
  - rewrite Heq. apply Qle_refl.
Qed.

(** X7 on the sample corpus: with K = 1 the query [trial] returns position
    1, and position 0, left out, does not score higher. *)
Lemma retrieve_top_witness :
  exists item,
    RAGChatbot.retrieve_relevant_trials (RAGChatbot.init sample_files) "trial" 1
    = Ok [item]
    /\ RAGChatbot.index item = 1
    /\ (nth 0 (rank_bm25.get_scores (TrialIndexer.bm25 sample_files)
                 (RAGChatbot.tokenize "trial")) 0
        <= RAGChatbot.score item)%Q.
Proof.
  eexists. split; [vm_compute; reflexivity|]. split; [reflexivity|].
  match goal with
  | |- (_ <= RAGChatbot.score ?item)%Q =>
      apply (retrieve_top log_q sample_trials sample_files
               (RAGChatbot.init sample_files) "trial" 1 [item] sample_built
               (loaded_from_init sample_files))
  end.
  - lia.
  - vm_compute. reflexivity.
  - now left.
  - simpl. lia.
  - simpl. intros [H | []]. discriminate.
Defined.

(** ** Scores *)

Section ScoreFacts.
Variable log : Q -> Q.

Lemma count_words_lookup (document : list string) (m : gmap string nat) (w : string) :
  ~ In w document ->
  fold_left rank_bm25.count_word document m !! w = m !! w.
Proof.
  revert m. induction document as [|x d IH]; intros m Hw; simpl; [reflexivity|].
  rewrite IH by (intros H; apply Hw; now right).
  unfold rank_bm25.count_word. apply lookup_insert_ne.
  intros ->. apply Hw. now left.
Qed.

Lemma count_documents_lookup (nd frequencies : gmap string nat) (w : string) :
  nd !! w = None -> frequencies !! w = None ->
  map_fold rank_bm25.count_document nd frequencies !! w = None.
Proof.
  intros Hnd.
  apply (map_fold_weak_ind (fun r m => m !! w = None -> r !! w = None)).
  - intros _. exact Hnd.
  - intros i x m r _ IH Hins. unfold rank_bm25.count_document.
    destruct (decide (i = w)) as [-> | Hne].
    + now rewrite lookup_insert_eq in Hins.
    + rewrite lookup_insert_ne in Hins by exact Hne.
      rewrite lookup_insert_ne by exact Hne. now apply IH.
Qed.

Lemma initialize_nd_lookup (corpus : list (list string)) (st : rank_bm25.counts)
  (w : string) :
  rank_bm25.c_nd st !! w = None ->
  List.Forall (fun d => ~ In w d) corpus ->
  rank_bm25.c_nd (fold_left rank_bm25.initialize_step corpus st) !! w = None.
Proof.
  intros Hst Hall. revert st Hst.
  induction Hall as [|d corpus Hd _ IH]; intros st Hst; simpl; [exact Hst|].
  apply IH. simpl. apply count_documents_lookup; [exact Hst|].
  unfold rank_bm25.frequencies_of. now rewrite count_words_lookup.
Qed.

Lemma calc_idf_loop_lookup (corpus_size : nat) (nd : gmap string nat) (w : string) :
  nd !! w = None ->
  let st := map_fold (rank_bm25.calc_idf_step log corpus_size) (∅, 0%Q, []) nd in
  st.1.1 !! w = None /\ ~ In w st.2.
Proof.
  cbv zeta.
  apply (map_fold_weak_ind
           (fun (r : rank_bm25.idf_state) m =>
              m !! w = None -> r.1.1 !! w = None /\ ~ In w r.2)).
  - intros _. split; [apply lookup_empty | intros []].
  - intros i x m [[idf idf_sum] negative_idfs] _ IH Hins. simpl in *.
    destruct (decide (i = w)) as [-> | Hne].
    + now rewrite lookup_insert_eq in Hins.
    + rewrite lookup_insert_ne in Hins by exact Hne.
      destruct (IH Hins) as [H1 H2]. split.
      * now rewrite lookup_insert_ne.
      * destruct (Qltb _ 0); [|exact H2].
        intros [H | [H | []]]%in_app_or; [now apply H2 | now apply Hne].
Qed.

Lemma floor_lookup (eps : Q) (negative_idfs : list string)
  (idf : gmap string Q) (w : string) :
  ~ In w negative_idfs ->
  fold_left (fun idf word => <[word := eps]> idf) negative_idfs idf !! w = idf !! w.
Proof.
  revert idf. induction negative_idfs as [|x l IH]; intros idf Hw; simpl;
    [reflexivity|].
  rewrite IH by (intros H; apply Hw; now right).
  apply lookup_insert_ne. intros ->. apply Hw. now left.
Qed.

(** A word that occurs in no document has no idf. *)
Lemma new_idf_lookup (corpus : list (list string)) (self : rank_bm25.BM25Okapi)
  (w : string) :
  rank_bm25.new log corpus = Ok self ->
  List.Forall (fun d => ~ In w d) corpus ->
  rank_bm25.idf self !! w = None.
Proof.
  unfold rank_bm25.new, rank_bm25._initialize, rank_bm25._calc_idf.
  intros Hnew Hall.
  pose proof (initialize_nd_lookup corpus rank_bm25.counts0 w
                (lookup_empty _) Hall) as Hnd.
  destruct (_ =? 0)%nat; simpl in Hnew; [discriminate|].
  pose proof (calc_idf_loop_lookup
                (rank_bm25.c_corpus_size
                   (fold_left rank_bm25.initialize_step corpus rank_bm25.counts0))
                _ w Hnd) as Hloop.
  cbv zeta in Hloop.
  destruct (map_fold _ _ _) as [[idf idf_sum] negative_idfs].
  simpl in Hloop. destruct Hloop as [H1 H2].
  destruct (_ =? 0)%nat; simpl in Hnew; [discriminate|].
  injection Hnew as <-. simpl. now rewrite floor_lookup.
Qed.

Lemma initialize_tables (corpus : list (list string)) (st : rank_bm25.counts) :
  let st' := fold_left rank_bm25.initialize_step corpus st in
  rank_bm25.c_doc_freqs st'
  = rank_bm25.c_doc_freqs st ++ map rank_bm25.frequencies_of corpus
  /\ rank_bm25.c_doc_len st'
     = rank_bm25.c_doc_len st ++ map (@length string) corpus.
Proof.
  revert st. induction corpus as [|d corpus IH]; intros st; simpl.
  - now rewrite !app_nil_r.
  - destruct (IH (rank_bm25.initialize_step st d)) as [H1 H2].
    rewrite H1, H2. simpl. now rewrite <- !app_assoc.
Qed.

(** The index keeps the frequency table and the length of each document,
    in corpus order. *)
Lemma new_tables (corpus : list (list string)) (self : rank_bm25.BM25Okapi) :
  rank_bm25.new log corpus = Ok self ->
  rank_bm25.doc_freqs self = map rank_bm25.frequencies_of corpus
  /\ rank_bm25.doc_len self = map (@length string) corpus.
Proof.
  unfold rank_bm25.new, rank_bm25._initialize, rank_bm25._calc_idf.
  destruct (initialize_tables corpus rank_bm25.counts0) as [H1 H2].
  destruct (_ =? 0)%nat; simpl; [discriminate|].
  destruct (map_fold _ _ _) as [[idf idf_sum] negative_idfs].
  destruct (_ =? 0)%nat; simpl; [discriminate|].
  intros [= <-]. simpl. now rewrite H1, H2.
Qed.
End ScoreFacts.

Lemma Forall_zip_with {A B C : Type} (P : C -> Prop) (f : A -> B -> C)
  (l : list A) (k : list B) :
  (forall a b, In a l -> In b k -> P (f a b)) -> List.Forall P (zip_with f l k).
Proof.
  revert k. induction l as [|a l IH]; intros [|b k] H; simpl; constructor.
  - apply H; now left.
  - apply IH. intros a' b' Ha Hb. apply H; now right.
Qed.

Lemma term_scores_unknown (self : rank_bm25.BM25Okapi) (q : string) :
  rank_bm25.idf self !! q = None ->
  List.Forall (fun s => (s == 0)%Q) (rank_bm25.term_scores self q).
Proof.
  intros Hq. unfold rank_bm25.term_scores. rewrite Hq. simpl.
  apply Forall_zip_with. intros tf dl _ _. apply Qmult_0_l.
Qed.

Lemma get_scores_unknown (self : rank_bm25.BM25Okapi) (query : list string) :
  List.Forall (fun q => rank_bm25.idf self !! q = None) query ->
  List.Forall (fun s => (s == 0)%Q) (rank_bm25.get_scores self query).
Proof.
  intros Hq. unfold rank_bm25.get_scores.
  assert (List.Forall (fun s => (s == 0)%Q)
            (repeat 0%Q (rank_bm25.corpus_size self))) as Hacc.
  { apply List.Forall_forall. intros s ->%repeat_spec. reflexivity. }
  revert Hacc. generalize (repeat 0%Q (rank_bm25.corpus_size self)) as score.
  induction Hq as [|q query Hq _ IH]; intros score Hacc; simpl; [exact Hacc|].
  apply IH. pose proof (term_scores_unknown self q Hq) as Hts.
  revert Hts. generalize (rank_bm25.term_scores self q) as ts.
  induction Hacc as [|a score Ha _ IHs]; intros [|b ts] Hts; simpl;
    try constructor.
  - apply Forall_cons_1 in Hts as [Hb _]. rewrite Ha, Hb. reflexivity.
  - apply IHs. now apply Forall_cons_1 in Hts as [_ Hts].
Qed.

Lemma nth_all_zero (scores : list Q) (i : nat) :
  List.Forall (fun s => (s == 0)%Q) scores -> (nth i scores 0 == 0)%Q.
Proof.
  intros H. revert i. induction H as [|s scores Hs _ IH]; intros [|i]; simpl;
    try reflexivity; [exact Hs | apply IH].
Qed.

(** X8. For a built index and K > 0, a query none of whose tokens occurs in
    the corpus raises nothing and returns the first min(K, N) corpus
    positions in ascending order, each with a zero score. *)
Theorem retrieve_unknown_words (log : Q -> Q) (loaded : list Trial)
  (files : TrialIndexer.saved) (self : RAGChatbot.t) (query : string) (K : Z) :
  TrialIndexer.build_index log loaded = Ok files ->
  loaded_from files self ->
  List.Forall
    (fun t => List.Forall (fun d => ~ In t d) (TrialIndexer.tokenized_corpus files))
    (RAGChatbot.tokenize query) ->
  (0 < K)%Z ->
  exists res,
    RAGChatbot.retrieve_relevant_trials self query K = Ok res
    /\ map RAGChatbot.index res = seq 0 (Nat.min (Z.to_nat K) (length loaded))
    /\ List.Forall (fun item => (RAGChatbot.score item == 0)%Q) res.
Proof.
  intros Hb Hl Hq HK.
  destruct (build_index_aligned _ _ _ _ Hb Hl) as [Hal Htr].
  destruct (retrieve_aligned self query K Hal) as [Hlen Hres].
  pose proof (build_index_inv _ _ _ Hb) as (_ & _ & Hnew).
  destruct Hl as (Hbm & _ & _).
  cbv zeta in *.
  assert (List.Forall (fun s => (s == 0)%Q)
            (rank_bm25.get_scores (RAGChatbot.bm25 self) (RAGChatbot.tokenize query)))
    as Hzero.
  { apply get_scores_unknown. eapply List.Forall_impl; [|exact Hq].
    intros t Ht. rewrite Hbm. eapply new_idf_lookup; eassumption. }
  set (scores := rank_bm25.get_scores (RAGChatbot.bm25 self)
                   (RAGChatbot.tokenize query)) in *.
  assert (ranking scores = Py.range (length scores)) as Hrank.
  { apply ranking_same_keys. intros i j. apply Qltb_ge.
    rewrite (nth_all_zero scores i Hzero), (nth_all_zero scores j Hzero).
    apply Qle_refl. }
  eexists. split; [exact Hres|]. split.
  - rewrite map_entry_index, Hrank, slice_to_positive by lia.
    unfold Py.range. now rewrite firstn_seq, Hlen, Htr.
  - apply Forall_map. apply List.Forall_forall. intros idx _. simpl.
    now apply nth_all_zero.
Qed.

(** X8 on the sample corpus: [zebra] occurs in no document. *)
Lemma retrieve_unknown_words_witness :
  exists res,
    RAGChatbot.retrieve_relevant_trials (RAGChatbot.init sample_files) "zebra" 2
    = Ok res
    /\ map RAGChatbot.index res = [0; 1].
Proof.
  destruct (retrieve_unknown_words log_q sample_trials sample_files
              (RAGChatbot.init sample_files) "zebra" 2 sample_built
              (loaded_from_init sample_files))
    as (res & Hres & Hidx & _); [|reflexivity|].
  - vm_compute. repeat constructor; intuition discriminate.
  - exists res. split; assumption.
Defined.

Lemma term_scores_empty_document (corpus : list (list string))
  (self : rank_bm25.BM25Okapi) (q : string) :
  rank_bm25.doc_freqs self = map rank_bm25.frequencies_of corpus ->
  rank_bm25.doc_len self = map (@length string) corpus ->
  Forall2 (fun d s => d = [] -> (s == 0)%Q) corpus (rank_bm25.term_scores self q).
Proof.
  intros Hf Hl. unfold rank_bm25.term_scores. rewrite Hf, Hl.
  generalize (default 0%Q (rank_bm25.idf self !! q)) as w.
  generalize (rank_bm25.k1 self), (rank_bm25.b self), (rank_bm25.avgdl self).
  intros k1 b avgdl w. clear Hf Hl.
  induction corpus as [|d corpus IH]; simpl; [constructor|].
  constructor; [|exact IH].
  intros ->. unfold rank_bm25.frequencies_of. simpl. rewrite lookup_empty. simpl.
  unfold Qnat at 1. simpl. unfold Qdiv. rewrite !Qmult_0_l. apply Qmult_0_r.
Qed.

Lemma zero_if_empty_add (corpus : list (list string)) (score ts : list Q) :
  Forall2 (fun d s => d = [] -> (s == 0)%Q) corpus score ->
  Forall2 (fun d s => d = [] -> (s == 0)%Q) corpus ts ->
  Forall2 (fun d s => d = [] -> (s == 0)%Q) corpus (zip_with Qplus score ts).
Proof.
  intros Hacc. revert ts.
  induction Hacc as [|d a corpus score Ha _ IH]; intros ts Hts;
    inversion Hts as [|d' b corpus' ts' Hb Hts']; subst; simpl; constructor.
  - intros Hd. rewrite (Ha Hd), (Hb Hd). reflexivity.
  - now apply IH.
Qed.

Lemma get_scores_empty_document (corpus : list (list string))
  (self : rank_bm25.BM25Okapi) (query : list string) :
  rank_bm25.corpus_size self = length corpus ->
  rank_bm25.doc_freqs self = map rank_bm25.frequencies_of corpus ->
  rank_bm25.doc_len self = map (@length string) corpus ->
  Forall2 (fun d s => d = [] -> (s == 0)%Q) corpus (rank_bm25.get_scores self query).
Proof.
  intros Hn Hf Hl. unfold rank_bm25.get_scores. rewrite Hn.
  assert (Forall2 (fun d s => d = [] -> (s == 0)%Q) corpus
            (repeat 0%Q (length corpus))) as Hacc.
  { clear. induction corpus; simpl; constructor; [reflexivity | assumption]. }
  revert Hacc. generalize (repeat 0%Q (length corpus)) as score.
  induction query as [|q query IH]; intros score Hacc; simpl; [exact Hacc|].
  apply IH. apply zero_if_empty_add; [exact Hacc|].
  now apply term_scores_empty_document.
Qed.

(** X9. In a built index a record whose document has no token scores zero
    for every query. *)
Theorem empty_document_scores_zero (log : Q -> Q) (loaded : list Trial)
  (files : TrialIndexer.saved) (i : nat) (trial : Trial) (query : list string) :
  TrialIndexer.build_index log loaded = Ok files ->
  loaded !! i = Some trial ->
  TrialIndexer.tokenize (TrialIndexer.create_trial_text trial) = [] ->
  (nth i (rank_bm25.get_scores (TrialIndexer.bm25 files) query) 0 == 0)%Q.
Proof.
  intros Hb Hi Hdoc.
  pose proof (build_index_inv _ _ _ Hb) as (_ & Hc & Hnew).
  pose proof (new_shape _ _ _ Hnew) as (Hn & _ & _).
  pose proof (new_tables _ _ _ Hnew) as (Hf & Hl).
  pose proof (get_scores_empty_document _ _ query Hn Hf Hl) as Hall.
  assert (TrialIndexer.tokenized_corpus files !! i = Some []) as Hci.
  { rewrite Hc. rewrite <- Hdoc.
    exact (lookup_map
             (fun trial => TrialIndexer.tokenize (TrialIndexer.create_trial_text trial))
             loaded i trial Hi). }
  destruct (Forall2_lookup_l _ _ _ _ _ Hall Hci) as (s & Hs & Hzero).
  rewrite (nth_lookup_Some _ _ _ _ Hs). now apply Hzero.
Qed.

(** X9 on the sample corpus, whose third record has no field, for the
    query tokens [ptsd], [trial]. *)
Lemma empty_document_scores_zero_witness :
  exists files,
    TrialIndexer.build_index log_q sample_trials = Ok files
    /\ (nth 2 (rank_bm25.get_scores (TrialIndexer.bm25 files) ["ptsd"; "trial"]) 0
        == 0)%Q.
Proof.
  destruct (TrialIndexer.build_index log_q sample_trials) as [files|e] eqn:Hb;
    [|vm_compute in Hb; discriminate].
  exists files. split; [reflexivity|].
  apply (empty_document_scores_zero log_q sample_trials files 2 ∅ ["ptsd"; "trial"] Hb);
    reflexivity.
Defined.

(** ** [chat], [get_stats] and the endpoints *)

Lemma chat_aligned (create_completion : string -> string -> string + string)
  (self : RAGChatbot.t) (query : string) :
  aligned self ->
  exists relevant_trials,
    RAGChatbot.retrieve_relevant_trials self query 10 = Ok relevant_trials
    /\ length relevant_trials = Nat.min 10 (length (RAGChatbot.trials self))
    /\ RAGChatbot.chat create_completion self query
       = Ok ({| RAGChatbot.answer :=
                  RAGChatbot.generate_answer create_completion query
                    (RAGChatbot.format_context relevant_trials);
                RAGChatbot.sources := map RAGChatbot.source_of relevant_trials;
                RAGChatbot.context := RAGChatbot.format_context relevant_trials |},
             counted self).
Proof.
  intros Hal. destruct (retrieve_aligned self query 10 Hal) as [Hlen Hres].
  cbv zeta in *. eexists. split; [exact Hres|]. split.
  - rewrite length_map, slice_to_length by lia. now rewrite ranking_length, Hlen.
  - unfold RAGChatbot.chat, RAGChatbot.default_n_results. rewrite Hres. simpl.
    now rewrite corpus_loop.
Qed.

Lemma counted_aligned (self : RAGChatbot.t) : aligned self -> aligned (counted self).
Proof. intros H. exact H. Qed.

(** X10. On a chatbot loaded from a built index a run of queries never
    raises: every call returns a result with min(10, N) sources, the query
    counter ends raised by the number of queries, and the index, the
    corpus and the trials are left as they were. *)
Theorem chat_each_counts (log : Q -> Q) (loaded : list Trial)
  (files : TrialIndexer.saved) (self : RAGChatbot.t)
  (create_completion : string -> string -> string + string)
  (queries : list string) :
  TrialIndexer.build_index log loaded = Ok files ->
  loaded_from files self ->
  exists results self',
    Session.chat_each create_completion self queries = Ok (results, self')
    /\ length results = length queries
    /\ RAGChatbot.total_queries self'
       = RAGChatbot.total_queries self + length queries
    /\ loaded_from files self'
    /\ List.Forall
         (fun result =>
            length (RAGChatbot.sources result) = Nat.min 10 (length loaded))
         results.
Proof.
  intros Hb. revert self. induction queries as [|query queries IH]; intros self Hl.
  - exists [], self. simpl. repeat split; try apply Hl; [lia | constructor].
  - destruct (build_index_aligned _ _ _ _ Hb Hl) as [Hal Htr].
    destruct (chat_aligned create_completion self query Hal)
      as (relevant & _ & Hlen & Hchat).
    assert (loaded_from files (counted self)) as Hl'
      by (destruct Hl as (H1 & H2 & H3); repeat split; assumption).
    destruct (IH (counted self) Hl') as (results & self' & Hrest & Hn & Hq & Hl'' & Hs).
    eexists. exists self'. simpl. rewrite Hchat. simpl. rewrite Hrest. simpl.
    split; [reflexivity|]. split; [simpl; now rewrite Hn|].
    split; [rewrite Hq; simpl; lia|]. split; [exact Hl''|].
    constructor; [|exact Hs]. simpl. now rewrite length_map, Hlen, Htr.
Qed.

(** X10 on the sample corpus, with two queries. *)
Lemma chat_each_counts_witness :
  exists results self',
    Session.chat_each sample_service (RAGChatbot.init sample_files)
      ["ptsd trial"; "cancer"] = Ok (results, self')
    /\ length results = 2
    /\ RAGChatbot.total_queries self' = 2.
Proof.
  destruct (chat_each_counts log_q sample_trials sample_files
              (RAGChatbot.init sample_files) sample_service
              ["ptsd trial"; "cancer"] sample_built (loaded_from_init sample_files))
    as (results & self' & Hrun & Hn & Hq & _).
  exists results, self'. repeat split; assumption.
Defined.

(** X11. When the completion service fails, [POST /chat] on a chatbot
    loaded from a built index still replies with [success] true: the
    answer is the apology with the text of the failure, the sources are
    the retrieved ones, and the query is counted. *)
Theorem chat_reports_failure_as_answer (log : Q -> Q) (loaded : list Trial)
  (files : TrialIndexer.saved) (self : RAGChatbot.t)
  (create_completion : string -> string -> string + string)
  (request : Api.ChatRequest) (e : string) :
  TrialIndexer.build_index log loaded = Ok files ->
  loaded_from files self ->
  (forall system user, create_completion system user = inr e) ->
  exists relevant_trials,
    RAGChatbot.retrieve_relevant_trials self (Api.query request) 10
    = Ok relevant_trials
    /\ Api.chat create_completion (Some self) request
       = (Api.Respond
            {| Api.success := true;
               Api.r_query := Api.query request;
               Api.r_answer := "Sorry, error generating answer: " +:+ e;
               Api.r_sources := map RAGChatbot.source_of relevant_trials |},
          Some (counted self)).
Proof.
  intros Hb Hl Hfail.
  destruct (build_index_aligned _ _ _ _ Hb Hl) as [Hal _].
  destruct (chat_aligned create_completion self (Api.query request) Hal)
    as (relevant & Hres & _ & Hchat).
  exists relevant. split; [exact Hres|].
  unfold Api.chat. rewrite Hchat. simpl.
  unfold RAGChatbot.generate_answer. now rewrite Hfail.
Qed.

(** X11 on the sample corpus, with a service that times out. *)
Lemma chat_reports_failure_as_answer_witness :
  exists sources self',
    Api.chat failing_service (Some (RAGChatbot.init sample_files))
      {| Api.query := "ptsd trial"; Api.n_results := None |}
    = (Api.Respond
         {| Api.success := true;
            Api.r_query := "ptsd trial";
            Api.r_answer := "Sorry, error generating answer: timeout";
            Api.r_sources := sources |},
       Some self').
Proof.
  destruct (chat_reports_failure_as_answer log_q sample_trials sample_files
              (RAGChatbot.init sample_files) failing_service
              {| Api.query := "ptsd trial"; Api.n_results := None |} "timeout"
              sample_built (loaded_from_init sample_files))
    as (relevant & _ & Hreply); [reflexivity|].
  eexists. eexists. exact Hreply.
Defined.

Lemma get_statistics_counter (self : RAGChatbot.t) :
  ApiStats.get_statistics (Some self)
  = match RAGChatbot.total_queries self with
    | 0 => ApiStats.Failed 500
    | S n => ApiStats.Replied {| ApiStats.total_queries := S n |}
    end.
Proof.
  unfold ApiStats.get_statistics, Session.get_stats.
  destruct (RAGChatbot.total_queries self) as [|n]; reflexivity.
Qed.

(** X12. [GET /stats] fails with status 500 exactly while the chatbot has
    counted no query: on a chatbot fresh from [__init__], and again after
    [POST /reset-stats], because [get_stats] then returns the raw counters
    without the fields that [StatsResponse] requires. *)
Theorem stats_fail_without_queries (files : TrialIndexer.saved) (self : RAGChatbot.t) :
  ApiStats.get_statistics (Some (RAGChatbot.init files)) = ApiStats.Failed 500
  /\ ApiStats.get_statistics (ApiStats.reset_statistics (Some self)).2
     = ApiStats.Failed 500
  /\ (ApiStats.get_statistics (Some self) = ApiStats.Failed 500
      <-> RAGChatbot.total_queries self = 0).
Proof.
  rewrite !get_statistics_counter. simpl. split; [reflexivity|]. split; [reflexivity|].
  destruct (RAGChatbot.total_queries self); split; (reflexivity || discriminate).
Qed.

(** X13. After a call of [chat] that returned, whatever the chatbot held,
    [GET /stats] replies with the query counter raised by one. *)
Theorem stats_after_chat
  (create_completion : string -> string -> string + string)
  (self self' : RAGChatbot.t) (query : string) (result : RAGChatbot.chat_result) :
  RAGChatbot.chat create_completion self query = Ok (result, self') ->
  ApiStats.get_statistics (Some self')
  = ApiStats.Replied
      {| ApiStats.total_queries := RAGChatbot.total_queries self + 1 |}.
Proof.
  intros Hchat. unfold RAGChatbot.chat in Hchat.
  destruct (RAGChatbot.retrieve_relevant_trials self query
              RAGChatbot.default_n_results) as [relevant|e]; simpl in Hchat;
    [|discriminate].
  injection Hchat as _ <-. rewrite get_statistics_counter. simpl.
  now rewrite Nat.add_1_r.
Qed.

(** X13 on the sample corpus: after the first query the counter is 1. *)
Lemma stats_after_chat_witness :
  exists result self',
    RAGChatbot.chat sample_service (RAGChatbot.init sample_files) "ptsd trial"
    = Ok (result, self')
    /\ ApiStats.get_statistics (Some self')
       = ApiStats.Replied {| ApiStats.total_queries := 1 |}.
Proof.
  destruct (RAGChatbot.chat sample_service (RAGChatbot.init sample_files)
              "ptsd trial") as [[result self']|e] eqn:Hchat.
  - exists result, self'. split; [reflexivity|].
    exact (stats_after_chat sample_service (RAGChatbot.init sample_files) self'
             "ptsd trial" result Hchat).
  - exfalso. revert Hchat. vm_compute. discriminate.
Defined.

Lemma py_min_le_r (x y : Q) : (RAGChatbot.py_min x y <= y)%Q.
Proof.
  unfold RAGChatbot.py_min. destruct (Qltb y x) eqn:H; [apply Qle_refl|].
  now apply Qltb_ge in H.
Qed.

Lemma py_min_le_l (x y : Q) : (RAGChatbot.py_min x y <= x)%Q.
Proof.
  unfold RAGChatbot.py_min. destruct (Qltb y x) eqn:H; [|apply Qle_refl].
  apply Qltb_lt in H. now apply Qlt_le_weak.
Qed.

Lemma py_min_glb (x y z : Q) :
  (z <= x)%Q -> (z <= y)%Q -> (z <= RAGChatbot.py_min x y)%Q.
Proof. intros Hx Hy. unfold RAGChatbot.py_min. now destruct (Qltb y x). Qed.

(** X14. The relevance shown for a source is ten times its score, capped at
    100: it never exceeds 100, it grows with the score, and for a negative
    score it is negative (there is no floor). *)
Theorem relevance_capped (a b : RAGChatbot.trial_info) :
  (RAGChatbot.Relevance (RAGChatbot.source_of a) <= 100)%Q
  /\ (RAGChatbot.Relevance (RAGChatbot.source_of a) <= RAGChatbot.score a * 10)%Q
  /\ ((RAGChatbot.score a <= 10)%Q ->
      (RAGChatbot.Relevance (RAGChatbot.source_of a) == RAGChatbot.score a * 10)%Q)
  /\ ((RAGChatbot.score a <= RAGChatbot.score b)%Q ->
      (RAGChatbot.Relevance (RAGChatbot.source_of a)
       <= RAGChatbot.Relevance (RAGChatbot.source_of b))%Q)
  /\ ((RAGChatbot.score a < 0)%Q ->
      (RAGChatbot.Relevance (RAGChatbot.source_of a) < 0)%Q).
Proof.
  simpl. split; [apply py_min_le_r|]. split; [apply py_min_le_l|].
  split; [|split].
  - intros Hs. apply Qle_antisym; [apply py_min_le_l|].
    apply py_min_glb; [apply Qle_refl|].
    change 100%Q with (10 * 10)%Q.
    apply Qmult_le_compat_r; [exact Hs | discriminate].
  - intros Hab. apply py_min_glb; [|apply py_min_le_r].
    eapply Qle_trans; [apply py_min_le_l|].
    apply Qmult_le_compat_r; [exact Hab | discriminate].
  - intros Hneg. eapply Qle_lt_trans; [apply py_min_le_l|].
    change 0%Q with (0 * 10)%Q.
    apply Qmult_lt_compat_r; [reflexivity | exact Hneg].
Qed.

(** ** [evaluation.py] *)

Lemma check_trial_match_In (trial_id : string) (sources : list RAGChatbot.source) :
  ChatbotEvaluator.check_trial_match trial_id sources = true
  <-> In trial_id (map RAGChatbot.NCTId sources).
Proof.
  unfold ChatbotEvaluator.check_trial_match. rewrite existsb_exists. split.
  - intros (id & Hin & Heq). apply String.eqb_eq in Heq. now subst.
  - intros Hin. exists trial_id. split; [exact Hin | apply String.eqb_refl].
Qed.

(** X15. [check_grounding] calls an answer grounded exactly when it is
    longer than 50 characters and the expected trial id, given and not
    empty, is the id of a returned source; whether the answer cites any
    trial plays no part, and without an expected trial id no answer is
    grounded. *)
Theorem grounded_iff (answer : string) (sources : list RAGChatbot.source)
  (trial_id : option string) :
  ChatbotEvaluator.grounded
    (ChatbotEvaluator.check_grounding answer sources trial_id) = true
  <-> 50 < String.length answer
      /\ exists id,
           trial_id = Some id /\ id <> "" /\ In id (map RAGChatbot.NCTId sources).
Proof.
  unfold ChatbotEvaluator.check_grounding. simpl.
  rewrite !andb_true_iff, Nat.ltb_lt. split.
  - intros [[_ Hlen] Hcorrect]. split; [exact Hlen|].
    destruct trial_id as [id|]; [|discriminate].
    destruct (Py.truthy id) eqn:Ht; [|discriminate].
    exists id. split; [reflexivity|]. split; [now intros ->|].
    now apply check_trial_match_In.
  - intros [Hlen (id & -> & Hne & Hin)].
    assert (Py.truthy id = true) as -> by (destruct id; [contradiction | reflexivity]).
    split; [split; [|exact Hlen] | now apply check_trial_match_In].
    unfold ChatbotEvaluator.has_source_reference.
    apply orb_true_iff. right. apply Nat.ltb_lt.
    destruct sources; [destruct Hin | simpl; lia].
Qed.

Lemma evaluated_success (r : ChatbotEvaluator.evaluation) :
  evaluated r ->
  ChatbotEvaluator.success r
  = ChatbotEvaluator.grounded (ChatbotEvaluator.e_grounding r)
    && ChatbotEvaluator.meets_latency r
  /\ (ChatbotEvaluator.grounded (ChatbotEvaluator.e_grounding r) = true ->
      ChatbotEvaluator.correct_trial_retrieved (ChatbotEvaluator.e_grounding r)
      = true).
Proof.
  intros (cc & measured & chatbot & tc & chatbot' & Hev).
  unfold ChatbotEvaluator.evaluate_query in Hev.
  destruct (RAGChatbot.chat cc chatbot (ChatbotEvaluator.tc_query tc))
    as [[result self']|e]; simpl in Hev; [|discriminate].
  injection Hev as <- _. simpl. split; [reflexivity|].
  now intros [_ H]%andb_prop.
Qed.

Lemma count_le (p q : ChatbotEvaluator.evaluation -> bool)
  (results : list ChatbotEvaluator.evaluation) :
  List.Forall (fun r => p r = true -> q r = true) results ->
  ChatbotEvaluator.count p results <= ChatbotEvaluator.count q results.
Proof.
  unfold ChatbotEvaluator.count.
  induction 1 as [|r results Hr _ IH]; simpl; [lia|].
  destruct (p r) eqn:Hp; [rewrite (Hr eq_refl); simpl; lia|].
  destruct (q r); simpl; lia.
Qed.

Lemma count_le_length (p : ChatbotEvaluator.evaluation -> bool)
  (results : list ChatbotEvaluator.evaluation) :
  ChatbotEvaluator.count p results <= length results.
Proof. unfold ChatbotEvaluator.count. apply filter_length_le. Qed.

Lemma Qnat_le (a b : nat) : a <= b -> (Qnat a <= Qnat b)%Q.
Proof. intros H. unfold Qnat. rewrite <- Zle_Qle. lia. Qed.

Lemma rate_le (a b t : nat) : a <= b -> (Qnat a / Qnat t <= Qnat b / Qnat t)%Q.
Proof.
  intros H. unfold Qdiv. apply Qmult_le_compat_r; [now apply Qnat_le|].
  apply Qinv_le_0_compat. unfold Qnat. change 0%Q with (inject_Z 0).
  rewrite <- Zle_Qle. lia.
Qed.

(** X16. In the report over results of [evaluate_query] the counts are
    ordered: successful <= grounded <= correct trial retrieved <= total and
    successful <= within latency <= total; so the trial-retrieval criterion
    passes whenever the grounding criterion does. With no result the
    report is the empty dict. *)
Theorem report_counts (results : list ChatbotEvaluator.evaluation)
  (rep : ChatbotEvaluator.report) :
  List.Forall evaluated results ->
  ChatbotEvaluator.generate_report results = Some rep ->
  ChatbotEvaluator.successful_queries rep <= ChatbotEvaluator.grounded_answers rep
  /\ ChatbotEvaluator.grounded_answers rep
     <= ChatbotEvaluator.r_correct_trial_retrieved rep
  /\ ChatbotEvaluator.r_correct_trial_retrieved rep
     <= ChatbotEvaluator.total_queries rep
  /\ ChatbotEvaluator.successful_queries rep <= ChatbotEvaluator.r_meets_latency rep
  /\ ChatbotEvaluator.r_meets_latency rep <= ChatbotEvaluator.total_queries rep
  /\ ChatbotEvaluator.total_queries rep = length results
  /\ (ChatbotEvaluator.grounding_rate_passed rep = true ->
      ChatbotEvaluator.trial_retrieval_rate_passed rep = true)
  /\ ChatbotEvaluator.generate_report [] = None.
Proof.
  intros Hev Hrep. destruct results as [|r0 results]; [discriminate|].
  unfold ChatbotEvaluator.generate_report in Hrep. injection Hrep as <-.
  cbn [ChatbotEvaluator.successful_queries ChatbotEvaluator.grounded_answers
       ChatbotEvaluator.r_correct_trial_retrieved ChatbotEvaluator.total_queries
       ChatbotEvaluator.r_meets_latency ChatbotEvaluator.grounding_rate_passed
       ChatbotEvaluator.trial_retrieval_rate_passed].
  assert (ChatbotEvaluator.count
            (fun r => ChatbotEvaluator.grounded (ChatbotEvaluator.e_grounding r))
            (r0 :: results)
          <= ChatbotEvaluator.count
               (fun r => ChatbotEvaluator.correct_trial_retrieved
                           (ChatbotEvaluator.e_grounding r))
               (r0 :: results)) as Hgc.
  { apply count_le. eapply List.Forall_impl; [|exact Hev].
    intros r Hr. now apply evaluated_success. }
  repeat split.
  - apply count_le. eapply List.Forall_impl; [|exact Hev].
    intros r [-> _]%evaluated_success. now intros [H _]%andb_prop.
  - exact Hgc.
  - apply count_le_length.
  - apply count_le. eapply List.Forall_impl; [|exact Hev].
    intros r [-> _]%evaluated_success. now intros [_ H]%andb_prop.
  - apply count_le_length.
  - rewrite !Qle_bool_iff. intros Hg. eapply Qle_trans; [exact Hg|].
    now apply rate_le.
Qed.

Lemma count_category_lookup (categories : gmap string ChatbotEvaluator.category_stats)
  (r : ChatbotEvaluator.evaluation) (c : string) :
  ChatbotEvaluator.count_category categories r !! c
  = if in_category c r
    then
      let old := default {| ChatbotEvaluator.cs_total := 0;
                            ChatbotEvaluator.cs_success := 0 |}
                   (categories !! c) in
      Some {| ChatbotEvaluator.cs_total := ChatbotEvaluator.cs_total old + 1;
              ChatbotEvaluator.cs_success :=
                ChatbotEvaluator.cs_success old
                + (if ChatbotEvaluator.success r then 1 else 0) |}
    else categories !! c.
Proof.
  unfold ChatbotEvaluator.count_category, in_category.
  destruct (String.eqb_spec (ChatbotEvaluator.category r) c) as [<- | Hne].
  - rewrite lookup_insert_eq. cbv zeta. f_equal.
    destruct (categories !! ChatbotEvaluator.category r) as [old|] eqn:Hold.
    + rewrite Hold. simpl.
      destruct (ChatbotEvaluator.success r); simpl; f_equal; lia.
    + rewrite lookup_insert_eq. simpl.
      destruct (ChatbotEvaluator.success r); simpl; f_equal; lia.
  - rewrite lookup_insert_ne by exact Hne.
    destruct (categories !! ChatbotEvaluator.category r); [reflexivity|].
    now rewrite lookup_insert_ne.
Qed.

Lemma categories_fold_lookup (results : list ChatbotEvaluator.evaluation)
  (categories : gmap string ChatbotEvaluator.category_stats) (c : string) :
  fold_left ChatbotEvaluator.count_category results categories !! c
  = match categories !! c, ChatbotEvaluator.count (in_category c) results with
    | None, 0 => None
    | old, n =>
        let old := default {| ChatbotEvaluator.cs_total := 0;
                              ChatbotEvaluator.cs_success := 0 |} old in
        Some {| ChatbotEvaluator.cs_total := ChatbotEvaluator.cs_total old + n;
                ChatbotEvaluator.cs_success :=
                  ChatbotEvaluator.cs_success old
                  + ChatbotEvaluator.count (succeeded_in c) results |}
    end.
Proof.
  revert categories. induction results as [|r results IH]; intros categories.
  - simpl. unfold ChatbotEvaluator.count. simpl.
    destruct (categories !! c) as [[t s]|]; [|reflexivity].
    simpl. now rewrite !Nat.add_0_r.
  - simpl. rewrite IH, count_category_lookup.
    unfold ChatbotEvaluator.count, succeeded_in. simpl.
    destruct (in_category c r) eqn:Hc; simpl.
    + destruct (ChatbotEvaluator.success r); simpl;
        destruct (categories !! c) as [[t s]|]; simpl; f_equal; f_equal; lia.
    + reflexivity.
Qed.

(** X17. In the report, [by_category] has an entry exactly for the
    categories that occur among the results, and the entry of a category
    holds the number of its results and the number of its successful
    results. *)
Theorem report_by_category (results : list ChatbotEvaluator.evaluation)
  (rep : ChatbotEvaluator.report) (c : string) :
  ChatbotEvaluator.generate_report results = Some rep ->
  ChatbotEvaluator.by_category rep !! c
  = match ChatbotEvaluator.count (in_category c) results with
    | 0 => None
    | n =>
        Some {| ChatbotEvaluator.cs_total := n;
                ChatbotEvaluator.cs_success :=
                  ChatbotEvaluator.count (succeeded_in c) results |}
    end.
Proof.
  intros Hrep. destruct results as [|r0 results]; [discriminate|].
  unfold ChatbotEvaluator.generate_report in Hrep. injection Hrep as <-.
  cbn [ChatbotEvaluator.by_category].
  pose proof (categories_fold_lookup (r0 :: results) ∅ c) as H.
  rewrite lookup_empty in H. refine (eq_trans H _).
  destruct (ChatbotEvaluator.count (in_category c) (r0 :: results)); reflexivity.
Qed.

Lemma Qnat_nonneg (n : nat) : (0 <= Qnat n)%Q.
Proof. unfold Qnat. change 0%Q with (inject_Z 0). rewrite <- Zle_Qle. lia. Qed.

(** X18. The keyword coverage that [evaluate_query] reports lies between 0
    and 1; it is 0 for a test case without expected keywords (no division
    takes place), and the result is a success only if the measured
    retrieval time is under 2 seconds. *)
Theorem evaluate_query_bounds
  (create_completion : string -> string -> string + string) (measured : Q)
  (chatbot chatbot' : RAGChatbot.t) (tc : ChatbotEvaluator.test_case)
  (r : ChatbotEvaluator.evaluation) :
  ChatbotEvaluator.evaluate_query create_completion measured chatbot tc
  = Ok (r, chatbot') ->
  (0 <= ChatbotEvaluator.keyword_coverage r <= 1)%Q
  /\ (ChatbotEvaluator.expected_keywords tc = [] ->
      ChatbotEvaluator.keyword_coverage r = 0%Q)
  /\ (ChatbotEvaluator.success r = true -> (measured < 2)%Q)
  /\ chatbot' = counted chatbot.
Proof.
  intros Hev. unfold ChatbotEvaluator.evaluate_query in Hev.
  destruct (RAGChatbot.chat create_completion chatbot (ChatbotEvaluator.tc_query tc))
    as [[result self']|e] eqn:Hchat; simpl in Hev; [|discriminate].
  injection Hev as <- <-. simpl.
  split; [|split; [|split]].
  - destruct (ChatbotEvaluator.expected_keywords tc) as [|kw kws] eqn:Hkw;
      [split; discriminate|].
    set (found := List.filter _ (kw :: kws)).
    assert (length found <= length (kw :: kws)) as Hle by apply filter_length_le.
    assert (0 < Qnat (length (kw :: kws)))%Q as Hpos.
    { unfold Qnat. change 0%Q with (inject_Z 0). rewrite <- Zlt_Qlt. simpl. lia. }
    split.
    + apply Qle_shift_div_l; [exact Hpos|]. rewrite Qmult_0_l. apply Qnat_nonneg.
    + apply Qle_shift_div_r; [exact Hpos|]. rewrite Qmult_1_l. now apply Qnat_le.
  - now intros ->.
  - intros [_ H]%andb_prop. now apply Qltb_lt.
  - unfold RAGChatbot.chat in Hchat.
    destruct (RAGChatbot.retrieve_relevant_trials chatbot
                (ChatbotEvaluator.tc_query tc) RAGChatbot.default_n_results);
      simpl in Hchat; [|discriminate].
    now injection Hchat as _ <-.
Qed.

(** X16 on the result of the sample test case. *)
Lemma report_counts_witness :
  exists r rep,
    evaluated r
    /\ ChatbotEvaluator.generate_report [r] = Some rep
    /\ ChatbotEvaluator.successful_queries rep
       <= ChatbotEvaluator.grounded_answers rep
    /\ ChatbotEvaluator.total_queries rep = 1.
Proof.
  destruct (ChatbotEvaluator.evaluate_query sample_service (1 # 10)
              (RAGChatbot.init sample_files) sample_test_case)
    as [[r chatbot']|e] eqn:Hev; [|vm_compute in Hev; discriminate].
  assert (evaluated r) as Hr by (repeat eexists; exact Hev).
  exists r. eexists. split; [exact Hr|]. split; [reflexivity|].
  assert (List.Forall evaluated [r]) as Hall by (constructor; [exact Hr | constructor]).
  destruct (report_counts [r] _ Hall eq_refl)
    as (H1 & _ & _ & _ & _ & H6 & _).
  split; [exact H1 | exact H6].
Defined.

(** X17 on a report over two results of one category. *)
Lemma report_by_category_witness :
  exists rep,
    ChatbotEvaluator.generate_report [sample_evaluation; sample_evaluation] = Some rep
    /\ ChatbotEvaluator.by_category rep !! "condition_query"
       = Some {| ChatbotEvaluator.cs_total := 2; ChatbotEvaluator.cs_success := 0 |}
    /\ ChatbotEvaluator.by_category rep !! "status_query" = None.
Proof.
  eexists. split; [reflexivity|]. split.
  - exact (report_by_category [sample_evaluation; sample_evaluation] _
             "condition_query" eq_refl).
  - exact (report_by_category [sample_evaluation; sample_evaluation] _
             "status_query" eq_refl).
Defined.

(** X18 on the sample test case, with a measured time of 0.1 s. *)
Lemma evaluate_query_bounds_witness :
  exists r chatbot',
    ChatbotEvaluator.evaluate_query sample_service (1 # 10)
      (RAGChatbot.init sample_files) sample_test_case = Ok (r, chatbot')
    /\ (0 <= ChatbotEvaluator.keyword_coverage r <= 1)%Q.
Proof.
  destruct (ChatbotEvaluator.evaluate_query sample_service (1 # 10)
              (RAGChatbot.init sample_files) sample_test_case)
    as [[r chatbot']|e] eqn:Hev; [|vm_compute in Hev; discriminate].
  exists r, chatbot'. split; [reflexivity|].
  exact (proj1 (evaluate_query_bounds sample_service (1 # 10)
                  (RAGChatbot.init sample_files) chatbot' sample_test_case r Hev)).
Defined.

(** ** The closed form of a score *)

Lemma tf_cons (w x : string) (d : list string) :
  tf w (x :: d) = if String.eqb w x then S (tf w d) else tf w d.
Proof. unfold tf. simpl. now destruct (String.eqb w x). Qed.

Lemma df_cons (w : string) (d : list string) (corpus : list (list string)) :
  df w (d :: corpus)
  = if existsb (String.eqb w) d then S (df w corpus) else df w corpus.
Proof. unfold df. simpl. now destruct (existsb (String.eqb w) d). Qed.

Lemma existsb_tf (w : string) (d : list string) :
  existsb (String.eqb w) d = negb (tf w d =? 0)%nat.
Proof.
  induction d as [|x d IH]; [reflexivity|].
  rewrite tf_cons. simpl. rewrite IH. now destruct (String.eqb w x).
Qed.

Lemma existsb_In (w : string) (d : list string) :
  existsb (String.eqb w) d = true <-> In w d.
Proof.
  rewrite existsb_exists. split.
  - intros (x & Hx & ->%String.eqb_eq). exact Hx.
  - intros Hw. exists w. split; [exact Hw | apply String.eqb_refl].
Qed.

Lemma df_positive (w : string) (corpus : list (list string)) :
  df w corpus <> 0 <-> In w (concat corpus).
Proof.
  induction corpus as [|d corpus IH]; simpl.
  - unfold df. simpl. tauto.
  - rewrite df_cons, in_app_iff, <- IH, <- existsb_In.
    destruct (existsb (String.eqb w) d); split; auto.
    intros [H | H]; [discriminate | exact H].
Qed.

Lemma Qsum_perm (l l' : list Q) : Permutation l l' -> (Qsum l == Qsum l')%Q.
Proof.
  induction 1 as [|x l l' _ IH|x y l|l l' l'' _ IH1 _ IH2]; simpl.
  - reflexivity.
  - now rewrite IH.
  - ring.
  - now rewrite IH1.
Qed.

Lemma NoDup_map_key {A B : Type} (f : A -> B) (l : list A) :
  List.NoDup l -> List.NoDup (map (fun x => (x, f x)) l).
Proof.
  induction 1 as [|x l Hx _ IH]; simpl; constructor; [|exact IH].
  rewrite in_map_iff. intros (y & [= ->] & Hy). contradiction.
Qed.

Lemma fold_left_pointwise {A B : Type} (f g : A -> B -> A) (l : list B) (a : A) :
  (forall a b, f a b = g a b) -> fold_left f l a = fold_left g l a.
Proof.
  intros H. revert a. induction l as [|b l IH]; intros a; simpl; [reflexivity|].
  now rewrite H, IH.
Qed.

Lemma zip_with_map {A : Type} (a c : A -> Q) (l : list A) :
  zip_with Qplus (map a l) (map c l) = map (fun d => (a d + c d)%Q) l.
Proof. induction l as [|d l IH]; simpl; [reflexivity | now rewrite IH]. Qed.

(** Adding one array per query token is adding, at each position, one
    contribution per query token. *)
Lemma add_terms_map {A B : Type} (c : B -> A -> Q) (query : list B) (l : list A)
  (a : A -> Q) :
  fold_left (fun score q => zip_with Qplus score (map (c q) l)) query (map a l)
  = map (fun d => fold_left (fun total q => (total + c q d)%Q) query (a d)) l.
Proof.
  revert a. induction query as [|q query IH]; intros a; simpl; [reflexivity|].
  rewrite zip_with_map. apply (IH (fun d => (a d + c q d)%Q)).
Qed.

Lemma Forall2_map_self {A B : Type} (P : A -> B -> Prop) (f : A -> B) (l : list A) :
  (forall x, P x (f x)) -> Forall2 P l (map f l).
Proof. intros H. induction l as [|x l IH]; simpl; constructor; auto. Qed.

Lemma score_of_comp (idf1 idf2 : string -> Q) (corpus : list (list string))
  (query doc : list string) :
  (forall t, (idf1 t == idf2 t)%Q) ->
  (score_of idf1 corpus query doc == score_of idf2 corpus query doc)%Q.
Proof.
  intros H. unfold score_of.
  assert (forall a1 a2 : Q, (a1 == a2)%Q ->
            (fold_left
               (fun total term =>
                  total + idf1 term
                          * term_weight (3 # 2) (3 # 4) (avgdoclen corpus)
                              (tf term doc) (length doc)) query a1
             == fold_left
                  (fun total term =>
                     total + idf2 term
                             * term_weight (3 # 2) (3 # 4) (avgdoclen corpus)
                                 (tf term doc) (length doc)) query a2)%Q) as Hacc.
  { induction query as [|t query IH]; intros a1 a2 Ha; simpl; [exact Ha|].
    apply IH. now rewrite Ha, (H t). }
  apply Hacc. reflexivity.
Qed.

Section ClosedForm.
Variable log : Q -> Q.

Lemma count_words_tf (document : list string) (m : gmap string nat) (w : string) :
  fold_left rank_bm25.count_word document m !! w
  = match tf w document with
    | O => m !! w
    | S _ => Some (default 0 (m !! w) + tf w document)
    end.
Proof.
  revert m. induction document as [|x d IH]; intros m; [reflexivity|].
  simpl fold_left. rewrite IH, tf_cons. unfold rank_bm25.count_word.
  destruct (String.eqb_spec w x) as [<- | Hne].
  - rewrite lookup_insert_eq. simpl. destruct (tf w d); f_equal; lia.
  - rewrite lookup_insert_ne by congruence. reflexivity.
Qed.

Lemma frequencies_of_tf (d : list string) (w : string) :
  default 0 (rank_bm25.frequencies_of d !! w) = tf w d.
Proof.
  unfold rank_bm25.frequencies_of. rewrite count_words_tf, lookup_empty.
  now destruct (tf w d).
Qed.

Lemma count_documents_seen (nd frequencies : gmap string nat) (w : string) :
  map_fold rank_bm25.count_document nd frequencies !! w
  = match frequencies !! w with
    | Some _ => Some (S (default 0 (nd !! w)))
    | None => nd !! w
    end.
Proof.
  apply (map_fold_weak_ind
           (fun r m =>
              r !! w = match m !! w with
                       | Some _ => Some (S (default 0 (nd !! w)))
                       | None => nd !! w
                       end)).
  - now rewrite lookup_empty.
  - intros i x m r Hi IH. unfold rank_bm25.count_document.
    destruct (decide (i = w)) as [-> | Hne].
    + rewrite !lookup_insert_eq. rewrite Hi in IH. now rewrite IH.
    + now rewrite !lookup_insert_ne by exact Hne.
Qed.

(** [nd] counts, for each word, the documents that contain it. *)
Lemma initialize_nd_df (corpus : list (list string)) (st : rank_bm25.counts)
  (w : string) :
  rank_bm25.c_nd (fold_left rank_bm25.initialize_step corpus st) !! w
  = match df w corpus with
    | O => rank_bm25.c_nd st !! w
    | S _ => Some (default 0 (rank_bm25.c_nd st !! w) + df w corpus)
    end.
Proof.
  revert st. induction corpus as [|d corpus IH]; intros st; [reflexivity|].
  simpl fold_left. rewrite IH, df_cons. simpl rank_bm25.c_nd.
  rewrite count_documents_seen.
  unfold rank_bm25.frequencies_of. rewrite count_words_tf, lookup_empty, existsb_tf.
  destruct (tf w d); simpl; [reflexivity|].
  destruct (df w corpus); f_equal; lia.
Qed.

Lemma initialize_num_doc (corpus : list (list string)) (st : rank_bm25.counts) :
  rank_bm25.c_num_doc (fold_left rank_bm25.initialize_step corpus st)
  = rank_bm25.c_num_doc st + list_sum (map (@length string) corpus).
Proof.
  revert st. induction corpus as [|d corpus IH]; intros st; simpl; [lia|].
  rewrite IH. simpl. lia.
Qed.

(** The loop of [_calc_idf]: the unfloored weight of every word, the words
    whose weight is negative, and the sum of the weights. *)
Lemma calc_idf_loop (N : nat) (nd : gmap string nat) :
  let st := map_fold (rank_bm25.calc_idf_step log N) (∅, 0%Q, []) nd in
  st.1.1 = idf_unfloored log N <$> nd
  /\ (forall w, In w st.2
                <-> exists n, nd !! w = Some n
                              /\ Qltb (idf_unfloored log N n) 0 = true)
  /\ (st.1.2 == Qsum (map (fun p => idf_unfloored log N p.2) (map_to_list nd)))%Q.
Proof.
  cbv zeta.
  apply (map_fold_weak_ind
           (fun (r : rank_bm25.idf_state) m =>
              r.1.1 = idf_unfloored log N <$> m
              /\ (forall w, In w r.2
                            <-> exists n, m !! w = Some n
                                          /\ Qltb (idf_unfloored log N n) 0 = true)
              /\ (r.1.2 == Qsum (map (fun p => idf_unfloored log N p.2)
                                   (map_to_list m)))%Q)).
  - split; [now rewrite fmap_empty|]. split; [|now rewrite map_to_list_empty].
    intros w. split; [intros [] | intros (n & Hn & _)].
    now rewrite lookup_empty in Hn.
  - intros i x m [[idf s] negs] Hi (H1 & H2 & H3). simpl in *.
    fold (idf_unfloored log N x).
    split; [now rewrite fmap_insert, H1|]. split.
    + intros w. destruct (Qltb (idf_unfloored log N x) 0) eqn:Hneg.
      * rewrite in_app_iff, H2. simpl. split.
        -- intros [(n & Hn & Hlt) | [<- | []]].
           ++ exists n. split; [|exact Hlt].
              rewrite lookup_insert_ne; [exact Hn|]. intros ->. congruence.
           ++ exists x. split; [apply lookup_insert_eq | exact Hneg].
        -- intros (n & Hn & Hlt).
           destruct (decide (i = w)) as [-> | Hne]; [right; now left|].
           left. exists n. rewrite lookup_insert_ne in Hn by exact Hne. auto.
      * rewrite H2. split.
        -- intros (n & Hn & Hlt). exists n. split; [|exact Hlt].
           rewrite lookup_insert_ne; [exact Hn|]. intros ->. congruence.
        -- intros (n & Hn & Hlt). destruct (decide (i = w)) as [-> | Hne].
           ++ rewrite lookup_insert_eq in Hn. injection Hn as <-. congruence.
           ++ rewrite lookup_insert_ne in Hn by exact Hne. eauto.
    + rewrite (Qsum_perm _ _
                 (Permutation_map (fun p => idf_unfloored log N p.2)
                    (map_to_list_insert m i x Hi))).
      simpl. rewrite H3. ring.
Qed.

Lemma floor_lookup_in (eps : Q) (negative_idfs : list string)
  (idf : gmap string Q) (w : string) :
  In w negative_idfs ->
  fold_left (fun idf word => <[word := eps]> idf) negative_idfs idf !! w = Some eps.
Proof.
  revert idf. induction negative_idfs as [|x l IH]; intros idf Hw; [destruct Hw|].
  simpl. destruct (in_dec String.string_dec w l) as [Hin | Hout]; [now apply IH|].
  destruct Hw as [-> | Hin]; [|contradiction].
  rewrite floor_lookup by exact Hout. apply lookup_insert_eq.
Qed.

(** The words of [nd] are the vocabulary, each with its document
    frequency. *)
Lemma nd_vocabulary (corpus : list (list string)) (nd : gmap string nat) :
  (forall w, nd !! w = match df w corpus with
                       | O => None
                       | S _ => Some (df w corpus)
                       end) ->
  Permutation (map_to_list nd) (map (fun w => (w, df w corpus)) (vocabulary corpus)).
Proof.
  intros Hnd. apply Permutation.NoDup_Permutation.
  - apply NoDup_ListNoDup, NoDup_map_to_list.
  - apply NoDup_map_key, NoDup_nodup.
  - intros [w n].
    rewrite <- list_elem_of_In, elem_of_map_to_list, Hnd, in_map_iff.
    unfold vocabulary. split.
    + intros H. exists w. rewrite nodup_In, <- df_positive.
      destruct (df w corpus); [discriminate|]. injection H as <-. now split.
    + intros (w' & [= <- <-] & Hin). apply nodup_In, df_positive in Hin.
      now destruct (df w' corpus).
Qed.

(** What the constructor stores, in terms of the corpus. *)
Lemma new_closed_form (corpus : list (list string)) (self : rank_bm25.BM25Okapi) :
  rank_bm25.new log corpus = Ok self ->
  rank_bm25.k1 self = (3 # 2)%Q
  /\ rank_bm25.b self = (3 # 4)%Q
  /\ rank_bm25.avgdl self = avgdoclen corpus
  /\ (forall w, default 0%Q (rank_bm25.idf self !! w)
                = idf_floored log corpus (rank_bm25.average_idf self) w)
  /\ (rank_bm25.average_idf self == mean_idf log corpus)%Q.
Proof.
  unfold rank_bm25.new, rank_bm25._initialize, rank_bm25._calc_idf.
  destruct (initialize_fold corpus rank_bm25.counts0) as (Hsize & _).
  simpl in Hsize.
  pose proof (initialize_num_doc corpus rank_bm25.counts0) as Hnum. simpl in Hnum.
  assert (forall w,
            rank_bm25.c_nd (fold_left rank_bm25.initialize_step corpus rank_bm25.counts0)
              !! w
            = match df w corpus with
              | O => None
              | S _ => Some (df w corpus)
              end) as Hnd.
  { intros w. rewrite initialize_nd_df. simpl. now rewrite lookup_empty. }
  destruct (_ =? 0)%nat; simpl; [discriminate|].
  revert Hnd. rewrite Hsize, Hnum.
  generalize (rank_bm25.c_nd
                (fold_left rank_bm25.initialize_step corpus rank_bm25.counts0)).
  intros nd Hnd.
  pose proof (calc_idf_loop (length corpus) nd) as Hloop. cbv zeta in Hloop.
  destruct (map_fold _ _ nd) as [[idf0 s] negs]. simpl in Hloop.
  destruct Hloop as (Hidf & Hneg & Hsum).
  destruct (_ =? 0)%nat; simpl; [discriminate|].
  intros [= <-]. simpl.
  split; [reflexivity|]. split; [reflexivity|]. split; [reflexivity|]. split.
  - intros w. unfold idf_floored. specialize (Hnd w). specialize (Hneg w).
    destruct (df w corpus) as [|k].
    + rewrite floor_lookup.
      * now rewrite Hidf, lookup_fmap, Hnd.
      * rewrite Hneg. intros (n & Hn & _). congruence.
    + cbv zeta. destruct (Qltb (idf_unfloored log (length corpus) (S k)) 0) eqn:Hlt.
      * rewrite floor_lookup_in; [reflexivity|]. apply Hneg. eauto.
      * rewrite floor_lookup.
        -- now rewrite Hidf, lookup_fmap, Hnd.
        -- rewrite Hneg. intros (n & Hn & Hlt'). congruence.
  - unfold mean_idf. rewrite Hsum, Hidf, map_size_fmap, <- length_map_to_list.
    pose proof (nd_vocabulary corpus nd Hnd) as Hperm.
    rewrite (Qsum_perm _ _
               (Permutation_map (fun p => idf_unfloored log (length corpus) p.2) Hperm)).
    rewrite (Permutation_length Hperm), map_map, length_map. reflexivity.
Qed.

Lemma term_scores_map (corpus : list (list string)) (self : rank_bm25.BM25Okapi)
  (q : string) :
  rank_bm25.doc_freqs self = map rank_bm25.frequencies_of corpus ->
  rank_bm25.doc_len self = map (@length string) corpus ->
  rank_bm25.term_scores self q
  = map (fun d =>
           (default 0 (rank_bm25.idf self !! q)
            * term_weight (rank_bm25.k1 self) (rank_bm25.b self)
                (rank_bm25.avgdl self) (tf q d) (length d))%Q)
      corpus.
Proof.
  intros Hf Hl. unfold rank_bm25.term_scores. rewrite Hf, Hl. clear Hf Hl.
  induction corpus as [|d corpus IH]; simpl; [reflexivity|].
  rewrite IH. f_equal. now rewrite frequencies_of_tf.
Qed.

Lemma idf_floored_comp (corpus : list (list string)) (a1 a2 : Q) (t : string) :
  (a1 == a2)%Q ->
  (idf_floored log corpus a1 t == idf_floored log corpus a2 t)%Q.
Proof.
  intros Ha. unfold idf_floored. destruct (df t corpus); [reflexivity|].
  cbv zeta. destruct (Qltb _ 0); [now rewrite Ha | reflexivity].
Qed.

(** The array that [get_scores] returns, position by position. *)
Lemma get_scores_closed_form (corpus : list (list string))
  (self : rank_bm25.BM25Okapi) (query : list string) :
  rank_bm25.new log corpus = Ok self ->
  Forall2 (fun doc s => (s == score_as_computed log corpus query doc)%Q)
    corpus (rank_bm25.get_scores self query).
Proof.
  intros Hnew.
  destruct (new_shape _ _ _ Hnew) as (Hn & _).
  destruct (new_tables _ _ _ Hnew) as (Hf & Hl).
  destruct (new_closed_form _ _ Hnew) as (Hk & Hb & Ha & Hidf & Hmean).
  unfold rank_bm25.get_scores. rewrite Hn.
  rewrite (fold_left_pointwise _
             (fun score q =>
                zip_with Qplus score
                  (map (fun d =>
                          (idf_floored log corpus (rank_bm25.average_idf self) q
                           * term_weight (3 # 2) (3 # 4) (avgdoclen corpus)
                               (tf q d) (length d))%Q) corpus))).
  2:{ intros score q.
      now rewrite (term_scores_map corpus self q Hf Hl), Hk, Hb, Ha, Hidf. }
  replace (repeat 0%Q (length corpus))
    with (map (fun _ : list string => 0%Q) corpus)
    by (clear; induction corpus; simpl; congruence).
  rewrite (add_terms_map
             (fun q d =>
                (idf_floored log corpus (rank_bm25.average_idf self) q
                 * term_weight (3 # 2) (3 # 4) (avgdoclen corpus)
                     (tf q d) (length d))%Q)).
  apply Forall2_map_self. intros doc.
  change (score_of (idf_floored log corpus (rank_bm25.average_idf self)) corpus
            query doc
          == score_of (idf_floored log corpus (mean_idf log corpus)) corpus
               query doc)%Q.
  exact (score_of_comp _ _ corpus query doc
           (fun t => idf_floored_comp corpus _ _ t Hmean)).
Qed.
End ClosedForm.

(** C7 (amended). For every built index, the score of a document for a
    query is, in exact arithmetic and for every logarithm, the sum over the
    query-term occurrences of
    [idf(term) * (tf * (k1 + 1)) / (tf + k1 * (1 - b + b * doclen / avgdoclen))]
    with k1 = 1.5 and b = 0.75, where [idf(term)] is
    [ln(N - df + 0.5) - ln(df + 0.5)] when that value is not negative, 0.25
    times the mean of these values over the vocabulary when it is negative,
    and 0 for a term outside the vocabulary; [retrieve_relevant_trials]
    raises nothing and passes each score, negative or not, unchanged into
    the entry of its document. *)
Theorem score_formula (log : Q -> Q) (loaded : list Trial)
  (files : TrialIndexer.saved) (self : RAGChatbot.t) (tokens : list string)
  (query : string) (K : Z) :
  TrialIndexer.build_index log loaded = Ok files ->
  loaded_from files self ->
  Forall2
    (fun doc s =>
       (s == score_as_computed log (TrialIndexer.tokenized_corpus files) tokens doc)%Q)
    (TrialIndexer.tokenized_corpus files)
    (rank_bm25.get_scores (RAGChatbot.bm25 self) tokens)
  /\ exists res,
       RAGChatbot.retrieve_relevant_trials self query K = Ok res
       /\ List.Forall
            (fun item =>
               exists doc,
                 TrialIndexer.tokenized_corpus files !! RAGChatbot.index item
                 = Some doc
                 /\ (RAGChatbot.score item
                     == score_as_computed log (TrialIndexer.tokenized_corpus files)
                          (RAGChatbot.tokenize query) doc)%Q)
            res.
Proof.
  intros Hb Hl.
  destruct (build_index_aligned _ _ _ _ Hb Hl) as [Hal Htr].
  destruct (retrieve_aligned self query K Hal) as [Hlen Hres].
  pose proof (build_index_inv _ _ _ Hb) as (_ & Hc & Hnew).
  destruct Hl as (Hbm & _ & _). rewrite Hbm in *.
  split; [now apply get_scores_closed_form|].
  eexists. split; [exact Hres|].
  pose proof (get_scores_closed_form log _ _ (RAGChatbot.tokenize query) Hnew) as Hall.
  apply Forall_map. eapply List.Forall_impl;
    [|apply slice_to_Forall, ranking_in_range].
  intros idx Hidx. simpl.
  destruct (lookup_lt_is_Some_2 _ _ Hidx) as [s Hs].
  destruct (Forall2_lookup_r _ _ _ _ _ Hall Hs) as (doc & Hdoc & Heq).
  exists doc. split; [exact Hdoc|].
  now rewrite (nth_lookup_Some _ _ _ _ Hs).
Qed.

(** C7 (amended) on the sample corpus, for the query [ptsd trial] and two
    results. *)
Lemma score_formula_witness :
  Forall2
    (fun doc s =>
       (s == score_as_computed log_q (TrialIndexer.tokenized_corpus sample_files)
               ["ptsd"; "trial"] doc)%Q)
    (TrialIndexer.tokenized_corpus sample_files)
    (rank_bm25.get_scores (RAGChatbot.bm25 (RAGChatbot.init sample_files))
       ["ptsd"; "trial"])
  /\ exists res,
       RAGChatbot.retrieve_relevant_trials (RAGChatbot.init sample_files)
         "ptsd trial" 2 = Ok res
       /\ List.Forall
            (fun item =>
               exists doc,
                 TrialIndexer.tokenized_corpus sample_files !! RAGChatbot.index item
                 = Some doc
                 /\ (RAGChatbot.score item
                     == score_as_computed log_q
                          (TrialIndexer.tokenized_corpus sample_files)
                          (RAGChatbot.tokenize "ptsd trial") doc)%Q)
            res.
Proof.
  exact (score_formula log_q sample_trials sample_files
           (RAGChatbot.init sample_files) ["ptsd"; "trial"] "ptsd trial" 2
           sample_built (loaded_from_init sample_files)).
Defined.

(** C7 as stated fails on the index of three records that all contain
    [cancer]: for the query [cancer] the code scores every document below
    zero, its weight for the token being the floor
    [0.25 * average_idf] = -78044536/281302875 under [log_q], while the
    stated weight [ln((3 - 3 + 0.5) / (3 + 0.5) + 1)] = 1352/10125 makes
    every score positive.  Under the real logarithm the signs are the
    same: [ln 0.5 - ln 3.5 < 0 < ln (8/7)]. *)
Lemma score_not_as_specified :
  (try! scores := common_scores ["cancer"] in Ok (map Qred scores))
  = Ok [-312178144 # 1052876475; -312178144 # 1052876475; -156089072 # 634940775]
  /\ map (fun doc => Qred (score_as_specified log_q common_corpus ["cancer"] doc))
       common_corpus
     = [37856 # 265275; 37856 # 265275; 18928 # 159975].
Proof. split; vm_compute; reflexivity. Qed.
